(** * Chart template store of zadig: ingest, variable extraction and merge

    A shallow embedding of
    [pkg/microservice/aslan/core/templatestore/service/chart.go].

    - Pure code (the placeholder pattern, the string set, the merge loop of
      [UpdateChartTemplate]) is written as functions.
    - Code that talks to collaborators (the chart collection in mongodb, the
      source puller, the two storage tiers, the local file system, the logger)
      is written in a small monad that threads the state of the outside world
      and records every call together with its answer.
    - The two goroutines of [processChartFromSource] are written as two
      sequential tasks whose steps are interleaved by a schedule.

    Two neighbours of the store follow, each in a part of its own: the code
    host clients of [pkg/microservice/aslan/core/code/client] and the instant
    messages of [pkg/microservice/aslan/core/common/service/instantmessage]. *)

From Stdlib Require Import Ascii ZArith DecimalString.
From stdpp Require Import base option list gmap strings sorting.

Local Open Scope Z_scope.
Local Open Scope stdpp_scope.

(* stdpp's solvers clear hypotheses that may already be gone. *)
#[local] Set Warnings "-clear-no-such-hyp".

(** ** Data model *)

(** Go's [error] interface. A collaborator reports any value of it;
    [fmt.Errorf] builds an [errorString]; [errors.Wrap] and [errors.Wrapf]
    keep the cause and add a message. *)
Inductive error : Type :=
| errorString (msg : string)
| withMessage (cause : error) (msg : string).

Module commonmodels.
  (** [commonmodels.Variable]: the stored key and the value the user gave it. *)
Record Variable' : Type := mkVariable { Key : string; Value : string }.
End commonmodels.

(** [service.Variable], the variable as the API passes it in. *)
Record Variable' : Type := mkVariable { Key : string; Value : string }.

Module models.
  (** [models.Chart], the Template Record held by the chart collection. *)
Record Chart : Type := mkChart {
  Name : string;
  Owner : string;
  Repo : string;
  Path : string;
  Branch : string;
  CodeHostID : Z;
  Sha1 : string;
  Variables : list commonmodels.Variable'
}.

(** Modelled from the spec: [Chart.GetVariableMap] is declared in
    [templatestore/repository/models], not among the source files at hand. A Template
    Record holds an ordered list of Variables, each a key and a value; the map
    indexes that list by key, a later entry of a key replacing an earlier
    one. *)
Definition GetVariableMap (c : Chart) : gmap string commonmodels.Variable' :=
  fold_left (fun res v => <[commonmodels.Key v := v]> res) (Variables c) ∅.
End models.

Module fs.
  (** [fs.DownloadFromSourceArgs], the Source Descriptor. *)
Record DownloadFromSourceArgs : Type := mkArgs {
  CodehostID : Z;
  Owner : string;
  Repo : string;
  Path : string;
  Branch : string
}.
End fs.

(** An artifact tree ([afero.Fs] filled by the puller): relative path to
    content. *)
Abbreviation Tree := (gmap string string).

(** ** The placeholder pattern *)

Definition dollar : ascii := "$"%char.
Definition lineFeed : ascii := "010"%char.

(** [regexp/syntax]: [.] matches any character, a line feed only when flag
    [s] is set. The flag is off in a pattern that does not set it. *)
Definition matchesDot (flag_s : bool) (c : ascii) : bool :=
  flag_s || negb (Ascii.eqb c lineFeed).

(** [(.*?)\$] read from the character after the opening dollar sign. The lazy
    star first tries to stop: a dollar sign here closes the match. Otherwise
    it takes one more character that [.] accepts. The answer is the capture
    and the number of characters read, the closing sign included. *)
Fixpoint lazyCapture (flag_s : bool) (s : string) : option (string * nat) :=
  match s with
  | EmptyString => None
  | String c rest =>
      if Ascii.eqb c dollar then Some (EmptyString, 1%nat)
      else if matchesDot flag_s c then
        match lazyCapture flag_s rest with
        | Some (cap, n) => Some (String c cap, S n)
        | None => None
        end
      else None
  end.

(** [\$(.*?)\$] anchored at the head of [s]: the capture and the length of
    the whole match. *)
Definition matchAt (flag_s : bool) (s : string) : option (string * nat) :=
  match s with
  | EmptyString => None
  | String c rest =>
      if Ascii.eqb c dollar then
        match lazyCapture flag_s rest with
        | Some (cap, n) => Some (cap, S n)
        | None => None
        end
      else None
  end.

(** [Regexp.FindAllStringSubmatch(s, -1)] for this pattern: the leftmost
    match is looked for from the current position, and the search resumes
    where the match ended ([skip] counts the characters of the last match
    still to pass). Every match is the slice [whole; capture]. *)
Fixpoint FindAllStringSubmatch (flag_s : bool) (skip : nat) (s : string)
  : list (list string) :=
  match s with
  | EmptyString => []
  | String c rest =>
      match skip with
      | S k => FindAllStringSubmatch flag_s k rest
      | O =>
          match matchAt flag_s s with
          | Some (cap, len) =>
              [String dollar (cap +:+ String dollar EmptyString); cap]
                :: FindAllStringSubmatch flag_s (len - 1) rest
          | None => FindAllStringSubmatch flag_s 0 rest
          end
      end
  end.

(** [variableExtractRegexp = regexp.MustCompile("\\$(.*?)\\$")]: no flag. *)
Definition variableExtractRegexp (s : string) : list (list string) :=
  FindAllStringSubmatch false 0 s.

(** *** What a match is

    The declarative reading of the pattern, against which the scanner above is
    checked. A capture is [clean] when it holds no dollar sign and only
    characters that [.] accepts. *)
Fixpoint clean (flag_s : bool) (cap : string) : bool :=
  match cap with
  | EmptyString => true
  | String c rest => negb (Ascii.eqb c dollar) && matchesDot flag_s c && clean flag_s rest
  end.

(** [Tokens flag_s s caps]: [caps] are the captures of the matches of the
    pattern in [s], found from left to right without overlap: at each position
    a match is taken when there is one (a dollar sign, a clean capture, a
    dollar sign), and one character is passed when there is none. *)
Inductive Tokens (flag_s : bool) : string -> list string -> Prop :=
| Tokens_end : Tokens flag_s EmptyString []
| Tokens_match (cap rest : string) (caps : list string) :
    clean flag_s cap = true ->
    Tokens flag_s rest caps ->
    Tokens flag_s (String dollar (cap +:+ String dollar rest)) (cap :: caps)
| Tokens_skip (c : ascii) (s : string) (caps : list string) :
    (forall cap rest, clean flag_s cap = true ->
                      String c s <> String dollar (cap +:+ String dollar rest)) ->
    Tokens flag_s s caps ->
    Tokens flag_s (String c s) caps.

(** The first submatch of every match. *)
Definition capturesOf (allMatches : list (list string)) : list string :=
  (fun match_ => default EmptyString (match_ !! 1%nat)) <$> allMatches.

(** ** [sets.String] *)

(** Go compares strings byte by byte. *)
Definition string_le (a b : string) : Prop := String.leb a b = true.
Definition string_lt (a b : string) : Prop := String.ltb a b = true.

#[global] Instance string_le_dec a b : Decision (string_le a b).
Proof. unfold string_le. apply _. Defined.

(** [strSet.Insert(items...)] *)
Definition Insert (strSet : gset string) (items : list string) : gset string :=
  strSet ∪ list_to_set items.

(** [strSet.List()]: the members, sorted. *)
Definition SortedList (strSet : gset string) : list string :=
  merge_sort string_le (elements strSet).

(** The loop of [parseTemplateVariables] over the content of values.yaml. *)
Definition collectVariables (allMatches : list (list string)) : gset string :=
  fold_left
    (fun strSet match_ =>
       if (length match_ <? 1)%nat then strSet
       else Insert strSet (drop 1 match_))
    allMatches ∅.

Definition variablesOfContent (valueYamlContent : string) : list string :=
  SortedList (collectVariables (variableExtractRegexp valueYamlContent)).

(** The extractor as the specification words it: the captures of the
    non-overlapping, non-greedy matches of a dollar sign, the shortest inner
    text, a dollar sign, where the inner text is any text at all. *)
Definition extractAsStated (fileContent : string) : list string :=
  SortedList (collectVariables (FindAllStringSubmatch true 0 fileContent)).

(** ** The merge loop of [UpdateChartTemplate] *)

Definition mergeVariables (variablesNames : list string)
    (curVariableMap : gmap string commonmodels.Variable')
  : list commonmodels.Variable' :=
  fold_left
    (fun variables vName =>
       let variable := commonmodels.mkVariable vName EmptyString in
       let variable :=
         match curVariableMap !! vName with
         | Some v => commonmodels.mkVariable (commonmodels.Key variable)
                                             (commonmodels.Value v)
         | None => variable
         end in
       variables ++ [variable])
    variablesNames [].

(** ** Collaborators

    Every call the service makes to code outside this file. The index of an
    event is the Go type of the answer: a function that returns [error] alone
    answers [option error] ([None] is [nil]); one that returns a value and an
    error answers the value or the error. *)

Inductive Level : Type := LDebug | LWarn | LError.

Inductive Ev : Type -> Type :=
(* mongodb.NewChartColl() *)
| mongodb_Exist (name : string) : Ev bool
| mongodb_Get (name : string) : Ev (error + models.Chart)
| mongodb_Create (chart : models.Chart) : Ev (option error)
| mongodb_Update (chart : models.Chart) : Ev (option error)
| mongodb_Delete (name : string) : Ev (option error)
(* package fs *)
| fs_DownloadFilesFromSource (args : fs.DownloadFromSourceArgs) : Ev (error + Tree)
| fs_SaveAndUploadFiles (tree : Tree) (name localBase s3Base : string) : Ev (option error)
| fs_PreloadFiles (name localBase s3Base : string) : Ev (option error)
| fs_DeleteArchivedFileFromS3 (name s3Base : string) : Ev (option error)
(* package os *)
| os_MkdirTemp : Ev (error + string)
| os_RemoveAll (path : string) : Ev (option error)
| os_ReadFile (file : string) : Ev (error + string)
(* package fsutil; Sha1 answers its string whatever the error is *)
| fsutil_Tar (tree : Tree) (tarball : string) : Ev (option error)
| fsutil_Sha1 (dir fileName : string) : Ev (string * option error)
(* the logger: level and format string (the arguments are left out) *)
| logger_Log (lvl : Level) (format : string) : Ev unit.

(** What a run leaves behind: each call with its answer, and each assignment
    to a variable the two goroutines share. *)
Inductive Obs : Type :=
| ObsExist (name : string) (r : bool)
| ObsGet (name : string) (r : error + models.Chart)
| ObsCreate (chart : models.Chart) (r : option error)
| ObsUpdate (chart : models.Chart) (r : option error)
| ObsDelete (name : string) (r : option error)
| ObsDownload (args : fs.DownloadFromSourceArgs) (r : error + Tree)
| ObsSaveAndUpload (tree : Tree) (name localBase s3Base : string) (r : option error)
| ObsPreload (name localBase s3Base : string) (r : option error)
| ObsDeleteArchived (name s3Base : string) (r : option error)
| ObsMkdirTemp (r : error + string)
| ObsRemoveAll (path : string) (r : option error)
| ObsReadFile (file : string) (r : error + string)
| ObsTar (tree : Tree) (tarball : string) (r : option error)
| ObsSha1 (dir fileName : string) (r : string * option error)
| ObsLog (lvl : Level) (format : string)
| ObsAssignErr (e : error)
| ObsAssignSha1 (s : string).

Definition observe {X} (e : Ev X) : X -> Obs :=
  match e in Ev X return X -> Obs with
  | mongodb_Exist name => ObsExist name
  | mongodb_Get name => ObsGet name
  | mongodb_Create chart => ObsCreate chart
  | mongodb_Update chart => ObsUpdate chart
  | mongodb_Delete name => ObsDelete name
  | fs_DownloadFilesFromSource args => ObsDownload args
  | fs_SaveAndUploadFiles tree name localBase s3Base =>
      ObsSaveAndUpload tree name localBase s3Base
  | fs_PreloadFiles name localBase s3Base => ObsPreload name localBase s3Base
  | fs_DeleteArchivedFileFromS3 name s3Base => ObsDeleteArchived name s3Base
  | os_MkdirTemp => ObsMkdirTemp
  | os_RemoveAll path => ObsRemoveAll path
  | os_ReadFile file => ObsReadFile file
  | fsutil_Tar tree tarball => ObsTar tree tarball
  | fsutil_Sha1 dir fileName => ObsSha1 dir fileName
  | logger_Log lvl format => fun _ => ObsLog lvl format
  end.

(** A trace entry: who acted (0 is the calling goroutine, 1 and 2 are the two
    started by [processChartFromSource]) and what happened. *)
Abbreviation Trace := (list (nat * Obs)).

(** Writes to the Metadata Store. *)
Definition metadataWrite (o : Obs) : bool :=
  match o with
  | ObsCreate _ _ | ObsUpdate _ _ | ObsDelete _ _ => true
  | _ => false
  end.

(** Writes to the Local Cache or the Durable Store. *)
Definition tierWrite (o : Obs) : bool :=
  match o with
  | ObsSaveAndUpload _ _ _ _ _ | ObsPreload _ _ _ _ | ObsDeleteArchived _ _ _ => true
  | _ => false
  end.

(** The calls by which [GetFileContent] reads the variables file. *)
Definition variableRead (o : Obs) : bool :=
  match o with
  | ObsPreload _ _ _ _ | ObsReadFile _ _ => true
  | _ => false
  end.

(** The error a call of the fork-join phase answered, if it answered one:
    the persist task fails when [fs.SaveAndUploadFiles] does, the hash task
    when [os.MkdirTemp], [fsutil.Tar] or [fsutil.Sha1] does. *)
Definition persistFailure (o : Obs) : option error :=
  match o with
  | ObsSaveAndUpload _ _ _ _ r => r
  | _ => None
  end.

Definition hashFailure (o : Obs) : option error :=
  match o with
  | ObsMkdirTemp (inl e) => Some e
  | ObsTar _ _ r => r
  | ObsSha1 _ _ (_, r) => r
  | _ => None
  end.

(** Calls to the Metadata Store, reads and writes alike. *)
Definition metadataCall (o : Obs) : bool :=
  match o with
  | ObsExist _ _ | ObsGet _ _ | ObsCreate _ _ | ObsUpdate _ _ | ObsDelete _ _ => true
  | _ => false
  end.

(** The error answered to [GetFileContent] by the preload or by the read of
    the file, if one was. *)
Definition readFailure (o : Obs) : option error :=
  match o with
  | ObsPreload _ _ _ r => r
  | ObsReadFile _ (inl e) => Some e
  | _ => None
  end.

(** ** Goroutines *)

(** The variables of [processChartFromSource] its two goroutines share. *)
Record Cells : Type := mkCells { err : option error; sha1 : string }.

(** The body of a goroutine: calls and assignments to the shared variables. *)
Inductive Task : Type :=
| Return
| Call {X : Type} (e : Ev X) (k : X -> Task)
| AssignErr (e : error) (k : Task)
| AssignSha1 (s : string) (k : Task).

(** The assignments of a trace, applied in order. *)
Definition assign (c : Cells) (o : nat * Obs) : Cells :=
  match o.2 with
  | ObsAssignErr e => mkCells (Some e) (sha1 c)
  | ObsAssignSha1 s => mkCells (err c) s
  | _ => c
  end.

(** The error variable after the assignments of a trace, from [nil]: the
    error assigned last. *)
Definition lastAssignedErr (tr : Trace) : option error :=
  err (fold_left assign tr (mkCells None EmptyString)).

(** The entries of a goroutine in a trace. *)
Definition entriesOf (tid : nat) (tr : Trace) : list Obs :=
  (filter (fun o => o.1 = tid) tr).*2.

(** [l] is a complete run of [t]: its calls in order, each with an answer,
    up to its return. *)
Fixpoint runs (t : Task) (l : list Obs) : Prop :=
  match t with
  | Return => l = []
  | Call e k => exists x l', l = observe e x :: l' /\ runs (k x) l'
  | AssignErr e k => exists l', l = ObsAssignErr e :: l' /\ runs k l'
  | AssignSha1 s k => exists l', l = ObsAssignSha1 s :: l' /\ runs k l'
  end.

(** ** The service *)

Section Service.

(** The outside world and how it answers a call. *)
Context {W : Type}.
Variable handle : forall X : Type, Ev X -> W -> X * W.

(** [configbase.LocalChartTemplatePath], [configbase.ObjectStorageChartTemplatePath],
    [filepath.Base], [filepath.Join] and [setting.ValuesYaml]. *)
Variable LocalChartTemplatePath : string -> string.
Variable ObjectStorageChartTemplatePath : string -> string.
Variable filepath_Base : string -> string.
Variable filepath_Join : list string -> string.
Variable ValuesYaml : string.

(** A computation reads the schedule of the goroutines, changes the world and
    leaves a trace. *)
Definition M (A : Type) : Type := list bool -> W -> A * W * Trace.

Definition ret {A : Type} (a : A) : M A := fun _ w => (a, w, []).

Definition bind {A B : Type} (m : M A) (f : A -> M B) : M B :=
  fun sched w =>
    let '(a, w1, tr1) := m sched w in
    let '(b, w2, tr2) := f a sched w1 in
    (b, w2, tr1 ++ tr2).

Notation "'do' x <- m ; k" := (bind m (fun x => k))
  (at level 10, x name, m at level 100, k at level 200).
Notation "m ;; k" := (bind m (fun _ => k))
  (at level 100, k at level 200, right associativity).

(** A call of the calling goroutine. *)
Definition call {X : Type} (e : Ev X) : M X :=
  fun _ w => let '(x, w') := handle X e w in (x, w', [(0%nat, observe e x)]).

Definition log (lvl : Level) (format : string) : M unit :=
  call (logger_Log lvl format).

(** *** [wait.Group] *)

(** One step of goroutine [tid]; [None] when it has returned. *)
Definition step (tid : nat) (t : Task) (c : Cells) (w : W)
  : option (Task * Cells * W * (nat * Obs)) :=
  match t with
  | Return => None
  | Call e k => let '(x, w') := handle _ e w in Some (k x, c, w', (tid, observe e x))
  | AssignErr e k => Some (k, mkCells (Some e) (sha1 c), w, (tid, ObsAssignErr e))
  | AssignSha1 s k => Some (k, mkCells (err c) s, w, (tid, ObsAssignSha1 s))
  end.

(** Goroutine [tid] runs until it returns. *)
Fixpoint finish (tid : nat) (t : Task) (c : Cells) (w : W) : Cells * W * Trace :=
  match t with
  | Return => (c, w, [])
  | Call e k =>
      let '(x, w1) := handle _ e w in
      let '(c', w', tr) := finish tid (k x) c w1 in
      (c', w', (tid, observe e x) :: tr)
  | AssignErr e k =>
      let '(c', w', tr) := finish tid k (mkCells (Some e) (sha1 c)) w in
      (c', w', (tid, ObsAssignErr e) :: tr)
  | AssignSha1 s k =>
      let '(c', w', tr) := finish tid k (mkCells (err c) s) w in
      (c', w', (tid, ObsAssignSha1 s) :: tr)
  end.

(** [wg.Start(t1); wg.Start(t2); wg.Wait()]: the schedule says which goroutine
    takes the next step ([true]: the first); a goroutine that has returned
    takes none. When the schedule is used up the first goroutine runs to its
    end, then the second. [Wait] returns when both have returned. A step is a
    call or an assignment, taken as a whole: the assignments to [err] are not
    synchronised in the code, and the model lets them land in either order
    but does not tear them. *)
Fixpoint wg_Wait (sched : list bool) (t1 t2 : Task) (c : Cells) (w : W)
  : Cells * W * Trace :=
  match sched with
  | [] =>
      let '(c1, w1, tr1) := finish 1 t1 c w in
      let '(c2, w2, tr2) := finish 2 t2 c1 w1 in
      (c2, w2, tr1 ++ tr2)
  | true :: sched' =>
      match step 1 t1 c w with
      | Some (t1', c', w', o) =>
          let '(cf, wf, tr) := wg_Wait sched' t1' t2 c' w' in (cf, wf, o :: tr)
      | None => wg_Wait sched' t1 t2 c w
      end
  | false :: sched' =>
      match step 2 t2 c w with
      | Some (t2', c', w', o) =>
          let '(cf, wf, tr) := wg_Wait sched' t1 t2' c' w' in (cf, wf, o :: tr)
      | None => wg_Wait sched' t1 t2 c w
      end
  end.

Definition fork_join (t1 t2 : Task) (c : Cells) : M Cells :=
  fun sched w => wg_Wait sched t1 t2 c w.

(** *** [GetFileContent] *)
Definition GetFileContent (name filePath fileName : string) : M (error + string) :=
  do r <- call (mongodb_Get name);
  match r with
  | inl err => log LError "Failed to get chart template %s, err: %s" ;; ret (inl err)
  | inr chart =>
      let localBase := LocalChartTemplatePath name in
      let s3Base := ObjectStorageChartTemplatePath name in
      do r <- call (fs_PreloadFiles name localBase s3Base);
      match r with
      | Some err => ret (inl err)
      | None =>
          let base := filepath_Base (models.Path chart) in
          let file := filepath_Join [localBase; base; filePath; fileName] in
          do r <- call (os_ReadFile file);
          match r with
          | inl err => log LError "Failed to read file %s, err: %s" ;; ret (inl err)
          | inr fileContent => ret (inr fileContent)
          end
      end
  end.

(** *** [parseTemplateVariables] *)
Definition parseTemplateVariables (name : string) : M (error + list string) :=
  do r <- GetFileContent name EmptyString ValuesYaml;
  match r with
  | inl err => ret (inl (withMessage err "failed to read values.yaml"))
  | inr valueYamlContent => ret (inr (variablesOfContent valueYamlContent))
  end.

(** *** [processChartFromSource] *)

(** The first goroutine: persist to the two tiers. *)
Definition persistTask (tree : Tree) (name : string) : Task :=
  Call (logger_Log LDebug "Start to save and upload chart") (fun _ =>
  let localBase := LocalChartTemplatePath name in
  let s3Base := ObjectStorageChartTemplatePath name in
  Call (fs_SaveAndUploadFiles tree name localBase s3Base) (fun err1 =>
  match err1 with
  | Some err1 =>
      Call (logger_Log LError "Failed to save files to disk, err: %s") (fun _ =>
      AssignErr err1 Return)
  | None =>
      Call (logger_Log LDebug "Finish to save and upload chart") (fun _ => Return)
  end)).

(** The second goroutine: archive and hash. The deferred [os.RemoveAll] runs
    on every return after the temp dir was made. *)
Definition hashTask (tree : Tree) (args : fs.DownloadFromSourceArgs) : Task :=
  Call (logger_Log LDebug "Start to calculate sha1 for chart") (fun _ =>
  Call os_MkdirTemp (fun r =>
  match r with
  | inl err1 =>
      Call (logger_Log LError "Failed to create temp dir, err: %s") (fun _ =>
      AssignErr err1 Return)
  | inr tmpDir =>
      let deferred := Call (os_RemoveAll tmpDir) (fun _ => Return) in
      let fileName := filepath_Base (fs.Path args) +:+ ".tar.gz" in
      let tarball := filepath_Join [tmpDir; fileName] in
      Call (fsutil_Tar tree tarball) (fun err1 =>
      match err1 with
      | Some err1 =>
          Call (logger_Log LError "Failed to archive files to %s, err: %s") (fun _ =>
          AssignErr err1 deferred)
      | None =>
          Call (fsutil_Sha1 tmpDir fileName) (fun r =>
          AssignSha1 r.1
          match r.2 with
          | Some err1 =>
              Call (logger_Log LError "Failed to calculate sha1 for file %s, err: %s") (fun _ =>
              AssignErr err1 deferred)
          | None =>
              Call (logger_Log LDebug "Finish to calculate sha1 for chart") (fun _ =>
              deferred)
          end)
      end)
  end)).

Definition processChartFromSource (name : string) (args : fs.DownloadFromSourceArgs)
  : M (error + string) :=
  do r <- call (fs_DownloadFilesFromSource args);
  match r with
  | inl err =>
      log LError "Failed to download files with option %+v, err: %s" ;; ret (inl err)
  | inr tree =>
      let name := if String.eqb name EmptyString then filepath_Base (fs.Path args) else name in
      do c <- fork_join (persistTask tree name) (hashTask tree args) (mkCells None EmptyString);
      match err c with
      | Some err => ret (inl err)
      | None => ret (inr (sha1 c))
      end
  end.

(** *** [AddChartTemplate] *)
Definition AddChartTemplate (name : string) (args : fs.DownloadFromSourceArgs)
  : M (option error) :=
  do exist <- call (mongodb_Exist name);
  if exist : bool then
    ret (Some (errorString ("a chart template with name " +:+ name +:+ " is already existing")))
  else
    do r <- processChartFromSource name args;
    match r with
    | inl err => log LError "Failed to create chart %s, err: %s" ;; ret (Some err)
    | inr sha1 =>
        do r <- parseTemplateVariables name;
        match r with
        | inl err => ret (Some (withMessage err "faild to prase variables"))
        | inr variablesNames =>
            let variables :=
              fold_left
                (fun variables v => variables ++ [commonmodels.mkVariable v EmptyString])
                variablesNames [] in
            call (mongodb_Create
                    (models.mkChart name (fs.Owner args) (fs.Repo args) (fs.Path args)
                       (fs.Branch args) (fs.CodehostID args) sha1 variables))
        end
    end.

(** *** [UpdateChartTemplate] *)
Definition UpdateChartTemplate (name : string) (args : fs.DownloadFromSourceArgs)
  : M (option error) :=
  do r <- call (mongodb_Get name);
  match r with
  | inl err => log LError "Failed to get chart template %s, err: %s" ;; ret (Some err)
  | inr chart =>
      do r <- processChartFromSource name args;
      match r with
      | inl err => log LError "Failed to update chart %s, err: %s" ;; ret (Some err)
      | inr sha1 =>
          if String.eqb (models.Sha1 chart) sha1 then
            log LDebug "Chart %s has no changes, skip updating." ;; ret None
          else
            do r <- parseTemplateVariables name;
            match r with
            | inl err => ret (Some (withMessage err "faild to prase variables"))
            | inr variablesNames =>
                let curVariableMap := models.GetVariableMap chart in
                let variables := mergeVariables variablesNames curVariableMap in
                call (mongodb_Update
                        (models.mkChart name (fs.Owner args) (fs.Repo args) (fs.Path args)
                           (fs.Branch args) (fs.CodehostID args) sha1 variables))
            end
      end
  end.

(** *** [UpdateChartTemplateVariables]

    The loop ranges over [variables], the slice made on the line before it,
    not over [args]. *)
Definition UpdateChartTemplateVariables (name : string) (args : list Variable')
  : M (option error) :=
  do r <- call (mongodb_Get name);
  match r with
  | inl err => log LError "Failed to get chart template %s, err: %s" ;; ret (Some err)
  | inr chart =>
      let variables0 : list commonmodels.Variable' := [] in
      let variables :=
        fold_left
          (fun variables variable =>
             variables ++ [commonmodels.mkVariable (commonmodels.Key variable)
                                                   (commonmodels.Value variable)])
          variables0 variables0 in
      call (mongodb_Update
              (models.mkChart name (models.Owner chart) (models.Repo chart)
                 (models.Path chart) (models.Branch chart) (models.CodeHostID chart)
                 (models.Sha1 chart) variables))
  end.

(** *** [RemoveChartTemplate] *)
Definition RemoveChartTemplate (name : string) : M (option error) :=
  do r <- call (mongodb_Delete name);
  match r with
  | Some err => log LError "Failed to delete chart template %s, err: %s" ;; ret (Some err)
  | None =>
      do r <- call (fs_DeleteArchivedFileFromS3 name (ObjectStorageChartTemplatePath name));
      match r with
      | Some _ => log LWarn "Failed to delete file %s, err: %s" ;; ret None
      | None => ret None
      end
  end.

(** An ingest is a create or an update. *)
Inductive Ingest : Type := Create | Update.

Definition ingest (op : Ingest) : string -> fs.DownloadFromSourceArgs -> M (option error) :=
  match op with
  | Create => AddChartTemplate
  | Update => UpdateChartTemplate
  end.

End Service.

(** ** Collaborators held in memory

    A concrete outside world, used to run the service on examples. *)

Module Mem.

(** The three stores and the source, with two switches that make a
    collaborator fail. *)
Record World : Type := mkWorld {
  charts : gmap string models.Chart;                 (* Metadata Store, by name *)
  source : fs.DownloadFromSourceArgs -> option Tree; (* what a pull finds *)
  localCache : gmap string Tree;                     (* Local Cache, by directory *)
  durable : gmap string Tree;                        (* Durable Store, by object path *)
  temp : gmap string Tree;                           (* archives in temp dirs, by path *)
  durableDown : bool;                                (* the Durable Store is unreachable *)
  tempFull : bool                                    (* no temp dir can be made *)
}.

Definition withCharts (w : World) (m : gmap string models.Chart) : World :=
  mkWorld m (source w) (localCache w) (durable w) (temp w) (durableDown w) (tempFull w).

Definition withTiers (w : World) (l d : gmap string Tree) : World :=
  mkWorld (charts w) (source w) l d (temp w) (durableDown w) (tempFull w).

Definition withTemp (w : World) (t : gmap string Tree) : World :=
  mkWorld (charts w) (source w) (localCache w) (durable w) t (durableDown w) (tempFull w).

Definition NotFoundError : error := errorString "not found".
Definition AlreadyExistsError : error := errorString "already exists".
Definition SourceFetchError : error := errorString "source fetch failed".
Definition PersistError : error := errorString "durable store unreachable".
Definition HashError : error := errorString "no temp dir".

(** Stands for the content hash of an archive: the entries of the tree in the
    order of the map, written out. *)
Definition digest (tree : Tree) : string :=
  String.concat ";" ((fun e : string * string => e.1 +:+ "=" +:+ e.2) <$> map_to_list tree).

(** [filepath.Join]: the non-empty elements, separated by a slash. *)
Definition filepath_Join (elems : list string) : string :=
  String.concat "/" (filter (fun e => e <> EmptyString) elems).

Fixpoint lastSegment (acc s : string) : string :=
  match s with
  | EmptyString => acc
  | String c rest =>
      if Ascii.eqb c "/"%char then lastSegment EmptyString rest
      else lastSegment (acc +:+ String c EmptyString) rest
  end.

(** [filepath.Base] on a path with no trailing slash. *)
Definition filepath_Base (path : string) : string :=
  if String.eqb path EmptyString then "." else lastSegment EmptyString path.

Definition LocalChartTemplatePath (name : string) : string := "/local/" +:+ name.
Definition ObjectStorageChartTemplatePath (name : string) : string := "/s3/" +:+ name.
Definition ValuesYaml : string := "values.yaml".

(** The file at an absolute path of the Local Cache. *)
Definition readLocal (cache : gmap string Tree) (file : string) : option string :=
  head (flat_map
          (fun d : string * Tree =>
             flat_map
               (fun f : string * string =>
                  if String.eqb (d.1 +:+ "/" +:+ f.1) file then [f.2] else [])
               (map_to_list d.2))
          (map_to_list cache)).

(** Modelled from the spec: the collaborators are not among the source files
    at hand.
    Metadata Store: [exists], [get] (not found when absent), [create]
    (already exists when present), [update] and [delete] (not found when
    absent). Source Puller: a tree or a fetch error. Durable Store: put and
    delete, failing when unreachable; preload fetches the archive when the
    local mirror is absent and does nothing when it is there. *)
Definition handle (X : Type) (e : Ev X) (w : World) : X * World :=
  match e in Ev X return X * World with
  | mongodb_Exist name => (bool_decide (is_Some (charts w !! name)), w)
  | mongodb_Get name =>
      (match charts w !! name with Some c => inr c | None => inl NotFoundError end, w)
  | mongodb_Create chart =>
      match charts w !! models.Name chart with
      | Some _ => (Some AlreadyExistsError, w)
      | None => (None, withCharts w (<[models.Name chart := chart]> (charts w)))
      end
  | mongodb_Update chart =>
      match charts w !! models.Name chart with
      | Some _ => (None, withCharts w (<[models.Name chart := chart]> (charts w)))
      | None => (Some NotFoundError, w)
      end
  | mongodb_Delete name =>
      match charts w !! name with
      | Some _ => (None, withCharts w (delete name (charts w)))
      | None => (Some NotFoundError, w)
      end
  | fs_DownloadFilesFromSource args =>
      (match source w args with Some tree => inr tree | None => inl SourceFetchError end, w)
  | fs_SaveAndUploadFiles tree name localBase s3Base =>
      if durableDown w then (Some PersistError, w)
      else (None, withTiers w (<[localBase := tree]> (localCache w))
                              (<[s3Base := tree]> (durable w)))
  | fs_PreloadFiles name localBase s3Base =>
      match localCache w !! localBase with
      | Some _ => (None, w)
      | None =>
          if durableDown w then (Some PersistError, w)
          else match durable w !! s3Base with
               | Some tree => (None, withTiers w (<[localBase := tree]> (localCache w)) (durable w))
               | None => (Some NotFoundError, w)
               end
      end
  | fs_DeleteArchivedFileFromS3 name s3Base =>
      if durableDown w then (Some PersistError, w)
      else (None, withTiers w (localCache w) (delete s3Base (durable w)))
  | os_MkdirTemp => if tempFull w then (inl HashError, w) else (inr "/tmp/0", w)
  | os_RemoveAll path =>
      (None, withTemp w (filter (fun e => negb (String.prefix path e.1)) (temp w)))
  | os_ReadFile file =>
      (match readLocal (localCache w) file with
       | Some content => inr content
       | None => inl NotFoundError
       end, w)
  | fsutil_Tar tree tarball => (None, withTemp w (<[tarball := tree]> (temp w)))
  | fsutil_Sha1 dir fileName =>
      (match temp w !! filepath_Join [dir; fileName] with
       | Some tree => (digest tree, None)
       | None => (EmptyString, Some NotFoundError)
       end, w)
  | logger_Log _ _ => (tt, w)
  end.

(** The service linked with these collaborators. *)
Definition processChartFromSource :=
  processChartFromSource handle LocalChartTemplatePath ObjectStorageChartTemplatePath
    filepath_Base filepath_Join.
Definition ingest :=
  ingest handle LocalChartTemplatePath ObjectStorageChartTemplatePath
    filepath_Base filepath_Join ValuesYaml.
Definition AddChartTemplate := ingest Create.
Definition UpdateChartTemplate := ingest Update.
Definition UpdateChartTemplateVariables := UpdateChartTemplateVariables handle.
Definition RemoveChartTemplate := RemoveChartTemplate handle ObjectStorageChartTemplatePath.

(** A template, its source and the world in which it is stored. *)
Definition nginxArgs : fs.DownloadFromSourceArgs :=
  fs.mkArgs 1 "koderover" "charts" "charts/nginx" "main".

Definition nginxTree : Tree :=
  {[ "nginx/values.yaml" := "replicas: $replicaCount$
image: $image$" ]}.

Definition nginxChart : models.Chart :=
  models.mkChart "nginx-chart" "koderover" "charts" "charts/nginx" "main" 1
    (digest nginxTree)
    [commonmodels.mkVariable "image" ""; commonmodels.mkVariable "replicaCount" "3"].

Definition stocked : World :=
  mkWorld {[ "nginx-chart" := nginxChart ]} (fun _ => Some nginxTree)
    {[ "/local/nginx-chart" := nginxTree ]} {[ "/s3/nginx-chart" := nginxTree ]}
    ∅ false false.

(** The same world with the source out of reach. *)
Definition sourceDown : World :=
  mkWorld (charts stocked) (fun _ => None) (localCache stocked) (durable stocked)
    ∅ false false.

(** The same world with the Durable Store out of reach. *)
Definition durableOut : World :=
  mkWorld (charts stocked) (source stocked) (localCache stocked) (durable stocked)
    ∅ true false.

(** The same world with the Durable Store out of reach and no room for a
    temp dir. *)
Definition bothOut : World :=
  mkWorld (charts stocked) (source stocked) (localCache stocked) (durable stocked)
    ∅ true true.

(** The same world after the variables file was edited at the source:
    [$image$] is gone and [$tag$] is new. *)
Definition editedTree : Tree :=
  {[ "nginx/values.yaml" := "replicas: $replicaCount$
image: nginx:$tag$" ]}.

Definition edited : World :=
  mkWorld (charts stocked) (fun _ => Some editedTree) (localCache stocked)
    (durable stocked) ∅ false false.

(** The descriptor of the same source on another branch. *)
Definition devArgs : fs.DownloadFromSourceArgs :=
  fs.mkArgs 1 "koderover" "charts" "charts/nginx" "dev".

End Mem.

(** ** More worlds held in memory *)

Module Worlds.

(** A world with no template yet: the source has the chart, the stores are
    empty. *)
Definition fresh : Mem.World :=
  Mem.mkWorld ∅ (fun _ => Some Mem.nginxTree) ∅ ∅ ∅ false false.

(** The world of [Mem.stocked] with a record whose path is the one the chart
    had before it moved, at the source, to [charts/nginx]. *)
Definition movedChart : models.Chart :=
  models.mkChart "nginx-chart" "koderover" "charts" "charts/web" "main" 1 "0000"
    [commonmodels.mkVariable "image" ""].

Definition moved : Mem.World :=
  Mem.mkWorld {[ "nginx-chart" := movedChart ]} (fun _ => Some Mem.nginxTree)
    {[ "/local/nginx-chart" := Mem.nginxTree ]} {[ "/s3/nginx-chart" := Mem.nginxTree ]}
    ∅ false false.

(** The collaborators of [Mem] with a Metadata Store that answers the
    existence check from a copy that lags behind, where no name is taken yet,
    and that keeps one record for a name, the last one created. *)
Definition lagging (X : Type) (e : Ev X) (w : Mem.World) : X * Mem.World :=
  match e in Ev X return X * Mem.World with
  | mongodb_Exist name => (false, w)
  | mongodb_Create chart =>
      (None, Mem.withCharts w (<[models.Name chart := chart]> (Mem.charts w)))
  | e => Mem.handle _ e w
  end.

(** [fs.GetFileInfos] on a directory of the Local Cache: the paths of the
    files under it, or an error when there is none. *)
Definition GetFileInfos (dir : string) (w : Mem.World)
  : (error + list string) * Mem.World :=
  let found :=
    flat_map
      (fun d : string * Tree =>
         flat_map
           (fun f : string * string =>
              if String.prefix (dir +:+ "/") (d.1 +:+ "/" +:+ f.1)
              then [d.1 +:+ "/" +:+ f.1] else [])
           (map_to_list d.2))
      (map_to_list (Mem.localCache w)) in
  (match found with [] => inl Mem.NotFoundError | _ => inr found end, w).

End Worlds.

(** ** The read operations *)

Module service.

(** [Chart] and [ChartTemplateListResp] of the package, as [GetChartTemplate]
    and [ListChartTemplates] fill them; a [fs.FileInfo] is taken as it is
    answered. *)
Record Chart (FileInfo : Type) : Type := mkChart {
  Name : string;
  CodehostID : Z;
  Owner : string;
  Repo : string;
  Path : string;
  Branch : string;
  Files : list FileInfo;
  Variables : list Variable'
}.

Record ChartTemplateListResp (FileInfo : Type) : Type := mkChartTemplateListResp {
  SystemVariables : list Variable';
  ChartTemplates : list (Chart FileInfo)
}.

Arguments mkChart {FileInfo}.
Arguments Name {FileInfo}.
Arguments CodehostID {FileInfo}.
Arguments Owner {FileInfo}.
Arguments Repo {FileInfo}.
Arguments Path {FileInfo}.
Arguments Branch {FileInfo}.
Arguments Files {FileInfo}.
Arguments Variables {FileInfo}.
Arguments mkChartTemplateListResp {FileInfo}.
Arguments SystemVariables {FileInfo}.
Arguments ChartTemplates {FileInfo}.

End service.

Section Reads.

Context {W FileInfo : Type}.
Variable handle : forall X : Type, Ev X -> W -> X * W.
Variable LocalChartTemplatePath : string -> string.
Variable ObjectStorageChartTemplatePath : string -> string.
Variable filepath_Base : string -> string.
Variable filepath_Join : list string -> string.

(** Three calls that only read: [fs.GetFileInfos] on [os.DirFS] of a
    directory, [mongodb.NewChartColl().List] and [GetSystemDefaultVariables]
    of the package. They are answered by the world and leave no entry in the
    trace. *)
Variable fs_GetFileInfos : string -> W -> (error + list FileInfo) * W.
Variable mongodb_List : W -> (error + list models.Chart) * W.
Variable GetSystemDefaultVariables : W -> list Variable' * W.

Definition ask {A : Type} (f : W -> A * W) : @M W A :=
  fun _ w => let '(a, w') := f w in (a, w', []).

#[local] Notation "'do' x <- m ; k" := (bind m (fun x => k))
  (at level 10, x name, m at level 100, k at level 200).
#[local] Notation "m ;; k" := (bind m (fun _ => k))
  (at level 100, k at level 200, right associativity).

(** *** [GetChartTemplate] *)
Definition GetChartTemplate (name : string) : @M W (error + service.Chart FileInfo) :=
  do r <- call handle (mongodb_Get name);
  match r with
  | inl err =>
      log handle LError "Failed to get chart template %s, err: %s" ;; ret (inl err)
  | inr chart =>
      let localBase := LocalChartTemplatePath name in
      let s3Base := ObjectStorageChartTemplatePath name in
      do r <- call handle (fs_PreloadFiles name localBase s3Base);
      match r with
      | Some err => ret (inl err)
      | None =>
          let base := filepath_Base (models.Path chart) in
          let localPath := filepath_Join [localBase; base] in
          do r <- ask (fs_GetFileInfos localPath);
          match r with
          | inl err =>
              log handle LError
                "Failed to get local chart template %s from path %s, err: %s" ;;
              ret (inl err)
          | inr fis =>
              let variables :=
                fold_left
                  (fun variables v =>
                     variables ++ [mkVariable (commonmodels.Key v) (commonmodels.Value v)])
                  (models.Variables chart) [] in
              ret (inr (service.mkChart name (models.CodeHostID chart)
                          (models.Owner chart) (models.Repo chart) (models.Path chart)
                          (models.Branch chart) fis variables))
          end
      end
  end.

(** *** [ListChartTemplates] *)
Definition ListChartTemplates : @M W (error + service.ChartTemplateListResp FileInfo) :=
  do r <- ask mongodb_List;
  match r with
  | inl err => log handle LError "Failed to list chart templates, err: %s" ;; ret (inl err)
  | inr cs =>
      let res :=
        fold_left
          (fun res c =>
             res ++ [service.mkChart (models.Name c) (models.CodeHostID c) (models.Owner c)
                       (models.Repo c) (models.Path c) (models.Branch c) [] []])
          cs [] in
      do systemVariables <- ask GetSystemDefaultVariables;
      ret (inr (service.mkChartTemplateListResp systemVariables res))
  end.

End Reads.

(** ** Code host clients

    [pkg/microservice/aslan/core/code/client/codehub/codehub.go] and
    [.../gerrit/gerrit.go]: two adapters of the tool clients to the listing
    interface [client.CodeHostClient]. *)

Module client.
  (** [client.ListOpt], [client.Branch] and [client.Tag], with the fields the
      adapters set or read. *)
Record ListOpt : Type := mkListOpt { ProjectName : string }.
Record Branch : Type := mkBranch { Name : string; Protected : bool; Merged : bool }.
Record Tag : Type := mkTag { TagName : string; Message : string }.
  (** [client.PullRequest]; no adapter here makes one. *)
Inductive PullRequest : Type := .
End client.

Module codehub.

  (** What the tool client [codehub.CodeHubClient] answers. *)
Record ToolBranch : Type := mkToolBranch { Name : string; Protected : bool; Merged : bool }.
Record ToolTag : Type := mkToolTag { TagName : string }.

Section Client.

(** The state of the code host, and the two calls of the tool client. *)
Context {W : Type}.
Variable BranchList : string -> W -> (error + list ToolBranch) * W.
Variable TagList : string -> W -> (error + list ToolTag) * W.

Definition ListBranches (opt : client.ListOpt) (w : W) : (error + list client.Branch) * W :=
  let '(bList, w) := BranchList (client.ProjectName opt) w in
  match bList with
  | inl err => (inl err, w)
  | inr bList =>
      (inr (fold_left
              (fun res o => res ++ [client.mkBranch (Name o) (Protected o) (Merged o)])
              bList []), w)
  end.

Definition ListTags (opt : client.ListOpt) (w : W) : (error + list client.Tag) * W :=
  let '(tags, w) := TagList (client.ProjectName opt) w in
  match tags with
  | inl err => (inl err, w)
  | inr tags =>
      (inr (fold_left (fun res o => res ++ [client.mkTag (TagName o) EmptyString]) tags []),
       w)
  end.

Definition ListPrs (opt : client.ListOpt) (w : W)
  : (error + list client.PullRequest) * W :=
  (inr [], w).

End Client.
End codehub.

Module gerrit.

  (** What the tool client [gerrit.Client] answers for a tag: its ref and its
      message. A branch is answered as its name. *)
Record ToolTag : Type := mkToolTag { Ref : string; Message : string }.

Section Client.

Context {W : Type}.
Variable ToolListBranches : string -> W -> (error + list string) * W.
Variable ToolListTags : string -> W -> (error + list ToolTag) * W.

Definition ListBranches (opt : client.ListOpt) (w : W) : (error + list client.Branch) * W :=
  let '(bList, w) := ToolListBranches (client.ProjectName opt) w in
  match bList with
  | inl err => (inl err, w)
  | inr bList =>
      (inr (fold_left (fun res o => res ++ [client.mkBranch o false false]) bList []), w)
  end.

Definition ListTags (opt : client.ListOpt) (w : W) : (error + list client.Tag) * W :=
  let '(result, w) := ToolListTags (client.ProjectName opt) w in
  match result with
  | inl err => (inl err, w)
  | inr result =>
      (inr (fold_left (fun res o => res ++ [client.mkTag (Ref o) (Message o)]) result []),
       w)
  end.

Definition ListPrs (opt : client.ListOpt) (w : W)
  : (error + list client.PullRequest) * W :=
  (inr [], w).

End Client.
End gerrit.

(** * Instant messages

    [pkg/microservice/aslan/core/common/service/instantmessage/service.go]:
    a task that has reached a status is announced on the web hook its
    pipeline, workflow or test has subscribed.

    - A Go map is given as the list of its entries in the order the [range]
      statement visits them; a [nil] map that the code tells from an empty
      one is [None].
    - A pointer the code dereferences without a check is taken to be set.
    - [fmt.Sprintf] with verbs [%s] and [%d] is written as the concatenation
      it makes. *)

(** [err.Error()]: the message of [fmt.Errorf], and that of [errors.Wrap]
    before the one of its cause. *)
Fixpoint Error (e : error) : string :=
  match e with
  | errorString msg => msg
  | withMessage cause msg => msg +:+ ": " +:+ Error cause
  end.

Module instantmessage.

Definition quote : string := String "034" EmptyString.
Definition nl : string := String "010" EmptyString.

(** The verb [%d]. *)
Definition formatInt (n : Z) : string := NilZero.string_of_int (Z.to_int n).

(** The result of an operation on [int64]. *)
Definition int64 (z : Z) : Z := (z + 2 ^ 63) mod 2 ^ 64 - 2 ^ 63.

Definition strings_Join (elems : list string) (sep : string) : string :=
  String.concat sep elems.

Definition strings_TrimSuffix (s suffix : string) : string :=
  let n := String.length s in
  let k := String.length suffix in
  if (k <=? n)%nat && String.eqb (String.substring (n - k) k s) suffix
  then String.substring 0 (n - k) s
  else s.

(** ** Data *)

(** The structs of package [task], with the fields this file reads.
    [config.Status], [config.Type] and [config.PipelineType] are string
    types. *)
Module task.

Module Repository.
Record t : Type := mk {
  Branch : string;
  CommitID : string;
  CommitMessage : string;
  Address : string;
  RepoOwner : string;
  RepoName : string;
  IsPrimary : bool
}.
End Repository.

Module Build.
Record t : Type := mk {
  JobCtx_Builds : list Repository.t;
  BuildStatus_Status : string;
  ServiceName : string;
  Service : string
}.
End Build.

Module Deploy.
Record t : Type := mk {
  TaskStatus : string;
  ServiceName : string;
  Image : string
}.
End Deploy.

Module Testing.
Record t : Type := mk {
  TaskStatus : string;
  TestName : string;
  JobCtx_TestType : string;
  JobCtx_TestReportPath : string
}.
End Testing.

Module DistributeToS3.
Record t : Type := mk {
  TaskStatus : string;
  ServiceName : string
}.
End DistributeToS3.

Module TestSuite.
Record t : Type := mk {
  Tests : Z;
  Failures : Z;
  Successes : Z
}.
End TestSuite.

Module TestReport.
Record t : Type := mk {
  FunctionTestSuite : option TestSuite.t
}.
End TestReport.

(** A stage holds its sub tasks as [map[string]map[string]interface{}]; a
    sub task is such an inner map, of type [SubTask] here. *)
Record Stage (SubTask : Type) : Type := mkStage {
  TaskType : string;
  SubTasks : list (string * SubTask)
}.

(** [TestReports] is a [map[string]interface{}], a value of it is of type
    [Report] here. [Rest] stands for the fields this file does not read but
    a template may: [TaskID], [TaskCreator], [WorkflowArgs] and the others. *)
Record Task (SubTask Report Rest : Type) : Type := mkTask {
  Type' : string;
  PipelineName : string;
  ProductName : string;
  Status : string;
  StartTime : Z;
  Stages : list (Stage SubTask);
  TestReports : option (list (string * Report));
  Others : Rest
}.

Arguments mkStage {SubTask}.
Arguments TaskType {SubTask}.
Arguments SubTasks {SubTask}.
Arguments mkTask {SubTask Report Rest}.
Arguments Type' {SubTask Report Rest}.
Arguments PipelineName {SubTask Report Rest}.
Arguments ProductName {SubTask Report Rest}.
Arguments Status {SubTask Report Rest}.
Arguments StartTime {SubTask Report Rest}.
Arguments Stages {SubTask Report Rest}.
Arguments TestReports {SubTask Report Rest}.
Arguments Others {SubTask Report Rest}.

End task.

(** The records of the collections, with the fields this file reads. *)
Module models.

Record NotifyCtl : Type := mkNotifyCtl {
  Enabled : bool;
  WebHookType : string;
  WeChatWebHook : string;
  DingDingWebHook : string;
  FeiShuWebHook : string;
  AtMobiles : list string;
  IsAtAll : bool;
  NotifyTypes : list string
}.

Module Pipeline.
Record t : Type := mk { NotifyCtl : option NotifyCtl }.
End Pipeline.

Module Workflow.
Record t : Type := mk { NotifyCtl : option NotifyCtl }.
End Workflow.

Module Testing.
Record t : Type := mk { Desc : string; NotifyCtl : option NotifyCtl }.
End Testing.

End models.

Record wechatNotification (SubTask Report Rest : Type) : Type := mkNotification {
  Task : task.Task SubTask Report Rest;
  BaseURI : string;
  IsSingle : bool;
  WebHookType : string;
  TotalTime : Z;
  AtMobiles : list string;
  IsAtAll : bool
}.

Arguments mkNotification {SubTask Report Rest}.
Arguments Task {SubTask Report Rest}.
Arguments BaseURI {SubTask Report Rest}.
Arguments IsSingle {SubTask Report Rest}.
Arguments WebHookType {SubTask Report Rest}.
Arguments TotalTime {SubTask Report Rest}.
Arguments AtMobiles {SubTask Report Rest}.
Arguments IsAtAll {SubTask Report Rest}.

(** A notification with other test reports in its task. *)
Definition withTestReports {SubTask Report Rest}
    (n : wechatNotification SubTask Report Rest)
    (TestReports : option (list (string * Report)))
  : wechatNotification SubTask Report Rest :=
  mkNotification
    (task.mkTask (task.Type' (Task n)) (task.PipelineName (Task n))
       (task.ProductName (Task n)) (task.Status (Task n)) (task.StartTime (Task n))
       (task.Stages (Task n)) TestReports (task.Others (Task n)))
    (BaseURI n) (IsSingle n) (WebHookType n) (TotalTime n) (AtMobiles n) (IsAtAll n).

(** A [LarkCard] is known by the methods called on it since [NewLarkCard]. *)
Inductive LarkCall : Type :=
| SetConfig (wideScreenMode : bool)
| SetHeader (template title tag : string)
| AddI18NElementsZhcnFeild (content : string)
| AddI18NElementsZhcnAction (content url : string).

Definition LarkCard : Type := list LarkCall.
Definition NewLarkCard : LarkCard := [].

(** The [template.FuncMap] of [getTplExec]. *)
Record FuncMap : Type := mkFuncMap {
  getColor : string -> string;
  isSingle : bool -> string;
  taskStatus : string -> string;
  getStartTime : Z -> string
}.

Definition singleInfo : string := "single".
Definition multiInfo : string := "multi".

(** ** Code of other files

    What this file takes from other files and packages without a call to the
    world, whatever its value. *)
Module env.

(** Constants of packages [config] and [setting] and of this package, and
    three functions of strings: [getColorWithStatus] and
    [getColorTemplateWithStatus] of this package, and [time_Format] for
    [time.Unix(t, 0).Format("2006-01-02 15:04:05")]. *)
Record Constants : Type := mkConstants {
  SingleType : string;
  WorkflowType : string;
  TestType : string;
  TaskBuild : string;
  TaskArtifact : string;
  TaskDeploy : string;
  TaskTestingV2 : string;
  TaskDistribute : string;
  TaskDistributeToS3 : string;
  StatusNotRun : string;
  StatusChanged : string;
  StatusPassed : string;
  StatusTimeout : string;
  StatusCancelled : string;
  StatusFailed : string;
  FunctionTest : string;
  dingDingType : string;
  feiShuType : string;
  weChatWorkType : string;
  weChatTextTypeMarkdown : string;
  weChatTextTypeText : string;
  feiShuTagText : string;
  markdownColorInfo : string;
  markdownColorComment : string;
  markdownColorWarning : string;
  getColorWithStatus : string -> string;
  getColorTemplateWithStatus : string -> string;
  time_Format : Z -> string
}.

(** The conversions of package [base] from a sub task as it is stored, and
    [task.IToi] on a test report as it is stored. *)
Record Converters (SubTask Report : Type) : Type := mkConverters {
  base_ToBuildTask : SubTask -> error + task.Build.t;
  base_ToDeployTask : SubTask -> error + task.Deploy.t;
  base_ToTestingTask : SubTask -> error + task.Testing.t;
  base_ToDistributeToS3Task : SubTask -> error + task.DistributeToS3.t;
  task_IToi : Report -> task.TestReport.t -> option error
}.

Arguments mkConverters {SubTask Report}.
Arguments base_ToBuildTask {SubTask Report}.
Arguments base_ToDeployTask {SubTask Report}.
Arguments base_ToTestingTask {SubTask Report}.
Arguments base_ToDistributeToS3Task {SubTask Report}.
Arguments task_IToi {SubTask Report}.

End env.

(** ** Collaborators *)

(** The calls to code outside this file, indexed by the type of the answer.
    [text_template] is [template.New("notify").Funcs(funcs).Parse(tplcontent)]
    followed by [Execute] on the notification: it answers [None] when the
    source does not parse, else the error or the text of the execution. *)
Inductive Call (SubTask Report Rest : Type) : Type -> Type :=
| pipelineColl_Find (name : string) : Call SubTask Report Rest (error + models.Pipeline.t)
| workflowColl_Find (name : string) : Call SubTask Report Rest (error + models.Workflow.t)
| testingColl_Find (name productName : string)
  : Call SubTask Report Rest (error + models.Testing.t)
| configbase_SystemAddress : Call SubTask Report Rest string
| time_Now_Unix : Call SubTask Report Rest Z
| text_template (funcs : FuncMap) (tplcontent : string)
    (data : wechatNotification SubTask Report Rest)
  : Call SubTask Report Rest (option (error + string))
| sendDingDingMessage (uri title content : string) (atMobiles : list string)
  : Call SubTask Report Rest (option error)
| sendFeishuMessageOfSingleType (title uri content : string)
  : Call SubTask Report Rest (option error)
| sendFeishuMessage (uri : string) (lc : LarkCard) : Call SubTask Report Rest (option error)
| SendWeChatWorkMessage (textType uri content : string)
  : Call SubTask Report Rest (option error)
| log_Errorf (format : string) : Call SubTask Report Rest unit
| log_Infof (format : string) : Call SubTask Report Rest unit.

Arguments pipelineColl_Find {SubTask Report Rest}.
Arguments workflowColl_Find {SubTask Report Rest}.
Arguments testingColl_Find {SubTask Report Rest}.
Arguments configbase_SystemAddress {SubTask Report Rest}.
Arguments time_Now_Unix {SubTask Report Rest}.
Arguments text_template {SubTask Report Rest}.
Arguments sendDingDingMessage {SubTask Report Rest}.
Arguments sendFeishuMessageOfSingleType {SubTask Report Rest}.
Arguments sendFeishuMessage {SubTask Report Rest}.
Arguments SendWeChatWorkMessage {SubTask Report Rest}.
Arguments log_Errorf {SubTask Report Rest}.
Arguments log_Infof {SubTask Report Rest}.

(** What a run leaves behind: each call with its answer (the functions
    handed to the template engine, always the same, are left out). *)
Inductive Obs (SubTask Report Rest : Type) : Type :=
| ObsPipelineFind (name : string) (r : error + models.Pipeline.t)
| ObsWorkflowFind (name : string) (r : error + models.Workflow.t)
| ObsTestingFind (name productName : string) (r : error + models.Testing.t)
| ObsSystemAddress (r : string)
| ObsNow (r : Z)
| ObsTemplate (tplcontent : string) (data : wechatNotification SubTask Report Rest)
    (r : option (error + string))
| ObsDingDing (uri title content : string) (atMobiles : list string) (r : option error)
| ObsFeishuSingle (title uri content : string) (r : option error)
| ObsFeishu (uri : string) (lc : LarkCard) (r : option error)
| ObsWeChatWork (textType uri content : string) (r : option error)
| ObsErrorf (format : string)
| ObsInfof (format : string).

Arguments ObsPipelineFind {SubTask Report Rest}.
Arguments ObsWorkflowFind {SubTask Report Rest}.
Arguments ObsTestingFind {SubTask Report Rest}.
Arguments ObsSystemAddress {SubTask Report Rest}.
Arguments ObsNow {SubTask Report Rest}.
Arguments ObsTemplate {SubTask Report Rest}.
Arguments ObsDingDing {SubTask Report Rest}.
Arguments ObsFeishuSingle {SubTask Report Rest}.
Arguments ObsFeishu {SubTask Report Rest}.
Arguments ObsWeChatWork {SubTask Report Rest}.
Arguments ObsErrorf {SubTask Report Rest}.
Arguments ObsInfof {SubTask Report Rest}.

Definition observe {SubTask Report Rest X} (c : Call SubTask Report Rest X)
  : X -> Obs SubTask Report Rest :=
  match c in Call _ _ _ X return X -> Obs SubTask Report Rest with
  | pipelineColl_Find name => ObsPipelineFind name
  | workflowColl_Find name => ObsWorkflowFind name
  | testingColl_Find name productName => ObsTestingFind name productName
  | configbase_SystemAddress => ObsSystemAddress
  | time_Now_Unix => ObsNow
  | text_template _ tplcontent data => ObsTemplate tplcontent data
  | sendDingDingMessage uri title content atMobiles =>
      ObsDingDing uri title content atMobiles
  | sendFeishuMessageOfSingleType title uri content => ObsFeishuSingle title uri content
  | sendFeishuMessage uri lc => ObsFeishu uri lc
  | SendWeChatWorkMessage textType uri content => ObsWeChatWork textType uri content
  | log_Errorf format => fun _ => ObsErrorf format
  | log_Infof format => fun _ => ObsInfof format
  end.

(** A message handed to a web hook: the address, and the answer. *)
Definition sent {SubTask Report Rest} (o : Obs SubTask Report Rest)
  : option (string * option error) :=
  match o with
  | ObsDingDing uri _ _ _ r | ObsFeishuSingle _ uri _ r | ObsFeishu uri _ r
  | ObsWeChatWork _ uri _ r => Some (uri, r)
  | _ => None
  end.

(** The subscription a collection answered, the error it answered, and a
    source handed to the template engine with the answer. *)
Definition subscription {SubTask Report Rest} (o : Obs SubTask Report Rest)
  : option models.NotifyCtl :=
  match o with
  | ObsPipelineFind _ (inr resp) => models.Pipeline.NotifyCtl resp
  | ObsWorkflowFind _ (inr resp) => models.Workflow.NotifyCtl resp
  | ObsTestingFind _ _ (inr resp) => models.Testing.NotifyCtl resp
  | _ => None
  end.

Definition findError {SubTask Report Rest} (o : Obs SubTask Report Rest) : option error :=
  match o with
  | ObsPipelineFind _ (inl err) | ObsWorkflowFind _ (inl err)
  | ObsTestingFind _ _ (inl err) => Some err
  | _ => None
  end.

Definition rendered {SubTask Report Rest} (o : Obs SubTask Report Rest)
  : option (string * option (error + string)) :=
  match o with
  | ObsTemplate tplcontent _ r => Some (tplcontent, r)
  | _ => None
  end.

(** An error log. *)
Definition errorLog {SubTask Report Rest} (o : Obs SubTask Report Rest) : bool :=
  match o with
  | ObsErrorf _ => true
  | _ => false
  end.

(** An entry of the making of a body: a template execution or an error
    log. *)
Definition rendering {SubTask Report Rest} (o : Obs SubTask Report Rest) : bool :=
  match o with
  | ObsTemplate _ _ _ | ObsErrorf _ => true
  | _ => false
  end.

(** The sources handed to the template engine, in the order of the calls. *)
Definition sources {SubTask Report Rest} (tr : list (Obs SubTask Report Rest))
  : list string :=
  (omap rendered tr).*1.

(** The text [getTplExec] returns for an answer of the template engine. *)
Definition text (r : error + string) : string :=
  match r with
  | inl _ => EmptyString
  | inr buffer => buffer
  end.

(** The error [getTplExec] returns for an answer of the template engine. *)
Definition execError (r : error + string) : option error :=
  match r with
  | inl err => Some (errorString ("getTplExec Execute err:" +:+ Error err))
  | inr _ => None
  end.

(** A function returns, or panics. *)
Inductive Outcome (A : Type) : Type :=
| Returned (a : A)
| Panicked.

Arguments Returned {A}.
Arguments Panicked {A}.

(** ** The service *)

Section Service.

(** The outside world, the sub tasks and the test reports as they are
    stored, and how the world answers a call. *)
Context {W SubTask Report Rest : Type}.
Variable handle : forall X : Type, Call SubTask Report Rest X -> W -> X * W.

(** The constants and the functions of other files. *)
Variable constants : env.Constants.
Variable converters : env.Converters SubTask Report.

#[local] Abbreviation SingleType := (env.SingleType constants).
#[local] Abbreviation WorkflowType := (env.WorkflowType constants).
#[local] Abbreviation TestType := (env.TestType constants).
#[local] Abbreviation TaskBuild := (env.TaskBuild constants).
#[local] Abbreviation TaskArtifact := (env.TaskArtifact constants).
#[local] Abbreviation TaskDeploy := (env.TaskDeploy constants).
#[local] Abbreviation TaskTestingV2 := (env.TaskTestingV2 constants).
#[local] Abbreviation TaskDistribute := (env.TaskDistribute constants).
#[local] Abbreviation TaskDistributeToS3 := (env.TaskDistributeToS3 constants).
#[local] Abbreviation StatusNotRun := (env.StatusNotRun constants).
#[local] Abbreviation StatusChanged := (env.StatusChanged constants).
#[local] Abbreviation StatusPassed := (env.StatusPassed constants).
#[local] Abbreviation StatusTimeout := (env.StatusTimeout constants).
#[local] Abbreviation StatusCancelled := (env.StatusCancelled constants).
#[local] Abbreviation StatusFailed := (env.StatusFailed constants).
#[local] Abbreviation FunctionTest := (env.FunctionTest constants).
#[local] Abbreviation dingDingType := (env.dingDingType constants).
#[local] Abbreviation feiShuType := (env.feiShuType constants).
#[local] Abbreviation weChatWorkType := (env.weChatWorkType constants).
#[local] Abbreviation weChatTextTypeMarkdown := (env.weChatTextTypeMarkdown constants).
#[local] Abbreviation weChatTextTypeText := (env.weChatTextTypeText constants).
#[local] Abbreviation feiShuTagText := (env.feiShuTagText constants).
#[local] Abbreviation markdownColorInfo := (env.markdownColorInfo constants).
#[local] Abbreviation markdownColorComment := (env.markdownColorComment constants).
#[local] Abbreviation markdownColorWarning := (env.markdownColorWarning constants).
#[local] Abbreviation getColorWithStatus := (env.getColorWithStatus constants).
#[local] Abbreviation getColorTemplateWithStatus := (env.getColorTemplateWithStatus constants).
#[local] Abbreviation time_Format := (env.time_Format constants).
#[local] Abbreviation base_ToBuildTask := (env.base_ToBuildTask converters).
#[local] Abbreviation base_ToDeployTask := (env.base_ToDeployTask converters).
#[local] Abbreviation base_ToTestingTask := (env.base_ToTestingTask converters).
#[local] Abbreviation base_ToDistributeToS3Task := (env.base_ToDistributeToS3Task converters).
#[local] Abbreviation task_IToi := (env.task_IToi converters).

Definition IM (A : Type) : Type := W -> Outcome A * W * list (Obs SubTask Report Rest).

Definition ret {A : Type} (a : A) : IM A := fun w => (Returned a, w, []).

Definition panic {A : Type} : IM A := fun w => (Panicked, w, []).

Definition bind {A B : Type} (m : IM A) (f : A -> IM B) : IM B :=
  fun w =>
    let '(a, w1, tr1) := m w in
    match a with
    | Returned a =>
        let '(b, w2, tr2) := f a w1 in
        (b, w2, tr1 ++ tr2)
    | Panicked => (Panicked, w1, tr1)
    end.

#[local] Notation "'do' x <- m ; k" := (bind m (fun x => k))
  (at level 10, x name, m at level 100, k at level 200).
#[local] Notation "m ;; k" := (bind m (fun _ => k))
  (at level 100, k at level 200, right associativity).

Definition call {X : Type} (c : Call SubTask Report Rest X) : IM X :=
  fun w => let '(x, w') := handle X c w in (Returned x, w', [observe c x]).

(** A [for] over a slice or a map, with the variables its body assigns as
    the state; [forEachE] is the same when the body may return from the
    function with an error. *)
Fixpoint forEach {A S : Type} (l : list A) (body : A -> S -> IM S) (s : S) : IM S :=
  match l with
  | [] => ret s
  | a :: l => do s <- body a s; forEach l body s
  end.

Fixpoint forEachE {A S : Type} (l : list A) (body : A -> S -> IM (error + S)) (s : S)
  : IM (error + S) :=
  match l with
  | [] => ret (inr s)
  | a :: l =>
      do r <- body a s;
      match r with
      | inl err => ret (inl err)
      | inr s => forEachE l body s
      end
  end.

(** What a computation returns when it depends on no answer: it returns
    this value in every world, and leaves error logs only. *)
Definition pureValue {A : Type} (m : IM A) (v : A) : Prop :=
  forall w r w' tr,
    m w = (r, w', tr) -> r = Returned v /\ Forall (fun o => errorLog o = true) tr.

(** A run of the making of a body from a notification: it leaves error
    logs and executions of a template on that notification, and it panics on
    a source that does not parse, and only then. *)
Definition bodyRun {A : Type} (n : wechatNotification SubTask Report Rest)
    (r : Outcome A) (tr : list (Obs SubTask Report Rest)) : Prop :=
  Forall (fun o => rendering o = true /\
                   forall tplcontent data ans,
                     o = ObsTemplate tplcontent data ans -> data = n) tr /\
  (r = Panicked -> exists tplcontent, last tr = Some (ObsTemplate tplcontent n None)) /\
  (forall tplcontent, ObsTemplate tplcontent n None ∈ tr -> r = Panicked).

(** *** [getTplExec] *)
Definition notifyFuncs : FuncMap :=
  mkFuncMap
    (fun status =>
       if String.eqb status StatusPassed then markdownColorInfo
       else if String.eqb status StatusTimeout || String.eqb status StatusCancelled
       then markdownColorComment
       else if String.eqb status StatusFailed then markdownColorWarning
       else markdownColorComment)
    (fun isSingle => if isSingle then singleInfo else multiInfo)
    (fun status =>
       if String.eqb status StatusPassed then "执行成功👍" else "执行失败⚠️")
    (fun startTime => time_Format startTime).

Definition getTplExec (tplcontent : string)
    (weChatNotification : wechatNotification SubTask Report Rest)
  : IM (string * option error) :=
  do r <- call (text_template notifyFuncs tplcontent weChatNotification);
  match r with
  | None => panic
  | Some (inl err) =>
      call (log_Errorf "getTplExec Execute err:%s") ;;
      ret (EmptyString, Some (errorString (("getTplExec Execute err:" +:+ Error err))))
  | Some (inr buffer) => ret (buffer, None)
  end.

(** *** [getHTMLTestReport] *)
Definition getHTMLTestReport (task : task.Task SubTask Report Rest) : IM (list string) :=
  if negb (String.eqb (task.Type' task) WorkflowType) then ret []
  else
    forEach (task.Stages task)
      (fun stage testNames =>
         if negb (String.eqb (task.TaskType stage) TaskTestingV2) then ret testNames
         else
           forEach (task.SubTasks stage)
             (fun '(testName, subTask) testNames =>
                match base_ToTestingTask subTask with
                | inl err => call (log_Errorf "parse testInfo failed, err:%s") ;; ret testNames
                | inr testInfo =>
                    if String.eqb (task.Testing.JobCtx_TestType testInfo) FunctionTest
                       && negb (String.eqb (task.Testing.JobCtx_TestReportPath testInfo)
                                  EmptyString)
                    then ret (testNames ++ [testName])
                    else ret testNames
                end)
             testNames)
      [].

(** *** [createNotifyBody] *)
Definition createNotifyBody (weChatNotification : wechatNotification SubTask Report Rest)
  : IM (string * option error) :=
  let tmplSource :=
    ("{{if eq .WebHookType " +:+ quote +:+ "feishu" +:+ quote +:+ "}}触发的工作流: {{.BaseURI}}/v1/projects/detail/{{.Task.ProductName}}/pipelines/{{ isSingle .IsSingle }}/{{.Task.PipelineName}}/{{.Task.TaskID}}{{else}}#### 触发的工作流: [{{.Task.PipelineName}}#{{.Task.TaskID}}]({{.BaseURI}}/v1/projects/detail/{{.Task.ProductName}}/pipelines/{{ isSingle .IsSingle }}/{{.Task.PipelineName}}/{{.Task.TaskID}}){{end}} " +:+ nl)
    +:+ ("- 状态: {{if eq .WebHookType " +:+ quote +:+ "feishu" +:+ quote +:+ "}}{{.Task.Status}}{{else}}<font color=" +:+ quote +:+ "{{ getColor .Task.Status }}" +:+ quote +:+ ">{{.Task.Status}}</font>{{end}} " +:+ nl)
    +:+ ("- 创建人：{{.Task.TaskCreator}} " +:+ nl)
    +:+ ("- 总运行时长：{{ .TotalTime}} 秒 " +:+ nl) in
  do testNames <- getHTMLTestReport (Task weChatNotification);
  let tmplSource :=
    if negb (Nat.eqb (length testNames) 0) then tmplSource +:+ ("- 测试报告：" +:+ nl)
    else tmplSource in
  let tmplSource :=
    fold_left
      (fun tmplSource testName =>
         let url := ("{{.BaseURI}}/api/aslan/testing/report?pipelineName={{.Task.PipelineName}}&pipelineType={{.Task.Type}}&taskID={{.Task.TaskID}}&testName=" +:+ testName +:+ nl) in
         if String.eqb (WebHookType weChatNotification) feiShuType
         then tmplSource +:+ url
         else tmplSource +:+ ("[" +:+ url +:+ "](" +:+ url +:+ ")" +:+ nl))
      testNames tmplSource in
  let tmplSource :=
    if String.eqb (WebHookType weChatNotification) dingDingType then
      if (0 <? length (AtMobiles weChatNotification))%nat
         && negb (IsAtAll weChatNotification)
      then (tmplSource +:+ " - 相关人员：@" +:+ strings_Join (AtMobiles weChatNotification) "@" +:+ " " +:+ nl)
      else tmplSource
    else tmplSource in
  getTplExec tmplSource weChatNotification.

(** *** The test reports of a test

    The loop over [TestReports] that [createNotifyBodyOfWorkflowIM] and
    [createNotifyBodyOfTestIM] share but for the text they add: [text] is
    the variable the loop appends to, [counts] formats the three numbers.
    [tr] is handed to [task.IToi] as a value, so the callee fills a copy. *)
Definition reportLoop (TestReports : list (string * Report)) (TestName : string)
    (counts : task.TestSuite.t -> string) (text : string) : IM (bool * string) :=
  forEach TestReports
    (fun '(testname, report) '(suffixEndline, text) =>
       if negb (String.eqb testname TestName) then ret (suffixEndline, text)
       else
         let tr := task.TestReport.mk None in
         match task_IToi report tr with
         | Some _ => call (log_Errorf "parse TestReport failed, err:%s") ;; ret (suffixEndline, text)
         | None =>
             match task.TestReport.FunctionTestSuite tr with
             | None => ret (suffixEndline, text)
             | Some FunctionTestSuite => ret (true, text +:+ counts FunctionTestSuite)
             end
         end)
    (false, text).

(** *** [createNotifyBodyOfWorkflowIM] *)

(** The four texts the loop over the stages builds. *)
Record Sections : Type := mkSections {
  build : string;
  deploy : string;
  test : string;
  distribute : string
}.

Definition buildStage (weChatNotification : wechatNotification SubTask Report Rest)
    (SubTasks : list (string * SubTask)) (s : Sections) : IM (error + Sections) :=
  let s := mkSections ("**构建** " +:+ nl) (deploy s) (test s) (distribute s) in
  forEachE SubTasks
    (fun '(_, sb) s =>
       match base_ToBuildTask sb with
       | inl err => ret (inl err)
       | inr buildSt =>
           let '(branch, commitID, commitMsg, gitCommitURL) :=
             (fold_left
                (fun '(idx, (branch, commitID, commitMsg, gitCommitURL)) build =>
                   (S idx,
                    if Nat.eqb idx 0 || task.Repository.IsPrimary build then
                      let branch := task.Repository.Branch build in
                      let commitID :=
                        if (8 <? String.length (task.Repository.CommitID build))%nat
                        then String.substring 0 8 (task.Repository.CommitID build)
                        else commitID in
                      let commitMsg := task.Repository.CommitMessage build in
                      let gitCommitURL :=
                        (task.Repository.Address build +:+ "/" +:+ task.Repository.RepoOwner build +:+ "/" +:+ task.Repository.RepoName build +:+ "/commit/" +:+ commitID) in
                      (branch, commitID, commitMsg, gitCommitURL)
                    else (branch, commitID, commitMsg, gitCommitURL)))
                (task.Build.JobCtx_Builds buildSt)
                (0%nat, (EmptyString, EmptyString, EmptyString, EmptyString))).2 in
           let Status :=
             if String.eqb (task.Build.BuildStatus_Status buildSt) EmptyString
             then StatusNotRun
             else task.Build.BuildStatus_Status buildSt in
           let build :=
             if String.eqb (WebHookType weChatNotification) weChatWorkType
             then build s +:+ ("- <font color=" +:+ quote +:+ getColorWithStatus Status +:+ quote +:+ ">" +:+ task.Build.ServiceName buildSt +:+ "/" +:+ task.Build.Service buildSt +:+ "</font>")
             else build s +:+ ("- " +:+ task.Build.ServiceName buildSt +:+ "/" +:+ task.Build.Service buildSt) in
           let build :=
             build +:+ ("  status:" +:+ Status +:+ " [" +:+ branch +:+ "-" +:+ commitID +:+ "](" +:+ gitCommitURL +:+ ")  commitMsg:" +:+ commitMsg +:+ " " +:+ nl) in
           ret (inr (mkSections build (deploy s) (test s) (distribute s)))
       end)
    s.

Definition deployStage (weChatNotification : wechatNotification SubTask Report Rest)
    (SubTasks : list (string * SubTask)) (s : Sections) : IM (error + Sections) :=
  let s := mkSections (build s) ("**部署** " +:+ nl) (test s) (distribute s) in
  forEachE SubTasks
    (fun '(svrModule, sb) s =>
       match base_ToDeployTask sb with
       | inl err => ret (inl err)
       | inr deploySt =>
           let TaskStatus :=
             if String.eqb (task.Deploy.TaskStatus deploySt) EmptyString
             then StatusNotRun
             else task.Deploy.TaskStatus deploySt in
           let deploy :=
             if String.eqb (WebHookType weChatNotification) weChatWorkType
             then deploy s +:+ ("- <font color=" +:+ quote +:+ getColorWithStatus TaskStatus +:+ quote +:+ ">" +:+ svrModule +:+ "/" +:+ task.Deploy.ServiceName deploySt +:+ "</font>")
             else deploy s +:+ ("- " +:+ svrModule +:+ "/" +:+ task.Deploy.ServiceName deploySt) in
           let deploy :=
             deploy +:+ (" status:" +:+ TaskStatus +:+ " image:" +:+ task.Deploy.Image deploySt +:+ " " +:+ nl) in
           ret (inr (mkSections (build s) deploy (test s) (distribute s)))
       end)
    s.

Definition testStage (weChatNotification : wechatNotification SubTask Report Rest)
    (SubTasks : list (string * SubTask)) (s : Sections) : IM (error + Sections) :=
  let s := mkSections (build s) (deploy s) ("**测试** " +:+ nl) (distribute s) in
  forEachE SubTasks
    (fun '(_, sb) s =>
       match base_ToTestingTask sb with
       | inl err => ret (inl err)
       | inr testSt =>
           let TaskStatus :=
             if String.eqb (task.Testing.TaskStatus testSt) EmptyString
             then StatusNotRun
             else task.Testing.TaskStatus testSt in
           let test :=
             if String.eqb (WebHookType weChatNotification) weChatWorkType
             then test s +:+ ("- <font color=" +:+ quote +:+ getColorWithStatus TaskStatus +:+ quote +:+ ">" +:+ task.Testing.TestName testSt +:+ "</font>  status:" +:+ TaskStatus)
             else test s +:+ ("- " +:+ task.Testing.TestName testSt +:+ "  status:" +:+ TaskStatus) in
           match task.TestReports (Task weChatNotification) with
           | None =>
               ret (inr (mkSections (build s) (deploy s) (test +:+ (" " +:+ nl))
                           (distribute s)))
           | Some TestReports =>
               do r <- reportLoop TestReports (task.Testing.TestName testSt)
                         (fun FunctionTestSuite =>
                            (":" +:+ formatInt (task.TestSuite.Successes FunctionTestSuite) +:+ "(成功)" +:+ formatInt (task.TestSuite.Failures FunctionTestSuite) +:+ "(失败)" +:+ formatInt (task.TestSuite.Tests FunctionTestSuite) +:+ "(总数) " +:+ nl))
                         test;
               let '(suffixEndline, test) := r in
               let test := if negb suffixEndline then test +:+ (" " +:+ nl) else test in
               ret (inr (mkSections (build s) (deploy s) test (distribute s)))
           end
       end)
    s.

Definition distributeStage (weChatNotification : wechatNotification SubTask Report Rest)
    (SubTasks : list (string * SubTask)) (s : Sections) : IM (error + Sections) :=
  let s := mkSections ("**分发** " +:+ nl) (deploy s) (test s) (distribute s) in
  forEachE SubTasks
    (fun '(_, sb) s =>
       match base_ToDistributeToS3Task sb with
       | inl err => ret (inl err)
       | inr distributeSt =>
           let TaskStatus :=
             if String.eqb (task.DistributeToS3.TaskStatus distributeSt) EmptyString
             then StatusNotRun
             else task.DistributeToS3.TaskStatus distributeSt in
           let distribute :=
             if String.eqb (WebHookType weChatNotification) weChatWorkType
             then distribute s +:+ ("- <font color=" +:+ quote +:+ getColorWithStatus TaskStatus +:+ quote +:+ ">" +:+ task.DistributeToS3.ServiceName distributeSt +:+ "</font>  status:" +:+ TaskStatus +:+ " " +:+ nl)
             else distribute s +:+ ("- " +:+ task.DistributeToS3.ServiceName distributeSt +:+ "  status:" +:+ TaskStatus +:+ " " +:+ nl) in
           ret (inr (mkSections (build s) (deploy s) (test s) distribute))
       end)
    s.

(** The [switch] on the type of a stage. *)
Definition stageSections (weChatNotification : wechatNotification SubTask Report Rest)
    (subStage : task.Stage SubTask) (s : Sections) : IM (error + Sections) :=
  if String.eqb (task.TaskType subStage) TaskBuild then
    buildStage weChatNotification (task.SubTasks subStage) s
  else if String.eqb (task.TaskType subStage) TaskArtifact then ret (inr s)
  else if String.eqb (task.TaskType subStage) TaskDeploy then
    deployStage weChatNotification (task.SubTasks subStage) s
  else if String.eqb (task.TaskType subStage) TaskTestingV2 then
    testStage weChatNotification (task.SubTasks subStage) s
  else if String.eqb (task.TaskType subStage) TaskDistribute
          || String.eqb (task.TaskType subStage) TaskDistributeToS3 then
    distributeStage weChatNotification (task.SubTasks subStage) s
  else ret (inr s).

(** The error of the conversion that the [switch] applies to a sub task of
    a stage, if it answers one. *)
Definition conversionError (subStage : task.Stage SubTask) (sb : SubTask) : option error :=
  let failure {A : Type} (r : error + A) : option error :=
    match r with inl err => Some err | inr _ => None end in
  if String.eqb (task.TaskType subStage) TaskBuild then failure (base_ToBuildTask sb)
  else if String.eqb (task.TaskType subStage) TaskArtifact then None
  else if String.eqb (task.TaskType subStage) TaskDeploy then failure (base_ToDeployTask sb)
  else if String.eqb (task.TaskType subStage) TaskTestingV2 then
    failure (base_ToTestingTask sb)
  else if String.eqb (task.TaskType subStage) TaskDistribute
          || String.eqb (task.TaskType subStage) TaskDistributeToS3 then
    failure (base_ToDistributeToS3Task sb)
  else None.

(** What [createNotifyBodyOfWorkflowIM] and [createNotifyBodyOfTestIM]
    return: title, content, button content, button URL and error. *)
Definition Body : Type := string * string * string * string * option error.

Definition createNotifyBodyOfWorkflowIM
    (weChatNotification : wechatNotification SubTask Report Rest) : IM Body :=
  let tplTitle := "#### {{if ne .WebHookType " +:+ quote +:+ "wechat" +:+ quote +:+ "}}工作流{{.Task.PipelineName}} #{{.Task.TaskID}} {{ taskStatus .Task.Status }}{{else}}<font color=" +:+ quote +:+ "{{ getColor .Task.Status }}" +:+ quote +:+ ">工作流{{.Task.PipelineName}} #{{.Task.TaskID}} {{ taskStatus .Task.Status }}</font>{{end}} " +:+ nl in
  let tplcontent :=
    ("**创建者**：{{.Task.TaskCreator}}  **持续时间**：{{ .TotalTime}} 秒 " +:+ nl)
    +:+ ("**环境信息**：{{.Task.WorkflowArgs.Namespace}}  **开始时间**：{{ getStartTime .Task.StartTime}} " +:+ nl) in
  do r <- forEachE (task.Stages (Task weChatNotification))
            (stageSections weChatNotification)
            (mkSections EmptyString EmptyString EmptyString EmptyString);
  match r with
  | inl err => ret (EmptyString, EmptyString, EmptyString, EmptyString, Some err)
  | inr s =>
      let tplcontent :=
        if String.eqb (WebHookType weChatNotification) dingDingType then
          if (0 <? length (AtMobiles weChatNotification))%nat
             && negb (IsAtAll weChatNotification)
          then (tplcontent +:+ " " +:+ nl +:+ " 相关人员：@" +:+ strings_Join (AtMobiles weChatNotification) "@" +:+ " " +:+ nl)
          else tplcontent
        else tplcontent in
      let buttonContent := "点击查看更多信息" in
      let workflowDetailURL := "{{.BaseURI}}/v1/projects/detail/{{.Task.ProductName}}/pipelines/{{ isSingle .IsSingle }}/{{.Task.PipelineName}}/{{.Task.TaskID}}" in
      let moreInformation := ("[" +:+ buttonContent +:+ "](" +:+ workflowDetailURL +:+ ")") in
      let tplcontent :=
        if String.eqb (WebHookType weChatNotification) feiShuType
        then (tplcontent +:+ build s +:+ deploy s +:+ test s +:+ distribute s)
        else (tplcontent +:+ build s +:+ deploy s +:+ test s +:+ distribute s +:+ moreInformation) in
      do tplExecContent <- getTplExec tplcontent weChatNotification;
      do tplExecTitle <- getTplExec tplTitle weChatNotification;
      do execButtonContent <- getTplExec buttonContent weChatNotification;
      do execButtonURL <- getTplExec workflowDetailURL weChatNotification;
      ret (tplExecTitle.1, tplExecContent.1, execButtonContent.1, execButtonURL.1, None)
  end.

(** *** [createNotifyBodyOfTestIM] *)

(** The loop over the stages: one line for each function test that has a
    report path. *)
Definition testResults (weChatNotification : wechatNotification SubTask Report Rest)
    (tplcontent : string) : IM string :=
  forEach (task.Stages (Task weChatNotification))
    (fun stage tplcontent =>
       if negb (String.eqb (task.TaskType stage) TaskTestingV2) then ret tplcontent
       else
         forEach (task.SubTasks stage)
           (fun '(testName, subTask) tplcontent =>
              match base_ToTestingTask subTask with
              | inl err => call (log_Errorf "parse testInfo failed, err:%s") ;; ret tplcontent
              | inr testInfo =>
                  if String.eqb (task.Testing.JobCtx_TestType testInfo) FunctionTest
                     && negb (String.eqb (task.Testing.JobCtx_TestReportPath testInfo)
                                EmptyString)
                  then
                    let url := ("{{.BaseURI}}/api/aslan/testing/report?pipelineName={{.Task.PipelineName}}&pipelineType={{.Task.Type}}&taskID={{.Task.TaskID}}&testName=" +:+ task.Testing.TestName testInfo +:+ nl) in
                    let tplcontent :=
                      tplcontent +:+ ("- [" +:+ testName +:+ "](" +:+ url +:+ ") status:" +:+ task.Testing.TaskStatus testInfo +:+ " ") in
                    match task.TestReports (Task weChatNotification) with
                    | None => ret (tplcontent +:+ nl)
                    | Some TestReports =>
                        do r <- reportLoop TestReports (task.Testing.TestName testInfo)
                                  (fun FunctionTestSuite =>
                                     (" " +:+ formatInt (task.TestSuite.Successes FunctionTestSuite) +:+ "(成功)" +:+ formatInt (task.TestSuite.Failures FunctionTestSuite) +:+ "(失败)" +:+ formatInt (task.TestSuite.Tests FunctionTestSuite) +:+ "(总数)" +:+ nl))
                                  tplcontent;
                        let '(suffixEndline, tplcontent) := r in
                        if negb suffixEndline then ret (tplcontent +:+ nl)
                        else ret tplcontent
                    end
                  else ret tplcontent
              end)
           tplcontent)
    tplcontent.

Definition createNotifyBodyOfTestIM (desc : string)
    (weChatNotification : wechatNotification SubTask Report Rest) : IM Body :=
  let tplTitle := "#### {{if ne .WebHookType " +:+ quote +:+ "wechat" +:+ quote +:+ "}}工作流{{.Task.PipelineName}} #{{.Task.TaskID}} {{ taskStatus .Task.Status }}{{else}}<font color=" +:+ quote +:+ "{{ getColor .Task.Status }}" +:+ quote +:+ ">工作流{{.Task.PipelineName}} #{{.Task.TaskID}} {{ taskStatus .Task.Status }}</font>{{end}} " +:+ nl in
  let tplcontent :=
    ("**创建者**：{{.Task.TaskCreator}}  **开始时间**：{{ getStartTime .Task.StartTime}} **持续时间**：{{ .TotalTime}} 秒 " +:+ nl)
    +:+ "**测试描述**: " +:+ desc +:+ (" " +:+ nl)
    +:+ ("**测试结果** " +:+ nl) in
  do tplcontent <- testResults weChatNotification tplcontent;
  let tplcontent :=
    if String.eqb (WebHookType weChatNotification) dingDingType then
      if (0 <? length (AtMobiles weChatNotification))%nat
         && negb (IsAtAll weChatNotification)
      then (tplcontent +:+ " - 相关人员：@" +:+ strings_Join (AtMobiles weChatNotification) "@" +:+ " " +:+ nl)
      else tplcontent
    else tplcontent in
  let buttonContent := "点击查看更多信息" in
  let workflowDetailURL := "{{.BaseURI}}/v1/projects/detail/{{.Task.ProductName}}/test/detail/function/{{.Task.PipelineName}}/{{.Task.TaskID}}" in
  let moreInformation := ("[" +:+ buttonContent +:+ "](" +:+ workflowDetailURL +:+ ")") in
  if negb (String.eqb (WebHookType weChatNotification) feiShuType) then
    let tplcontent := (tplTitle +:+ tplcontent +:+ moreInformation) in
    do tplExecContent <- getTplExec tplcontent weChatNotification;
    ret (tplTitle, tplExecContent.1, buttonContent, workflowDetailURL, None)
  else
    do tplTitle <- getTplExec tplTitle weChatNotification;
    do workflowDetailURL <- getTplExec workflowDetailURL weChatNotification;
    do tplExecContent <- getTplExec tplcontent weChatNotification;
    ret (tplTitle.1, tplExecContent.1, buttonContent, workflowDetailURL.1, None).

(** *** [SendInstantMessage] *)

(** The variables of [SendInstantMessage] that its three branches assign. *)
Record Message : Type := mkMessage {
  uri : string;
  content : string;
  webHookType : string;
  atMobiles : list string;
  isAtAll : bool;
  title : string;
  buttonContent : string;
  buttonURL : string
}.

(** The choice of the web hook, the same in the three branches: the hook
    type, the address, and the mobiles and the flag of a DingDing hook. *)
Definition hookOf (NotifyCtl : models.NotifyCtl) : string * string * list string * bool :=
  let webHookType := models.WebHookType NotifyCtl in
  if String.eqb webHookType dingDingType then
    (webHookType, models.DingDingWebHook NotifyCtl, models.AtMobiles NotifyCtl,
     models.IsAtAll NotifyCtl)
  else if String.eqb webHookType feiShuType then
    (webHookType, models.FeiShuWebHook NotifyCtl, [], false)
  else (webHookType, models.WeChatWebHook NotifyCtl, [], false).

Definition has (NotifyTypes : list string) (status : string) : bool :=
  bool_decide (status ∈ (list_to_set NotifyTypes : gset string)).

(** The notification the three branches build, the system address and the
    clock being asked in this order. *)
Definition notification (task : task.Task SubTask Report Rest) (IsSingle : bool)
    (webHookType : string) (atMobiles : list string) (isAtAll : bool)
  : IM (wechatNotification SubTask Report Rest) :=
  do BaseURI <- call configbase_SystemAddress;
  do now <- call time_Now_Unix;
  ret (mkNotification task BaseURI IsSingle webHookType
         (int64 (now - task.StartTime task)) atMobiles isAtAll).

Definition send (task : task.Task SubTask Report Rest) (m : Message) : IM (option error) :=
  if negb (String.eqb (uri m) EmptyString) && negb (String.eqb (content m) EmptyString)
  then
    if String.eqb (webHookType m) dingDingType then
      let title :=
        if String.eqb (task.Type' task) SingleType then "工作流状态" else title m in
      do err <- call (sendDingDingMessage (uri m) title (content m) (atMobiles m));
      match err with
      | Some err => call (log_Errorf "sendDingDingMessage err : %s") ;; ret (Some err)
      | None => ret None
      end
    else if String.eqb (webHookType m) feiShuType then
      if String.eqb (task.Type' task) SingleType then
        do err <- call (sendFeishuMessageOfSingleType "工作流状态" (uri m) (content m));
        match err with
        | Some err => call (log_Errorf "sendFeishuMessageOfSingleType Request err : %s") ;; ret (Some err)
        | None => ret None
        end
      else
        let lc := NewLarkCard in
        let lc := lc ++ [SetConfig true] in
        let lc :=
          lc ++ [SetHeader (getColorTemplateWithStatus (task.Status task)) (title m)
                   feiShuTagText] in
        let lc := lc ++ [AddI18NElementsZhcnFeild (content m)] in
        let lc := lc ++ [AddI18NElementsZhcnAction (buttonContent m) (buttonURL m)] in
        do err <- call (sendFeishuMessage (uri m) lc);
        match err with
        | Some err => call (log_Errorf "SendFeiShuMessageRequest err : %s") ;; ret (Some err)
        | None => ret None
        end
    else
      let typeText :=
        if String.eqb (task.Type' task) SingleType then weChatTextTypeText
        else weChatTextTypeMarkdown in
      do err <- call (SendWeChatWorkMessage typeText (uri m) (title m +:+ content m));
      match err with
      | Some err => call (log_Errorf "SendWeChatWorkMessage err : %s") ;; ret (Some err)
      | None => ret None
      end
  else ret None.

Definition SendInstantMessage (task : task.Task SubTask Report Rest)
    (testTaskStatusChanged : bool) : IM (option error) :=
  let m :=
    mkMessage EmptyString EmptyString EmptyString [] false EmptyString EmptyString
      EmptyString in
  if String.eqb (task.Type' task) SingleType then
    do resp <- call (pipelineColl_Find (task.PipelineName task));
    match resp with
    | inl err => call (log_Errorf "Pipeline find err :%s") ;; ret (Some err)
    | inr resp =>
        match models.Pipeline.NotifyCtl resp with
        | None => call (log_Infof "pipeline notifyCtl is not set!") ;; ret None
        | Some NotifyCtl =>
            if models.Enabled NotifyCtl
               && has (models.NotifyTypes NotifyCtl) (task.Status task)
            then
              let '(webHookType, uri, atMobiles, isAtAll) := hookOf NotifyCtl in
              do n <- notification task true webHookType atMobiles isAtAll;
              do r <- createNotifyBody n;
              match r.2 with
              | Some err => call (log_Errorf "pipeline createNotifyBody err :%s") ;; ret (Some err)
              | None =>
                  send task
                    (mkMessage uri r.1 webHookType atMobiles isAtAll EmptyString
                       EmptyString EmptyString)
              end
            else send task m
        end
    end
  else if String.eqb (task.Type' task) WorkflowType then
    do resp <- call (workflowColl_Find (task.PipelineName task));
    match resp with
    | inl err => call (log_Errorf "Workflow find err :%s") ;; ret (Some err)
    | inr resp =>
        match models.Workflow.NotifyCtl resp with
        | None => call (log_Infof "Workflow notifyCtl is not set!") ;; ret None
        | Some NotifyCtl =>
            if models.Enabled NotifyCtl
               && has (models.NotifyTypes NotifyCtl) (task.Status task)
            then
              let '(webHookType, uri, atMobiles, isAtAll) := hookOf NotifyCtl in
              do n <- notification task false webHookType atMobiles isAtAll;
              do r <- createNotifyBodyOfWorkflowIM n;
              let '(title, content, buttonContent, buttonURL, err) := r in
              match err with
              | Some err => call (log_Errorf "workflow createNotifyBodyOfWorkflowIM err :%s") ;; ret (Some err)
              | None =>
                  send task
                    (mkMessage uri content webHookType atMobiles isAtAll title
                       buttonContent buttonURL)
              end
            else send task m
        end
    end
  else if String.eqb (task.Type' task) TestType then
    do resp <- call (testingColl_Find
                       (strings_TrimSuffix (task.PipelineName task) "-job")
                       (task.ProductName task));
    match resp with
    | inl err => call (log_Errorf "testing find err :%s") ;; ret (Some err)
    | inr resp =>
        match models.Testing.NotifyCtl resp with
        | None => call (log_Infof "testing notifyCtl is not set!") ;; ret None
        | Some NotifyCtl =>
            let statusSets := has (models.NotifyTypes NotifyCtl) in
            if models.Enabled NotifyCtl
               && (statusSets (task.Status task)
                   || (testTaskStatusChanged && statusSets StatusChanged))
            then
              let '(webHookType, uri, atMobiles, isAtAll) := hookOf NotifyCtl in
              do n <- notification task false webHookType atMobiles isAtAll;
              do r <- createNotifyBodyOfTestIM (models.Testing.Desc resp) n;
              let '(title, content, buttonContent, buttonURL, err) := r in
              match err with
              | Some err => call (log_Errorf "testing createNotifyBodyOfTestIM err :%s") ;; ret (Some err)
              | None =>
                  send task
                    (mkMessage uri content webHookType atMobiles isAtAll title
                       buttonContent buttonURL)
              end
            else send task m
        end
    end
  else send task m.

(** *** The stages of [SendInstantMessage]

    The three branches of [SendInstantMessage] go through the same stages.
    The definitions below name them, for the statements on its runs. *)

(** The call a task is looked up with: the collection of its type, under its
    name. *)
Definition lookedUp (task : task.Task SubTask Report Rest) (o : Obs SubTask Report Rest)
  : Prop :=
  match o with
  | ObsPipelineFind name _ =>
      String.eqb (task.Type' task) SingleType = true /\ name = task.PipelineName task
  | ObsWorkflowFind name _ =>
      String.eqb (task.Type' task) SingleType = false /\
      String.eqb (task.Type' task) WorkflowType = true /\
      name = task.PipelineName task
  | ObsTestingFind name productName _ =>
      String.eqb (task.Type' task) SingleType = false /\
      String.eqb (task.Type' task) WorkflowType = false /\
      String.eqb (task.Type' task) TestType = true /\
      name = strings_TrimSuffix (task.PipelineName task) "-job" /\
      productName = task.ProductName task
  | _ => False
  end.

(** The condition on which a message is made, for the record found by [o]:
    only a test is notified of a changed status. *)
Definition subscribed (o : Obs SubTask Report Rest) (NotifyCtl : models.NotifyCtl)
    (task : task.Task SubTask Report Rest) (testTaskStatusChanged : bool) : bool :=
  models.Enabled NotifyCtl
  && (has (models.NotifyTypes NotifyCtl) (task.Status task)
      || match o with
         | ObsTestingFind _ _ _ =>
             testTaskStatusChanged && has (models.NotifyTypes NotifyCtl) StatusChanged
         | _ => false
         end).

(** The making of the body, for the record found by [o]. *)
Definition makeBody (o : Obs SubTask Report Rest)
    (n : wechatNotification SubTask Report Rest) : IM Body :=
  match o with
  | ObsPipelineFind _ _ =>
      do r <- createNotifyBody n;
      ret (EmptyString, r.1, EmptyString, EmptyString, r.2)
  | ObsWorkflowFind _ _ => createNotifyBodyOfWorkflowIM n
  | ObsTestingFind _ _ (inr resp) => createNotifyBodyOfTestIM (models.Testing.Desc resp) n
  | _ => ret (EmptyString, EmptyString, EmptyString, EmptyString, None)
  end.

End Service.

End instantmessage.

(** ** A world of hooks held in memory

    Values for the constants, sub tasks and collections to run the examples
    on. *)

Module Hooks.

Import instantmessage.

Definition constants : env.Constants :=
  env.mkConstants "single" "workflow" "test"
    "buildv2" "artifact" "deploy" "testingv2" "distribute" "distribute2kodo"
    "notRun" "changed" "passed" "timeout" "cancelled" "failed"
    "function" "dingding" "feishu" "wechat" "markdown" "text" "lark_md"
    "info" "comment" "warning"
    (fun status => if String.eqb status "passed" then "info" else "warning")
    (fun status => if String.eqb status "passed" then "green" else "red")
    formatInt.

(** A sub task is stored as the task it converts to; a test report holds
    nothing. *)
Inductive SubTask : Type :=
| ofBuild (b : task.Build.t)
| ofDeploy (d : task.Deploy.t)
| ofTesting (t : task.Testing.t)
| ofDistribute (d : task.DistributeToS3.t)
| broken.

Definition ConversionError : error := errorString "json: cannot unmarshal".

Definition converters : env.Converters SubTask unit :=
  env.mkConverters
    (fun sb => match sb with ofBuild b => inr b | _ => inl ConversionError end)
    (fun sb => match sb with ofDeploy d => inr d | _ => inl ConversionError end)
    (fun sb => match sb with ofTesting t => inr t | _ => inl ConversionError end)
    (fun sb => match sb with ofDistribute d => inr d | _ => inl ConversionError end)
    (fun _ _ => None).

(** The collections by name, the clock, the template engine as a function
    of the source, and a switch that makes every hook fail. *)
Record World : Type := mkWorld {
  pipelines : gmap string models.Pipeline.t;
  workflows : gmap string models.Workflow.t;
  testings : gmap string models.Testing.t;
  clock : Z;
  engine : string -> option (error + string);
  hooksDown : bool;
  outbox : list (string * string)
}.

Definition NotFoundError : error := errorString "not found".
Definition HookError : error := errorString "hook unreachable".
Definition ExecuteError : error := errorString "can't evaluate field".

Definition post (uri content : string) (w : World) : option error * World :=
  if hooksDown w then (Some HookError, w)
  else (None,
        mkWorld (pipelines w) (workflows w) (testings w) (clock w) (engine w)
          (hooksDown w) (outbox w ++ [(uri, content)])).

Definition find {A : Type} (m : gmap string A) (name : string) : error + A :=
  match m !! name with
  | Some a => inr a
  | None => inl NotFoundError
  end.

Definition handle (X : Type) (c : Call SubTask unit unit X) (w : World) : X * World :=
  match c in Call _ _ _ X return X * World with
  | pipelineColl_Find name => (find (pipelines w) name, w)
  | workflowColl_Find name => (find (workflows w) name, w)
  | testingColl_Find name _ => (find (testings w) name, w)
  | configbase_SystemAddress => ("https://zadig.example", w)
  | time_Now_Unix => (clock w, w)
  | text_template _ tplcontent _ => (engine w tplcontent, w)
  | sendDingDingMessage uri _ content _ => post uri content w
  | sendFeishuMessageOfSingleType _ uri content => post uri content w
  | sendFeishuMessage uri _ => post uri EmptyString w
  | SendWeChatWorkMessage _ uri content => post uri content w
  | log_Errorf _ => (tt, w)
  | log_Infof _ => (tt, w)
  end.

Definition SendInstantMessage := SendInstantMessage handle constants converters.

(** Three engines: one that gives back the source, one that fails on every
    execution, one that parses nothing. *)
Definition plain (tplcontent : string) : option (error + string) := Some (inr tplcontent).
Definition failing (tplcontent : string) : option (error + string) :=
  Some (inl ExecuteError).
Definition strict (tplcontent : string) : option (error + string) := None.

(** Subscriptions to the statuses passed and failed, one for each hook. *)
Definition dingDing : models.NotifyCtl :=
  models.mkNotifyCtl true "dingding" "" "https://oapi.dingtalk.example/robot" ""
    ["13800000000"] false ["passed"; "failed"].
Definition feiShu : models.NotifyCtl :=
  models.mkNotifyCtl true "feishu" "" "" "https://open.feishu.example/hook"
    [] false ["passed"; "failed"].
Definition weChat : models.NotifyCtl :=
  models.mkNotifyCtl true "wechat" "https://qyapi.weixin.example/send" "" ""
    [] false ["passed"; "failed"].

Definition office (engine : string -> option (error + string)) (hooksDown : bool) : World :=
  mkWorld {[ "nightly" := models.Pipeline.mk (Some feiShu) ]}
    {[ "release" := models.Workflow.mk (Some dingDing) ]}
    {[ "smoke" := models.Testing.mk "smoke tests" (Some weChat) ]}
    1600 engine hooksDown [].

(** A pipeline task, a workflow task with a build stage and a testing stage,
    and a test task, all passed. *)
Definition smoke : task.Testing.t :=
  task.Testing.mk "passed" "smoke" "function" "/reports/smoke".

Definition app : task.Build.t :=
  task.Build.mk
    [task.Repository.mk "main" "0123456789abcdef" "fix" "https://git.example" "koderover"
       "zadig" true]
    "passed" "app" "app".

Definition stages : list (task.Stage SubTask) :=
  [task.mkStage "buildv2" [("app", ofBuild app)];
   task.mkStage "testingv2" [("smoke", ofTesting smoke)]].

Definition nightly : task.Task SubTask unit unit :=
  task.mkTask "single" "nightly" "shop" "passed" 1000 [] None tt.
Definition release : task.Task SubTask unit unit :=
  task.mkTask "workflow" "release" "shop" "passed" 1000 stages (Some [("smoke", tt)]) tt.
Definition smokeJob : task.Task SubTask unit unit :=
  task.mkTask "test" "smoke-job" "shop" "passed" 1000 stages (Some [("smoke", tt)]) tt.

(** A workflow task with a stage whose sub task does not convert. *)
Definition damaged : task.Task SubTask unit unit :=
  task.mkTask "workflow" "release" "shop" "passed" 1000
    [task.mkStage "deploy" [("app", broken)]] None tt.

End Hooks.

(** * Properties *)

(** ** Strings in byte order *)

Lemma ascii_compare_trans a b c o :
  Ascii.compare a b = o -> Ascii.compare b c = o -> Ascii.compare a c = o.
Proof.
  unfold Ascii.compare. destruct o; intros H1 H2.
  - apply N.compare_eq_iff in H1, H2. apply N.compare_eq_iff. congruence.
  - rewrite N.compare_lt_iff in *. lia.
  - rewrite N.compare_gt_iff in *. lia.
Qed.

Lemma string_compare_lt_trans a : forall b c,
  String.compare a b = Lt -> String.compare b c = Lt -> String.compare a c = Lt.
Proof.
  induction a as [|x a IH]; intros [|y b] [|z c]; simpl; try done.
  destruct (Ascii.compare x y) eqn:Hxy; try done;
    destruct (Ascii.compare y z) eqn:Hyz; try done; intros H1 H2.
  - rewrite (ascii_compare_trans _ _ _ _ Hxy Hyz). eauto.
  - apply Ascii.compare_eq_iff in Hxy as ->. by rewrite Hyz.
  - apply Ascii.compare_eq_iff in Hyz as <-. by rewrite Hxy.
  - by rewrite (ascii_compare_trans _ _ _ _ Hxy Hyz).
Qed.

Lemma string_le_lt_or_eq a b : string_le a b <-> string_lt a b \/ a = b.
Proof.
  unfold string_le, string_lt, String.leb, String.ltb. split.
  - destruct (String.compare a b) eqn:H; try done; auto.
    right. by apply String.compare_eq_iff.
  - intros [H | ->].
    + by destruct (String.compare a b).
    + assert (String.compare b b = Eq) as ->; [|done].
      pose proof (String.compare_antisym b b) as H.
      destruct (String.compare b b); simpl in H; done.
Qed.

#[local] Instance string_lt_trans : Transitive string_lt.
Proof.
  intros a b c. unfold string_lt, String.ltb. intros H1 H2.
  destruct (String.compare a b) eqn:Hab; try done.
  destruct (String.compare b c) eqn:Hbc; try done.
  by rewrite (string_compare_lt_trans _ _ _ Hab Hbc).
Qed.

#[local] Instance string_le_trans : Transitive string_le.
Proof.
  intros a b c. rewrite !string_le_lt_or_eq. intros [H1 | ->] [H2 | ->]; auto.
  left. by transitivity b.
Qed.

#[local] Instance string_le_total : Total string_le.
Proof. intros a b. apply String.leb_total. Qed.

#[local] Instance string_le_antisym : AntiSymm (=) string_le.
Proof. intros a b. apply String.leb_antisym. Qed.

Lemma string_lt_irrefl a : ~ string_lt a a.
Proof.
  unfold string_lt, String.ltb. pose proof (String.compare_antisym a a) as H.
  destruct (String.compare a a); simpl in H; done.
Qed.

(** [strSet.List()] is the members in strictly increasing order. *)
Lemma SortedList_spec (strSet : gset string) :
  StronglySorted string_lt (SortedList strSet) /\
  NoDup (SortedList strSet) /\
  forall x, x ∈ SortedList strSet <-> x ∈ strSet.
Proof.
  unfold SortedList.
  pose proof (merge_sort_Permutation string_le (elements strSet)) as Hp.
  assert (NoDup (merge_sort string_le (elements strSet))) as Hnd.
  { rewrite Hp. apply NoDup_elements. }
  split; [|split; [done|]].
  - pose proof (StronglySorted_merge_sort string_le (elements strSet)) as Hs.
    revert Hs Hnd. generalize (merge_sort string_le (elements strSet)).
    induction 1 as [|x l Hs IH Hx]; intros Hnd; constructor.
    + apply IH. by apply NoDup_cons_1_2 in Hnd.
    + apply NoDup_cons in Hnd as [Hnotin _].
      rewrite Forall_forall in *. intros y Hy.
      destruct (proj1 (string_le_lt_or_eq x y) (Hx y Hy)) as [? | ->]; done.
  - intros x. rewrite Hp. apply elem_of_elements.
Qed.

(** *** The scanner finds the matches of the pattern *)

Lemma string_app_nil (b : string) : EmptyString +:+ b = b.
Proof. reflexivity. Qed.

Lemma string_app_cons (x : ascii) (a b : string) :
  String x a +:+ b = String x (a +:+ b).
Proof. reflexivity. Qed.

Ltac string_simpl :=
  repeat (rewrite ?string_app_nil, ?string_app_cons in *; simpl in *).

Lemma string_app_assoc (a b c : string) : (a +:+ b) +:+ c = a +:+ (b +:+ c).
Proof. induction a as [|x a IH]; string_simpl; [done | by f_equal]. Qed.

Lemma string_app_length (a b : string) :
  String.length (a +:+ b) = (String.length a + String.length b)%nat.
Proof. induction a as [|x a IH]; string_simpl; [done | by f_equal]. Qed.

Lemma lazyCapture_sound flag_s s : forall cap n,
  lazyCapture flag_s s = Some (cap, n) ->
  exists rest, s = cap +:+ String dollar rest /\ clean flag_s cap = true
               /\ n = S (String.length cap).
Proof.
  induction s as [|c s IH]; simpl; intros cap n H; [done|].
  destruct (Ascii.eqb c dollar) eqn:Hc.
  - apply Ascii.eqb_eq in Hc as ->. injection H as <- <-. by exists s.
  - destruct (matchesDot flag_s c) eqn:Hd; [|done].
    destruct (lazyCapture flag_s s) as [[cap' n']|] eqn:Hl; [|done].
    injection H as <- <-.
    destruct (IH _ _ eq_refl) as (rest & -> & Hcl & ->).
    exists rest. string_simpl. by rewrite Hc, Hd, Hcl.
Qed.

Lemma lazyCapture_complete flag_s cap rest :
  clean flag_s cap = true ->
  lazyCapture flag_s (cap +:+ String dollar rest) = Some (cap, S (String.length cap)).
Proof.
  induction cap as [|c cap IH]; intros H; string_simpl.
  - done.
  - apply andb_prop in H as [H Hcl]. apply andb_prop in H as [Hc Hd].
    apply negb_true_iff in Hc. by rewrite Hc, Hd, IH.
Qed.

Lemma matchAt_sound flag_s s cap n :
  matchAt flag_s s = Some (cap, n) ->
  exists rest, s = String dollar (cap +:+ String dollar rest)
               /\ clean flag_s cap = true /\ n = S (S (String.length cap)).
Proof.
  destruct s as [|c s]; simpl; [done|].
  destruct (Ascii.eqb c dollar) eqn:Hc; [|done].
  apply Ascii.eqb_eq in Hc as ->.
  destruct (lazyCapture flag_s s) as [[cap' n']|] eqn:Hl; [|done].
  intros [= <- <-]. apply lazyCapture_sound in Hl as (rest & -> & Hcl & ->).
  by exists rest.
Qed.

Lemma matchAt_complete flag_s cap rest :
  clean flag_s cap = true ->
  matchAt flag_s (String dollar (cap +:+ String dollar rest))
  = Some (cap, S (S (String.length cap))).
Proof.
  intros H. simpl. rewrite ?Ascii.eqb_refl. by rewrite lazyCapture_complete.
Qed.

(** Passing the characters of the last match. *)
Lemma FindAllStringSubmatch_skip flag_s (pre s : string) :
  FindAllStringSubmatch flag_s (String.length pre) (pre +:+ s)
  = FindAllStringSubmatch flag_s 0 s.
Proof. induction pre as [|c pre IH]; simpl; [by destruct s | done]. Qed.

Lemma FindAllStringSubmatch_Tokens flag_s (n : nat) : forall s,
  (String.length s <= n)%nat ->
  Tokens flag_s s (capturesOf (FindAllStringSubmatch flag_s 0 s)).
Proof.
  induction n as [|n IH]; intros [|c s] Hn.
  - constructor.
  - simpl in Hn. lia.
  - constructor.
  - cbn [FindAllStringSubmatch].
    destruct (matchAt flag_s (String c s)) as [[cap len]|] eqn:Hm.
    + apply matchAt_sound in Hm as (rest & [= -> ->] & Hcl & ->).
      replace (S (S (String.length cap)) - 1)%nat
        with (String.length (cap +:+ String dollar EmptyString))
        by (rewrite string_app_length; simpl; lia).
      replace (cap +:+ String dollar rest)
        with ((cap +:+ String dollar EmptyString) +:+ rest) at 2
        by (by rewrite string_app_assoc).
      rewrite FindAllStringSubmatch_skip.
      apply (Tokens_match flag_s cap rest); [done|]. apply IH.
      simpl in Hn. rewrite string_app_length in Hn. simpl in Hn. lia.
    + apply Tokens_skip; [|apply IH; simpl in Hn; lia].
      intros cap rest Hcl Heq. rewrite Heq in Hm.
      by rewrite matchAt_complete in Hm.
Qed.

(** A clean capture ends at the first dollar sign: the split is unique. *)
Lemma clean_split flag_s cap1 : forall cap2 rest1 rest2,
  clean flag_s cap1 = true -> clean flag_s cap2 = true ->
  cap1 +:+ String dollar rest1 = cap2 +:+ String dollar rest2 ->
  cap1 = cap2 /\ rest1 = rest2.
Proof.
  induction cap1 as [|c cap1 IH]; intros [|d cap2] rest1 rest2 H1 H2 H; string_simpl.
  - by injection H.
  - injection H as <- _. by rewrite Ascii.eqb_refl in H2.
  - injection H as -> _. by rewrite Ascii.eqb_refl in H1.
  - injection H as -> H.
    apply andb_prop in H1 as [_ H1]. apply andb_prop in H2 as [_ H2].
    destruct (IH _ _ _ H1 H2 H) as [-> ->]. done.
Qed.

Lemma Tokens_functional flag_s s caps1 :
  Tokens flag_s s caps1 -> forall caps2, Tokens flag_s s caps2 -> caps1 = caps2.
Proof.
  induction 1 as [|cap rest caps Hcl _ IH|c s caps Hno _ IH]; intros caps2 H2.
  - by inversion H2.
  - inversion H2 as [|cap' rest' caps' Hcl' Ht' Heq|c' s' caps' Hno' Ht']; subst.
    + destruct (clean_split _ _ _ _ _ Hcl' Hcl Heq) as [-> ->]. f_equal. by apply IH.
    + by destruct (Hno' cap rest Hcl).
  - inversion H2 as [|cap' rest' caps' Hcl' Ht' Heq|c' s' caps' Hno' Ht']; subst.
    + by destruct (Hno cap' rest' Hcl').
    + by apply IH.
Qed.

(** Every match the scanner returns is the slice [whole; capture]. *)
Lemma FindAllStringSubmatch_shape flag_s s : forall skip,
  Forall (fun match_ => length match_ = 2%nat) (FindAllStringSubmatch flag_s skip s).
Proof.
  induction s as [|c s IH]; intros skip; simpl; [constructor|].
  destruct skip; [|done].
  destruct (Ascii.eqb c dollar); [|done].
  destruct (lazyCapture flag_s s) as [[cap len]|]; [|done].
  constructor; [done | apply IH].
Qed.

Lemma collectVariables_elem (allMatches : list (list string)) (x : string) :
  Forall (fun match_ => length match_ = 2%nat) allMatches ->
  x ∈ collectVariables allMatches <-> x ∈ capturesOf allMatches.
Proof.
  unfold collectVariables, capturesOf.
  assert (forall acc : gset string,
    Forall (fun match_ => length match_ = 2%nat) allMatches ->
    x ∈ fold_left (fun strSet match_ =>
                     if (length match_ <? 1)%nat then strSet
                     else Insert strSet (drop 1 match_)) allMatches acc
    <-> x ∈ acc \/ x ∈ (fun match_ => default EmptyString (match_ !! 1%nat)) <$> allMatches)
    as Hgen.
  { induction allMatches as [|m ms IH]; intros acc Hall; simpl.
    - rewrite elem_of_nil. tauto.
    - apply Forall_cons in Hall as [Hm Hall]. rewrite IH by done.
      destruct m as [|whole [|cap [|]]]; try done. simpl.
      unfold Insert. rewrite elem_of_cons. set_solver. }
  intros Hall. rewrite Hgen by done. set_solver.
Qed.

(** ** The variables of a template *)

(** C3, amended. For every content of the file, the captures of the matches
    of the pattern, found from left to right without overlap, are determined
    by the content (a capture holds no dollar sign and no line feed), and the
    extractor returns them in strictly increasing byte order: sorted, each
    once. *)
Theorem variablesOfContent_spec (valueYamlContent : string) :
  (exists caps, Tokens false valueYamlContent caps) /\
  forall caps, Tokens false valueYamlContent caps ->
    StronglySorted string_lt (variablesOfContent valueYamlContent) /\
    NoDup (variablesOfContent valueYamlContent) /\
    forall x, x ∈ variablesOfContent valueYamlContent <-> x ∈ caps.
Proof.
  pose proof (FindAllStringSubmatch_Tokens false _ valueYamlContent (le_n _)) as Ht.
  split; [eauto|]. intros caps Hcaps.
  rewrite (Tokens_functional _ _ _ Hcaps _ Ht).
  unfold variablesOfContent, variableExtractRegexp.
  destruct (SortedList_spec
              (collectVariables (FindAllStringSubmatch false 0 valueYamlContent)))
    as (Hs & Hnd & Hin).
  repeat split; try done.
  - intros Hx. apply Hin in Hx.
    by apply collectVariables_elem in Hx; [|apply FindAllStringSubmatch_shape].
  - intros Hx. apply Hin.
    by apply collectVariables_elem; [apply FindAllStringSubmatch_shape|].
Qed.

(** C3 as stated fails: with a line feed between two dollar signs the
    pattern of the code finds no match there, the pattern as worded does. *)
Lemma variablesOfContent_not_as_stated :
  variablesOfContent "cost: $5
image: $tag$" = ["tag"] /\
  extractAsStated "cost: $5
image: $tag$" = ["5
image: "].
Proof. split; vm_compute; reflexivity. Qed.

(** ** The merge of old values into new keys *)

Lemma fold_left_snoc_map {A B : Type} (g : A -> B) (l : list A) (acc : list B) :
  fold_left (fun acc x => acc ++ [g x]) l acc = acc ++ (g <$> l).
Proof.
  revert acc. induction l as [|x l IH]; intros acc; simpl.
  - by rewrite app_nil_r.
  - by rewrite IH, <- app_assoc.
Qed.

Lemma mergeVariables_map variablesNames curVariableMap :
  mergeVariables variablesNames curVariableMap
  = (fun vName =>
       match curVariableMap !! vName with
       | Some v => commonmodels.mkVariable vName (commonmodels.Value v)
       | None => commonmodels.mkVariable vName EmptyString
       end) <$> variablesNames.
Proof. unfold mergeVariables. by rewrite fold_left_snoc_map. Qed.

Lemma GetVariableMap_fold (l : list commonmodels.Variable') :
  forall (m : gmap string commonmodels.Variable') k,
  let res := fold_left (fun res v => <[commonmodels.Key v := v]> res) l m in
  (forall v, res !! k = Some v ->
     (v ∈ l /\ commonmodels.Key v = k) \/ (m !! k = Some v /\ k ∉ (commonmodels.Key <$> l))) /\
  (k ∉ (commonmodels.Key <$> l) -> res !! k = m !! k) /\
  (k ∈ (commonmodels.Key <$> l) -> is_Some (res !! k)) /\
  (NoDup (commonmodels.Key <$> l) ->
   forall v, v ∈ l -> commonmodels.Key v = k -> res !! k = Some v).
Proof.
  induction l as [|x l IH]; intros m k; simpl.
  - repeat split; try set_solver.
  - destruct (IH (<[commonmodels.Key x := x]> m) k) as (IH1 & IH2 & IH3 & IH4).
    repeat split.
    + intros v Hv. destruct (IH1 v Hv) as [[Hin Hk] | [Hlook Hnotin]].
      * left. set_solver.
      * destruct (decide (commonmodels.Key x = k)) as [Heq | Hne].
        -- subst k. rewrite lookup_insert_eq in Hlook. left. set_solver.
        -- rewrite lookup_insert_ne in Hlook by done. right. set_solver.
    + intros Hnotin. rewrite IH2 by set_solver.
      apply lookup_insert_ne. set_solver.
    + intros Hin. destruct (decide (k ∈ (commonmodels.Key <$> l))) as [|Hnotin]; [by apply IH3|].
      rewrite IH2 by done. assert (commonmodels.Key x = k) as -> by set_solver.
      rewrite lookup_insert_eq. eauto.
    + intros Hnd v Hv Hk. apply NoDup_cons in Hnd as [Hx Hnd].
      apply elem_of_cons in Hv as [-> | Hv].
      * rewrite IH2 by (by subst k). subst k. apply lookup_insert_eq.
      * by apply IH4.
Qed.

Lemma mergeVariables_keys variablesNames curVariableMap :
  commonmodels.Key <$> mergeVariables variablesNames curVariableMap = variablesNames.
Proof.
  rewrite mergeVariables_map, <- list_fmap_compose.
  rewrite <- (list_fmap_id variablesNames) at 2.
  apply list_fmap_ext. intros _ k _. simpl. by destruct (curVariableMap !! k).
Qed.

(** C1. The merged list has exactly the new keys, in their order; each
    entry carries the value of an old variable of its key, or the empty string
    when the key is new; where the old keys are distinct every old variable
    whose key is kept is in the result as it was; a key that is only old is
    gone. *)
Theorem mergeVariables_law (chart : models.Chart) (variablesNames : list string) :
  let old := models.Variables chart in
  let merged := mergeVariables variablesNames (models.GetVariableMap chart) in
  commonmodels.Key <$> merged = variablesNames /\
  (forall v, v ∈ merged ->
     (exists o, o ∈ old /\ commonmodels.Key o = commonmodels.Key v
                /\ commonmodels.Value v = commonmodels.Value o) \/
     ((commonmodels.Key v ∉ (commonmodels.Key <$> old))
      /\ commonmodels.Value v = EmptyString)) /\
  (NoDup (commonmodels.Key <$> old) ->
   forall o, o ∈ old -> commonmodels.Key o ∈ variablesNames -> o ∈ merged) /\
  (forall k, k ∈ variablesNames -> k ∉ (commonmodels.Key <$> old) ->
             commonmodels.mkVariable k EmptyString ∈ merged) /\
  (forall k, k ∈ (commonmodels.Key <$> old) -> k ∉ variablesNames ->
             k ∉ (commonmodels.Key <$> merged)).
Proof.
  intros old merged.
  assert (Hkeys : commonmodels.Key <$> merged = variablesNames)
    by apply mergeVariables_keys.
  pose proof (fun k => GetVariableMap_fold old ∅ k) as Hmap. cbv zeta in Hmap.
  revert Hkeys Hmap. subst merged. rewrite mergeVariables_map. unfold models.GetVariableMap. fold old.
  generalize (fold_left (fun res v => <[commonmodels.Key v := v]> res) old
                (∅ : gmap string commonmodels.Variable')).
  intros m Hkeys Hmap.
  split; [done|]. repeat split.
  - intros v Hv. apply list_elem_of_fmap in Hv as (k & -> & Hk).
    destruct (Hmap k) as (H1 & H2 & H3 & _).
    destruct (m !! k) as [o|] eqn:Hlook; simpl.
    + left. destruct (H1 o eq_refl) as [[Hin Hkey] | [Hempty _]]; [|done].
      by exists o.
    + right. split; [|done]. intros Hin. apply H3 in Hin. by destruct Hin.
  - intros Hnd o Ho Hk. apply list_elem_of_fmap. exists (commonmodels.Key o).
    destruct (Hmap (commonmodels.Key o)) as (_ & _ & _ & H4).
    rewrite (H4 Hnd o Ho eq_refl). split; [by destruct o | done].
  - intros k Hk Hnotin. apply list_elem_of_fmap. exists k.
    destruct (Hmap k) as (_ & H2 & _).
    by rewrite (H2 Hnotin), lookup_empty.
  - intros k _ Hnotin. by rewrite Hkeys.
Qed.

(** The example of the specification: old [{a:1, b:2}], new keys [{b, c}]. *)
Example mergeVariables_example :
  mergeVariables ["b"; "c"]
    (models.GetVariableMap
       (models.mkChart "t" "" "" "" "" 0 ""
          [commonmodels.mkVariable "a" "1"; commonmodels.mkVariable "b" "2"]))
  = [commonmodels.mkVariable "b" "2"; commonmodels.mkVariable "c" ""].
Proof. vm_compute. reflexivity. Qed.


(** ** More on the variables of a template *)

Lemma Tokens_occur flag_s s caps :
  Tokens flag_s s caps ->
  forall x, x ∈ caps ->
    clean flag_s x = true /\
    exists pre post, s = pre +:+ String dollar (x +:+ String dollar post).
Proof.
  induction 1 as [|cap rest caps Hcl _ IH|c s caps _ _ IH]; intros x Hx.
  - by apply elem_of_nil in Hx.
  - apply elem_of_cons in Hx as [-> | Hx].
    + split; [done|]. by exists EmptyString, rest.
    + destruct (IH x Hx) as (Hclean & pre & post & ->). split; [done|].
      exists (String dollar (cap +:+ String dollar pre)), post.
      string_simpl. by rewrite string_app_assoc.
  - destruct (IH x Hx) as (Hclean & pre & post & ->). split; [done|].
    by exists (String c pre), post.
Qed.

(** The scanner and the sorted set, put together. *)
Lemma variablesOfContent_tokens (valueYamlContent : string) :
  exists caps, Tokens false valueYamlContent caps /\
    StronglySorted string_lt (variablesOfContent valueYamlContent) /\
    NoDup (variablesOfContent valueYamlContent) /\
    forall x, x ∈ variablesOfContent valueYamlContent <-> x ∈ caps.
Proof.
  exists (capturesOf (FindAllStringSubmatch false 0 valueYamlContent)).
  split; [apply (FindAllStringSubmatch_Tokens false _ _ (le_n _))|].
  unfold variablesOfContent, variableExtractRegexp.
  destruct (SortedList_spec
              (collectVariables (FindAllStringSubmatch false 0 valueYamlContent)))
    as (Hs & Hnd & Hin).
  split; [done|]. split; [done|]. intros x. rewrite Hin.
  apply collectVariables_elem, FindAllStringSubmatch_shape.
Qed.

(** X10. Every name the extractor returns stands in the content between two
    dollar signs, and holds no dollar sign and no line feed itself. *)
Theorem variablesOfContent_sound (valueYamlContent x : string) :
  x ∈ variablesOfContent valueYamlContent ->
  clean false x = true /\
  exists pre post,
    valueYamlContent = pre +:+ String dollar (x +:+ String dollar post).
Proof.
  destruct (variablesOfContent_tokens valueYamlContent) as (caps & Hcaps & _ & _ & Hin).
  intros Hx. apply Hin in Hx. by apply (Tokens_occur _ _ _ Hcaps).
Qed.

(** A content with no dollar sign, or with one only, has no variable. *)
Lemma Tokens_dollars flag_s s caps :
  Tokens flag_s s caps ->
  (2 * length caps <= length (filter (fun c => c = dollar) (String.list_ascii_of_string s)))%nat.
Proof.
  assert (Happ : forall a b, String.list_ascii_of_string (a +:+ b)
                             = String.list_ascii_of_string a ++ String.list_ascii_of_string b).
  { intros a b. induction a as [|c a IH]; string_simpl; [done | by f_equal]. }
  assert (Hcons : forall c a, String.list_ascii_of_string (String c a)
                              = c :: String.list_ascii_of_string a) by done.
  induction 1 as [|cap rest caps Hcl _ IH|c s caps _ _ IH].
  - simpl. lia.
  - rewrite Hcons, filter_cons_True, Happ, filter_app, Hcons, filter_cons_True by done.
    cbn [length]. rewrite length_app. cbn [length]. lia.
  - rewrite Hcons. destruct (decide (c = dollar)).
    + rewrite filter_cons_True by done. cbn [length]. lia.
    + rewrite filter_cons_False by done. lia.
Qed.

(** X11. The extractor finds at most one name for every two dollar signs of the
    content: none when there are fewer than two. *)
Theorem variablesOfContent_bound (valueYamlContent : string) :
  (2 * length (variablesOfContent valueYamlContent)
   <= length (filter (fun c => c = dollar) (String.list_ascii_of_string valueYamlContent)))%nat.
Proof.
  destruct (variablesOfContent_tokens valueYamlContent)
    as (caps & Hcaps & Hs & Hnd & Hin).
  pose proof (Tokens_dollars _ _ _ Hcaps) as Hd.
  assert (length (variablesOfContent valueYamlContent) <= length caps)%nat; [|lia].
  apply submseteq_length, NoDup_submseteq; [done|]. intros x. apply Hin.
Qed.

(** ** More on the merge *)

(** X12. When the keys found are the keys stored, each once, the merge gives back
    the stored variables as they are: an update that changes no placeholder
    changes no variable. *)
Theorem mergeVariables_same_keys (chart : models.Chart) :
  NoDup (commonmodels.Key <$> models.Variables chart) ->
  mergeVariables (commonmodels.Key <$> models.Variables chart)
    (models.GetVariableMap chart)
  = models.Variables chart.
Proof.
  intros Hnd. rewrite mergeVariables_map, <- list_fmap_compose.
  transitivity (id <$> models.Variables chart); [|apply list_fmap_id].
  apply list_fmap_ext. intros i v Hv. simpl.
  destruct (GetVariableMap_fold (models.Variables chart) ∅ (commonmodels.Key v))
    as (_ & _ & _ & H4).
  unfold models.GetVariableMap.
  rewrite (H4 Hnd v (list_elem_of_lookup_2 _ _ _ Hv) eq_refl). by destruct v.
Qed.

(** ** Goroutines and their traces *)

Lemma elem_of_entriesOf (tid : nat) (o : Obs) (tr : Trace) :
  o ∈ entriesOf tid tr <-> (tid, o) ∈ tr.
Proof.
  unfold entriesOf. rewrite list_elem_of_fmap. split.
  - intros ([tid' o'] & -> & Hin). apply list_elem_of_filter in Hin as [Heq Hin].
    simpl in *. by subst.
  - intros Hin. exists (tid, o). split; [done|]. by apply list_elem_of_filter.
Qed.

Lemma entriesOf_cons_eq (tid : nat) (o : Obs) (tr : Trace) :
  entriesOf tid ((tid, o) :: tr) = o :: entriesOf tid tr.
Proof. unfold entriesOf. by rewrite filter_cons_True. Qed.

Lemma entriesOf_cons_ne (tid tid' : nat) (o : Obs) (tr : Trace) :
  tid' <> tid -> entriesOf tid ((tid', o) :: tr) = entriesOf tid tr.
Proof. intros H. unfold entriesOf. by rewrite filter_cons_False. Qed.

Lemma entriesOf_app (tid : nat) (tr1 tr2 : Trace) :
  entriesOf tid (tr1 ++ tr2) = entriesOf tid tr1 ++ entriesOf tid tr2.
Proof. unfold entriesOf. by rewrite filter_app, fmap_app. Qed.

Lemma entriesOf_all (tid : nat) (tr : Trace) :
  Forall (fun o => o.1 = tid) tr -> entriesOf tid tr = tr.*2.
Proof.
  induction 1 as [|[t o] tr Ht _ IH]; [done|]. simpl in Ht. subst t.
  rewrite entriesOf_cons_eq. simpl. by f_equal.
Qed.

Lemma entriesOf_none (tid : nat) (tr : Trace) :
  Forall (fun o => o.1 <> tid) tr -> entriesOf tid tr = [].
Proof.
  induction 1 as [|[t o] tr Ht _ IH]; [done|]. simpl in Ht.
  by rewrite entriesOf_cons_ne.
Qed.

(** The error variable after a trace: the last error assigned, if any. *)
Lemma assign_err_None (tr : Trace) : forall c,
  err (fold_left assign tr c) = None <->
  err c = None /\ forall tid e, (tid, ObsAssignErr e) ∉ tr.
Proof.
  induction tr as [|[tid o] tr IH]; intros c; simpl.
  - split; [|tauto]. intros H. split; [done|]. intros ??. apply not_elem_of_nil.
  - rewrite IH. unfold assign. simpl. split.
    + intros [Hc Hno]. destruct o; simpl in Hc; try done;
        (split; [done|]; intros tid' e' Hin;
         apply elem_of_cons in Hin as [[= ]|Hin]; by eapply Hno).
    + intros [Hc Hno]. split.
      * destruct o; simpl; try done. exfalso. eapply Hno. left.
      * intros tid' e' Hin. eapply Hno. by right.
Qed.

Lemma assign_err_Some (tr : Trace) : forall c e,
  err (fold_left assign tr c) = Some e ->
  err c = Some e \/ exists tid, (tid, ObsAssignErr e) ∈ tr.
Proof.
  induction tr as [|[tid o] tr IH]; intros c e; simpl; [auto|].
  intros H. apply IH in H as [H | [tid' H]].
  - unfold assign in H. simpl in H.
    destruct o; simpl in H; auto. injection H as ->. right. exists tid. left.
  - right. exists tid'. by right.
Qed.

(** The hash variable after a trace that assigns it: the last hash assigned. *)
Lemma assign_sha1_Some (tr : Trace) (c : Cells) :
  (exists tid s, (tid, ObsAssignSha1 s) ∈ tr) ->
  exists tid, (tid, ObsAssignSha1 (sha1 (fold_left assign tr c))) ∈ tr.
Proof.
  induction tr as [|[tid o] tr IH] using rev_ind; intros (tid' & s & Hin).
  - by apply elem_of_nil in Hin.
  - rewrite fold_left_app. simpl. unfold assign at 1. simpl.
    assert (Hrest : (exists tid s, (tid, ObsAssignSha1 s) ∈ tr) ->
                    exists t, (t, ObsAssignSha1 (sha1 (fold_left assign tr c)))
                                ∈ tr ++ [(tid, o)]).
    { intros H. destruct (IH H) as [t Ht]. exists t. apply elem_of_app. by left. }
    apply elem_of_app in Hin as [Hin | Hin].
    + destruct o; try (apply Hrest; eauto).
      exists tid. apply elem_of_app. right. simpl. left.
    + apply list_elem_of_singleton in Hin as [= -> <-]. simpl.
      exists tid. apply elem_of_app. right. left.
Qed.

(** In a trace of the two goroutines every entry is of one of them. *)
Lemma elem_of_two (tr : Trace) (tid : nat) (o : Obs) :
  Forall (fun o => o.1 = 1%nat \/ o.1 = 2%nat) tr ->
  (tid, o) ∈ tr <->
  (tid = 1%nat /\ o ∈ entriesOf 1 tr) \/ (tid = 2%nat /\ o ∈ entriesOf 2 tr).
Proof.
  intros Hall. rewrite !elem_of_entriesOf. split.
  - intros Hin. rewrite Forall_forall in Hall.
    destruct (Hall _ Hin) as [H | H]; simpl in H; subst; auto.
  - intros [[-> H] | [-> H]]; done.
Qed.

Section Properties.

Context {W : Type}.
Variable handle : forall X : Type, Ev X -> W -> X * W.
Variable LocalChartTemplatePath : string -> string.
Variable ObjectStorageChartTemplatePath : string -> string.
Variable filepath_Base : string -> string.
Variable filepath_Join : list string -> string.
Variable ValuesYaml : string.

Abbreviation persistTask' := (persistTask LocalChartTemplatePath ObjectStorageChartTemplatePath).
Abbreviation hashTask' := (hashTask filepath_Base filepath_Join).
Abbreviation processChartFromSource' :=
  (processChartFromSource handle LocalChartTemplatePath ObjectStorageChartTemplatePath
     filepath_Base filepath_Join).
Abbreviation GetFileContent' :=
  (GetFileContent handle LocalChartTemplatePath ObjectStorageChartTemplatePath
     filepath_Base filepath_Join).
Abbreviation parseTemplateVariables' :=
  (parseTemplateVariables handle LocalChartTemplatePath ObjectStorageChartTemplatePath
     filepath_Base filepath_Join ValuesYaml).
Abbreviation AddChartTemplate' :=
  (AddChartTemplate handle LocalChartTemplatePath ObjectStorageChartTemplatePath
     filepath_Base filepath_Join ValuesYaml).
Abbreviation UpdateChartTemplate' :=
  (UpdateChartTemplate handle LocalChartTemplatePath ObjectStorageChartTemplatePath
     filepath_Base filepath_Join ValuesYaml).
Abbreviation ingest' :=
  (ingest handle LocalChartTemplatePath ObjectStorageChartTemplatePath
     filepath_Base filepath_Join ValuesYaml).
Abbreviation UpdateChartTemplateVariables' := (UpdateChartTemplateVariables handle).
Abbreviation RemoveChartTemplate' :=
  (RemoveChartTemplate handle ObjectStorageChartTemplatePath).

(** A goroutine that runs alone leaves a complete run of its body. *)
Lemma finish_runs (tid : nat) (t : Task) : forall c w c' w' tr,
  finish handle tid t c w = (c', w', tr) ->
  runs t tr.*2 /\ Forall (fun o => o.1 = tid) tr /\ c' = fold_left assign tr c.
Proof.
  induction t as [|X e k IH|e k IH|s k IH]; intros c w c' w' tr; simpl.
  - intros [= <- <- <-]. by repeat split.
  - destruct (handle X e w) as [x w1].
    destruct (finish handle tid (k x) c w1) as [[c1 w2] tr1] eqn:Hf.
    intros [= <- <- <-]. destruct (IH _ _ _ _ _ _ Hf) as (Hr & Hall & ->).
    split; [by exists x, tr1.*2 | split; [by constructor|]].
    simpl. unfold assign at 2. by destruct e.
  - destruct (finish handle tid k _ w) as [[c1 w2] tr1] eqn:Hf.
    intros [= <- <- <-]. destruct (IH _ _ _ _ _ Hf) as (Hr & Hall & ->).
    split; [by exists tr1.*2 | split; [by constructor | done]].
  - destruct (finish handle tid k _ w) as [[c1 w2] tr1] eqn:Hf.
    intros [= <- <- <-]. destruct (IH _ _ _ _ _ Hf) as (Hr & Hall & ->).
    split; [by exists tr1.*2 | split; [by constructor | done]].
Qed.

Lemma step_runs (tid : nat) (t t' : Task) c w c' w' o l :
  step handle tid t c w = Some (t', c', w', o) ->
  runs t' l -> runs t (o.2 :: l) /\ o.1 = tid /\ c' = assign c o.
Proof.
  destruct t as [|X e k|e k|s k]; simpl; [done| | |].
  - destruct (handle X e w) as [x w1]. intros [= <- <- <- <-] Hr.
    split; [by exists x, l | split; [done|]]. unfold assign. simpl. by destruct e.
  - intros [= <- <- <- <-] Hr. split; [by exists l | done].
  - intros [= <- <- <- <-] Hr. split; [by exists l | done].
Qed.

(** Whatever the schedule, [Wait] returns, and the trace holds a complete
    run of each goroutine; the shared variables hold what the assignments of
    the trace, in order, left there. *)
Lemma wg_Wait_runs (sched : list bool) : forall t1 t2 c w c' w' tr,
  wg_Wait handle sched t1 t2 c w = (c', w', tr) ->
  runs t1 (entriesOf 1 tr) /\ runs t2 (entriesOf 2 tr) /\
  Forall (fun o => o.1 = 1%nat \/ o.1 = 2%nat) tr /\
  c' = fold_left assign tr c.
Proof.
  induction sched as [|first sched IH]; intros t1 t2 c w c' w' tr; simpl.
  - destruct (finish handle 1 t1 c w) as [[c1 w1] tr1] eqn:H1.
    destruct (finish handle 2 t2 c1 w1) as [[c2 w2] tr2] eqn:H2.
    intros [= <- <- <-].
    apply finish_runs in H1 as (Hr1 & Hall1 & ->).
    apply finish_runs in H2 as (Hr2 & Hall2 & ->).
    rewrite !entriesOf_app, fold_left_app.
    rewrite (entriesOf_all 1 tr1), (entriesOf_all 2 tr2) by done.
    rewrite (entriesOf_none 1 tr2), (entriesOf_none 2 tr1), app_nil_r
      by (eapply Forall_impl; [eassumption|]; simpl; intros ? ->; done).
    repeat split; try done. apply Forall_app. split.
    + eapply Forall_impl; [exact Hall1|]. simpl. auto.
    + eapply Forall_impl; [exact Hall2|]. simpl. auto.
  - destruct first.
    + destruct (step handle 1 t1 c w) as [[[[t1' c1] w1] o]|] eqn:Hs; [|by apply IH].
      destruct (wg_Wait handle sched t1' t2 c1 w1) as [[cf wf] tr'] eqn:Hw.
      intros [= <- <- <-]. destruct (IH _ _ _ _ _ _ _ Hw) as (Hr1 & Hr2 & Hall & ->).
      destruct (step_runs _ _ _ _ _ _ _ _ _ Hs Hr1) as (Hr & Ho & ->).
      destruct o as [tid o]. simpl in *. subst tid.
      rewrite entriesOf_cons_eq, entriesOf_cons_ne by done.
      repeat split; try done. constructor; simpl; auto.
    + destruct (step handle 2 t2 c w) as [[[[t2' c1] w1] o]|] eqn:Hs; [|by apply IH].
      destruct (wg_Wait handle sched t1 t2' c1 w1) as [[cf wf] tr'] eqn:Hw.
      intros [= <- <- <-]. destruct (IH _ _ _ _ _ _ _ Hw) as (Hr1 & Hr2 & Hall & ->).
      destruct (step_runs _ _ _ _ _ _ _ _ _ Hs Hr2) as (Hr & Ho & ->).
      destruct o as [tid o]. simpl in *. subst tid.
      rewrite entriesOf_cons_eq, entriesOf_cons_ne by done.
      repeat split; try done. constructor; simpl; auto.
Qed.

(** *** The two goroutines of [processChartFromSource] *)

(** The persist goroutine ends in one of two ways. *)
Lemma persistTask_runs (tree : Tree) (name : string) (l : list Obs) :
  runs (persistTask' tree name) l ->
  let save := ObsSaveAndUpload tree name (LocalChartTemplatePath name)
                (ObjectStorageChartTemplatePath name) in
  l = [ObsLog LDebug "Start to save and upload chart"; save None;
       ObsLog LDebug "Finish to save and upload chart"] \/
  exists e, l = [ObsLog LDebug "Start to save and upload chart"; save (Some e);
                 ObsLog LError "Failed to save files to disk, err: %s";
                 ObsAssignErr e].
Proof.
  simpl. intros (_ & l1 & -> & [e|] & l2 & -> & H); simpl in H.
  - destruct H as (_ & l3 & -> & l4 & -> & ->). right. by exists e.
  - destruct H as (_ & l3 & -> & ->). by left.
Qed.

(** The hash goroutine ends in one of four ways. *)
Lemma hashTask_runs (tree : Tree) (args : fs.DownloadFromSourceArgs) (l : list Obs) :
  runs (hashTask' tree args) l ->
  let start := ObsLog LDebug "Start to calculate sha1 for chart" in
  let fileName := filepath_Base (fs.Path args) +:+ ".tar.gz" in
  (exists e, l = [start; ObsMkdirTemp (inl e);
                  ObsLog LError "Failed to create temp dir, err: %s"; ObsAssignErr e]) \/
  (exists tmpDir e r,
     l = [start; ObsMkdirTemp (inr tmpDir);
          ObsTar tree (filepath_Join [tmpDir; fileName]) (Some e);
          ObsLog LError "Failed to archive files to %s, err: %s"; ObsAssignErr e;
          ObsRemoveAll tmpDir r]) \/
  (exists tmpDir s e r,
     l = [start; ObsMkdirTemp (inr tmpDir);
          ObsTar tree (filepath_Join [tmpDir; fileName]) None;
          ObsSha1 tmpDir fileName (s, Some e); ObsAssignSha1 s;
          ObsLog LError "Failed to calculate sha1 for file %s, err: %s"; ObsAssignErr e;
          ObsRemoveAll tmpDir r]) \/
  (exists tmpDir s r,
     l = [start; ObsMkdirTemp (inr tmpDir);
          ObsTar tree (filepath_Join [tmpDir; fileName]) None;
          ObsSha1 tmpDir fileName (s, None); ObsAssignSha1 s;
          ObsLog LDebug "Finish to calculate sha1 for chart";
          ObsRemoveAll tmpDir r]).
Proof.
  simpl. intros (_ & l1 & -> & [e|tmpDir] & l2 & -> & H); simpl in H.
  - destruct H as (_ & l3 & -> & l4 & -> & ->). left. by exists e.
  - destruct H as ([e|] & l3 & -> & H); simpl in H.
    + destruct H as (_ & l4 & -> & l5 & -> & r & l6 & -> & ->).
      right. left. by exists tmpDir, e, r.
    + destruct H as ([s [e|]] & l4 & -> & l5 & -> & H); simpl in H.
      * destruct H as (_ & l6 & -> & l7 & -> & r & l8 & -> & ->).
        right. right. left. by exists tmpDir, s, e, r.
      * destruct H as (_ & l6 & -> & r & l7 & -> & ->).
        right. right. right. by exists tmpDir, s, r.
Qed.


(** A run of the two goroutines: each leaves one of its complete runs. *)
Lemma forkJoin_runs sched tree name args c w c' w' tr :
  fork_join handle (persistTask' tree name) (hashTask' tree args) c sched w = (c', w', tr) ->
  runs (persistTask' tree name) (entriesOf 1 tr) /\
  runs (hashTask' tree args) (entriesOf 2 tr) /\
  Forall (fun o => o.1 = 1%nat \/ o.1 = 2%nat) tr /\
  c' = fold_left assign tr c.
Proof. apply wg_Wait_runs. Qed.

Ltac fork_join_cases H :=
  let Hp := fresh "Hpersist" in
  let Hh := fresh "Hhash" in
  let Hall := fresh "Hall" in
  let Hc := fresh "Hcells" in
  apply forkJoin_runs in H as (Hp & Hh & Hall & Hc);
  apply persistTask_runs in Hp; apply hashTask_runs in Hh; cbv zeta in Hp, Hh;
  destruct Hp as [Hp | [? Hp]];
  destruct Hh as [[? Hh] | [(? & ? & ? & Hh) | [(? & ? & ? & ? & Hh) | (? & ? & ? & Hh)]]].

Ltac in_trace Hall :=
  repeat match goal with
    | H : (_, _) ∈ _ |- _ => apply (elem_of_two _ _ _ Hall) in H
    end.

(** No entry of the two goroutines is of the calling goroutine, and none is
    a write to the Metadata Store or a read of the variables file. *)
Lemma forkJoin_quiet sched tree name args c w c' w' tr :
  fork_join handle (persistTask' tree name) (hashTask' tree args) c sched w = (c', w', tr) ->
  Forall (fun o => o.1 <> 0%nat /\ metadataWrite o.2 = false
                   /\ variableRead o.2 = false) tr.
Proof.
  intros H. apply Forall_forall. intros [t o] Hin. simpl.
  fork_join_cases H; apply (elem_of_two _ _ _ Hall) in Hin;
    rewrite Hpersist, Hhash in Hin; set_unfold; naive_solver.
Qed.


(** When no error was assigned, both goroutines went through: the tiers were
    written, the hash returned is the one [fsutil.Sha1] answered, and no call
    answered an error. *)
Lemma forkJoin_ok sched tree name args c w c' w' tr :
  fork_join handle (persistTask' tree name) (hashTask' tree args) c sched w = (c', w', tr) ->
  err c' = None ->
  (1%nat, ObsSaveAndUpload tree name (LocalChartTemplatePath name)
            (ObjectStorageChartTemplatePath name) None) ∈ tr /\
  (exists tmpDir, (2%nat, ObsSha1 tmpDir (filepath_Base (fs.Path args) +:+ ".tar.gz")
                            (sha1 c', None)) ∈ tr) /\
  (forall t o, (t, o) ∈ tr -> persistFailure o = None /\ hashFailure o = None).
Proof.
  clear ValuesYaml.
  intros H Herr.
  pose proof H as H0. apply forkJoin_runs in H0 as (_ & _ & _ & Hc).
  rewrite Hc in Herr. apply assign_err_None in Herr as [_ Hno].
  assert (Hno' : forall t e, ObsAssignErr e ∉ entriesOf t tr).
  { intros t e Hin. apply (Hno t e). by apply elem_of_entriesOf. }
  fork_join_cases H;
    try match goal with
        | Hs : entriesOf ?t tr = ?l |- _ =>
            match l with
            | context [ObsAssignErr ?e] =>
                exfalso; apply (Hno' t e); rewrite Hs; set_unfold; tauto
            end
        end.
  destruct (assign_sha1_Some tr c) as [ts Hs].
  { exists 2%nat. eexists. apply elem_of_entriesOf. rewrite Hhash.
    do 4 (apply elem_of_cons; right). left. }
  rewrite <- Hcells in Hs.
  apply (elem_of_two _ _ _ Hall) in Hs. rewrite Hpersist, Hhash in Hs.
  split; [|split].
  - apply elem_of_entriesOf. rewrite Hpersist. set_unfold. tauto.
  - match type of Hhash with
    | _ = [_; _; _; ObsSha1 ?d _ (?s, None); _; _; _] =>
        assert (sha1 c' = s) as -> by (clear -Hs; set_unfold; naive_solver);
        exists d
    end.
    apply elem_of_entriesOf. rewrite Hhash. set_unfold. tauto.
  - intros t o Hin. apply (elem_of_two _ _ _ Hall) in Hin.
    rewrite Hpersist, Hhash in Hin. clear -Hin. set_unfold. naive_solver.
Qed.

(** An error answered to either goroutine is assigned, and the error variable
    is never cleared: the phase ends with an error. *)
Lemma forkJoin_failed sched tree name args c w c' w' tr t o e :
  fork_join handle (persistTask' tree name) (hashTask' tree args) c sched w = (c', w', tr) ->
  (t, o) ∈ tr -> persistFailure o = Some e \/ hashFailure o = Some e ->
  exists e', err c' = Some e'.
Proof.
  intros H Hin Hfail. destruct (err c') as [e'|] eqn:Herr; [eauto|]. exfalso.
  destruct (forkJoin_ok _ _ _ _ _ _ _ _ _ H Herr) as (_ & _ & Hnone).
  destruct (Hnone t o Hin) as [H1 H2]. destruct Hfail; congruence.
Qed.

(** The error the phase ends with is one a call of a goroutine answered. *)
Lemma forkJoin_err sched tree name args c w c' w' tr e :
  fork_join handle (persistTask' tree name) (hashTask' tree args) c sched w = (c', w', tr) ->
  err c = None -> err c' = Some e ->
  exists t o, (t, o) ∈ tr /\ (persistFailure o = Some e \/ hashFailure o = Some e).
Proof.
  intros H Hinit Herr.
  pose proof H as H0. apply forkJoin_runs in H0 as (_ & _ & _ & Hc).
  rewrite Hc in Herr. apply assign_err_Some in Herr as [Herr | [ta Ha]]; [congruence|].
  fork_join_cases H; apply (elem_of_two _ _ _ Hall) in Ha;
    rewrite Hpersist, Hhash in Ha;
    destruct Ha as [[-> Ha] | [-> Ha]]; set_unfold;
    repeat match goal with H : _ \/ _ |- _ => destruct H as [H | H] end;
    try discriminate; try done;
    match goal with H : ObsAssignErr _ = ObsAssignErr _ |- _ => injection H as -> end.
  all: first
    [ exists 1%nat; eexists; split;
      [apply elem_of_entriesOf; rewrite Hpersist; apply elem_of_cons; right; left
      | left; reflexivity]
    | exists 2%nat; eexists; split;
      [apply elem_of_entriesOf; rewrite Hhash; apply elem_of_cons; right; left
      | right; reflexivity]
    | exists 2%nat; eexists; split;
      [apply elem_of_entriesOf; rewrite Hhash; do 2 (apply elem_of_cons; right); left
      | right; reflexivity]
    | exists 2%nat; eexists; split;
      [apply elem_of_entriesOf; rewrite Hhash; do 3 (apply elem_of_cons; right); left
      | right; reflexivity] ].
Qed.

(** Each goroutine is answered at most one error. *)
Lemma forkJoin_failure_unique sched tree name args c w c' w' tr t o e t' o' e' :
  fork_join handle (persistTask' tree name) (hashTask' tree args) c sched w = (c', w', tr) ->
  (t, o) ∈ tr -> (t', o') ∈ tr ->
  (persistFailure o = Some e /\ persistFailure o' = Some e') \/
  (hashFailure o = Some e /\ hashFailure o' = Some e') ->
  e = e'.
Proof.
  intros H Hin Hin' Hfail.
  fork_join_cases H; apply (elem_of_two _ _ _ Hall) in Hin, Hin';
    rewrite Hpersist, Hhash in Hin, Hin'; set_unfold; naive_solver.
Qed.

(** *** Running the service *)

Ltac run_handle :=
  match goal with
  | |- context [handle ?X ?e ?w] =>
      let x := fresh "x" in
      let w' := fresh "w" in
      let E := fresh "E" in
      destruct (handle X e w) as [x w'] eqn:E
  end.

Ltac run_unfold :=
  unfold RemoveChartTemplate, UpdateChartTemplateVariables, AddChartTemplate,
    UpdateChartTemplate, parseTemplateVariables, GetFileContent,
    processChartFromSource, bind, log, call, ret in *.

(** The runs of [processChartFromSource]: the pull fails and nothing else is
    called, or the two goroutines run on the tree pulled. *)
Lemma processChartFromSource_runs name args sched w r w' tr :
  processChartFromSource' name args sched w = (r, w', tr) ->
  (exists e, r = inl e /\
     tr = [(0%nat, ObsDownload args (inl e));
           (0%nat, ObsLog LError "Failed to download files with option %+v, err: %s")]) \/
  (exists tree w1 c' trfj,
     let name' := if String.eqb name EmptyString then filepath_Base (fs.Path args) else name in
     fork_join handle (persistTask' tree name') (hashTask' tree args)
       (mkCells None EmptyString) sched w1 = (c', w', trfj) /\
     tr = (0%nat, ObsDownload args (inr tree)) :: trfj /\
     r = match err c' with Some e => inl e | None => inr (sha1 c') end).
Proof.
  run_unfold. run_handle. destruct x as [e|tree]; cbv beta iota.
  - run_handle. intros [= <- <- <-]. left. by exists e.
  - destruct (fork_join _ _ _ _ _ _) as [[c' w1] trfj] eqn:Hfj.
    destruct (err c') as [e|] eqn:Herr; intros [= <- <- <-]; right;
      exists tree, w0, c', trfj; rewrite Herr, app_nil_r; done.
Qed.

(** ** Removal *)

(** C8. When the delete of the record fails, removal returns that error and
    the archive is left alone. When it succeeds, removal returns [nil]
    whatever the delete of the archive answers; an error of that delete is
    logged as a warning and nothing else. *)
Theorem RemoveChartTemplate_outcome (name : string) (sched : list bool) (w : W) :
  let s3Base := ObjectStorageChartTemplatePath name in
  let r := (RemoveChartTemplate' name sched w).1.1 in
  let tr := (RemoveChartTemplate' name sched w).2 in
  match handle _ (mongodb_Delete name) w with
  | (Some e, _) =>
      r = Some e /\
      tr = [(0%nat, ObsDelete name (Some e));
            (0%nat, ObsLog LError "Failed to delete chart template %s, err: %s")]
  | (None, w1) =>
      r = None /\
      match handle _ (fs_DeleteArchivedFileFromS3 name s3Base) w1 with
      | (Some e, _) =>
          tr = [(0%nat, ObsDelete name None);
                (0%nat, ObsDeleteArchived name s3Base (Some e));
                (0%nat, ObsLog LWarn "Failed to delete file %s, err: %s")]
      | (None, _) =>
          tr = [(0%nat, ObsDelete name None);
                (0%nat, ObsDeleteArchived name s3Base None)]
      end
  end.
Proof.
  run_unfold. cbv zeta. run_handle. destruct x as [e|]; cbv beta iota.
  - run_handle. done.
  - run_handle. destruct x as [e|]; cbv beta iota; [run_handle|]; done.
Qed.

(** ** Variables given by the user *)

(** C10. Whatever list is passed in, the record handed to the update of the
    Metadata Store has no variable; its other fields are those of the record
    just read. The update is the only call after the read, and its answer is
    returned. *)
Theorem UpdateChartTemplateVariables_drops_args
    (name : string) (args : list Variable') (sched : list bool) (w w1 : W)
    (chart : models.Chart) :
  handle _ (mongodb_Get name) w = (inr chart, w1) ->
  let record :=
    models.mkChart name (models.Owner chart) (models.Repo chart) (models.Path chart)
      (models.Branch chart) (models.CodeHostID chart) (models.Sha1 chart) [] in
  UpdateChartTemplateVariables' name args sched w
  = ((handle _ (mongodb_Update record) w1).1,
     (handle _ (mongodb_Update record) w1).2,
     [(0%nat, ObsGet name (inr chart));
      (0%nat, ObsUpdate record (handle _ (mongodb_Update record) w1).1)]).
Proof.
  intros Hget. run_unfold. rewrite Hget. cbv beta iota zeta. simpl fold_left.
  by run_handle.
Qed.

(** ** Create *)

(** C7. When the Metadata Store says that a record of the name exists,
    create returns the already-existing error, and the question is the only
    call it made: no pull, no write to a tier, no write to the store. *)
Theorem AddChartTemplate_duplicate
    (name : string) (args : fs.DownloadFromSourceArgs) (sched : list bool) (w w1 : W) :
  handle _ (mongodb_Exist name) w = (true, w1) ->
  AddChartTemplate' name args sched w
  = (Some (errorString ("a chart template with name " +:+ name +:+ " is already existing")),
     w1, [(0%nat, ObsExist name true)]).
Proof. intros Hexist. run_unfold. by rewrite Hexist. Qed.

(** The runs of [parseTemplateVariables]: every call is one of the calling
    goroutine, and none is a pull or a write to the Metadata Store. *)
Lemma parseTemplateVariables_runs name sched w r w' tr :
  parseTemplateVariables' name sched w = (r, w', tr) ->
  (exists e, r = inl (withMessage e "failed to read values.yaml") /\
     tr = [(0%nat, ObsGet name (inl e));
           (0%nat, ObsLog LError "Failed to get chart template %s, err: %s")]) \/
  (exists chart e, r = inl (withMessage e "failed to read values.yaml") /\
     tr = [(0%nat, ObsGet name (inr chart));
           (0%nat, ObsPreload name (LocalChartTemplatePath name)
                     (ObjectStorageChartTemplatePath name) (Some e))]) \/
  (exists chart file e, r = inl (withMessage e "failed to read values.yaml") /\
     tr = [(0%nat, ObsGet name (inr chart));
           (0%nat, ObsPreload name (LocalChartTemplatePath name)
                     (ObjectStorageChartTemplatePath name) None);
           (0%nat, ObsReadFile file (inl e));
           (0%nat, ObsLog LError "Failed to read file %s, err: %s")]) \/
  (exists chart valueYamlContent,
     r = inr (variablesOfContent valueYamlContent) /\
     tr = [(0%nat, ObsGet name (inr chart));
           (0%nat, ObsPreload name (LocalChartTemplatePath name)
                     (ObjectStorageChartTemplatePath name) None);
           (0%nat, ObsReadFile
                     (filepath_Join [LocalChartTemplatePath name;
                                     filepath_Base (models.Path chart);
                                     EmptyString; ValuesYaml])
                     (inr valueYamlContent))]).
Proof.
  run_unfold. run_handle. destruct x as [e|chart]; cbv beta iota zeta.
  - run_handle. intros [= <- <- <-]. left. by exists e.
  - run_handle. destruct x as [e|]; cbv beta iota zeta.
    + intros [= <- <- <-]. right. left. by exists chart, e.
    + run_handle. destruct x as [e|content]; cbv beta iota zeta.
      * run_handle. intros [= <- <- <-]. right. right. left. by eexists chart, _, e.
      * intros [= <- <- <-]. right. right. right. by exists chart, content.
Qed.

Ltac ingest_unfold :=
  unfold ingest, AddChartTemplate, UpdateChartTemplate, bind, log, call, ret in *.

Ltac run_process :=
  match goal with
  | |- context [processChartFromSource ?h ?l ?o ?b ?j ?n ?a ?s ?w] =>
      let Hp := fresh "Hprocess" in
      destruct (processChartFromSource h l o b j n a s w) as [[? ?] ?] eqn:Hp;
      apply processChartFromSource_runs in Hp
        as [(? & -> & ->) | (? & ? & ? & ? & Hp & -> & ->)]; cbv zeta in *
  end.

Ltac run_parse :=
  match goal with
  | |- context [parseTemplateVariables ?h ?l ?o ?b ?j ?v ?n ?s ?w] =>
      let Hp := fresh "Hparse" in
      destruct (parseTemplateVariables h l o b j v n s w) as [[? ?] ?] eqn:Hp;
      apply parseTemplateVariables_runs in Hp
        as [(? & -> & ->) | [(? & ? & -> & ->) | [(? & ? & ? & -> & ->) | (? & ? & -> & ->)]]]
  end.

(** ** Ingest *)

(** C5. In every run of create or update in which the pull answers an
    error, the operation returns that error, and the run holds no write to
    the Local Cache, the Durable Store or the Metadata Store. *)
Theorem ingest_pull_failure
    (op : Ingest) (name : string) (args : fs.DownloadFromSourceArgs)
    (sched : list bool) (w w' : W) (r : option error) (tr : Trace) (e : error) :
  ingest' op name args sched w = (r, w', tr) ->
  (0%nat, ObsDownload args (inl e)) ∈ tr ->
  r = Some e /\
  Forall (fun o => metadataWrite o.2 = false /\ tierWrite o.2 = false) tr.
Proof.
  destruct op; ingest_unfold.
  - run_handle. destruct x; cbv beta iota zeta.
    + intros [= <- <- <-] Hin. set_unfold. naive_solver.
    + run_process.
      * run_handle. intros [= <- <- <-] Hin. simpl in *.
        split; [set_unfold; naive_solver | repeat constructor].
      * pose proof (forkJoin_quiet _ _ _ _ _ _ _ _ _ Hprocess) as Hq.
        rewrite Forall_forall in Hq.
        destruct (err _); cbv beta iota zeta;
          [run_handle | run_parse; try run_handle];
          intros [= <- <- <-] Hin; exfalso; set_unfold; naive_solver.
  - run_handle. destruct x as [e0|chart]; cbv beta iota zeta.
    + run_handle. intros [= <- <- <-] Hin. set_unfold. naive_solver.
    + run_process.
      * run_handle. intros [= <- <- <-] Hin. simpl in *.
        split; [set_unfold; naive_solver | repeat constructor].
      * pose proof (forkJoin_quiet _ _ _ _ _ _ _ _ _ Hprocess) as Hq.
        rewrite Forall_forall in Hq.
        destruct (err _); cbv beta iota zeta;
          [run_handle | destruct (String.eqb (models.Sha1 _) _); cbv beta iota zeta; [run_handle | run_parse; try run_handle]];
          intros [= <- <- <-] Hin; exfalso; set_unfold; naive_solver.
Qed.

(** C6. In every run of create or update in which a call of the persist
    goroutine or of the hash goroutine answers an error, the operation
    returns an error, one that such a call answered, and the run holds no
    write to the Metadata Store. *)
Theorem ingest_task_failure
    (op : Ingest) (name : string) (args : fs.DownloadFromSourceArgs)
    (sched : list bool) (w w' : W) (r : option error) (tr : Trace)
    (t : nat) (o : Obs) (e : error) :
  ingest' op name args sched w = (r, w', tr) ->
  (t, o) ∈ tr ->
  persistFailure o = Some e \/ hashFailure o = Some e ->
  (exists e' t' o', r = Some e' /\ (t', o') ∈ tr /\
                    (persistFailure o' = Some e' \/ hashFailure o' = Some e')) /\
  Forall (fun o => metadataWrite o.2 = false) tr.
Proof.
  destruct op; ingest_unfold.
  - run_handle. destruct x; cbv beta iota zeta.
    + intros [= <- <- <-] Hin Hfail. exfalso. set_unfold. naive_solver.
    + run_process.
      * run_handle. intros [= <- <- <-] Hin Hfail. exfalso. set_unfold. naive_solver.
      * pose proof (forkJoin_quiet _ _ _ _ _ _ _ _ _ Hprocess) as Hq.
        rewrite Forall_forall in Hq.
        destruct (err _) as [e0|] eqn:Herr; cbv beta iota zeta.
        -- destruct (forkJoin_err _ _ _ _ _ _ _ _ _ _ Hprocess eq_refl Herr)
             as (t0 & o0 & Hin0 & Hfail0).
           run_handle. intros [= <- <- <-] Hin Hfail. split.
           ++ exists e0, t0, o0. split; [done|]. split; [|done].
              set_unfold. tauto.
           ++ apply Forall_forall. intros [t' o'] Hin'. set_unfold. naive_solver.
        -- destruct (forkJoin_ok _ _ _ _ _ _ _ _ _ Hprocess Herr) as (_ & _ & Hok).
           run_parse; try run_handle; intros [= <- <- <-] Hin Hfail; exfalso;
             set_unfold; naive_solver.
  - run_handle. destruct x as [e0|chart]; cbv beta iota zeta.
    + run_handle. intros [= <- <- <-] Hin Hfail. exfalso. set_unfold. naive_solver.
    + run_process.
      * run_handle. intros [= <- <- <-] Hin Hfail. exfalso. set_unfold. naive_solver.
      * pose proof (forkJoin_quiet _ _ _ _ _ _ _ _ _ Hprocess) as Hq.
        rewrite Forall_forall in Hq.
        destruct (err _) as [e0|] eqn:Herr; cbv beta iota zeta.
        -- destruct (forkJoin_err _ _ _ _ _ _ _ _ _ _ Hprocess eq_refl Herr)
             as (t0 & o0 & Hin0 & Hfail0).
           run_handle. intros [= <- <- <-] Hin Hfail. split.
           ++ exists e0, t0, o0. split; [done|]. split; [|done].
              set_unfold. tauto.
           ++ apply Forall_forall. intros [t' o'] Hin'. set_unfold. naive_solver.
        -- destruct (forkJoin_ok _ _ _ _ _ _ _ _ _ Hprocess Herr) as (_ & _ & Hok).
           destruct (String.eqb (models.Sha1 _) _); cbv beta iota zeta;
             [run_handle | run_parse; try run_handle];
             intros [= <- <- <-] Hin Hfail; exfalso; set_unfold; naive_solver.
Qed.

(** ** Update *)

(** C2. When the hash the ingest returns equals the hash of the record
    read, update returns [nil] after one more call, a debug log: the run
    holds no write to the Metadata Store and no read of the variables file,
    the world is as the ingest left it (the log apart), and the ingest did
    write the tree it pulled to the two tiers. *)
Theorem UpdateChartTemplate_same_fingerprint
    (name : string) (args : fs.DownloadFromSourceArgs) (sched : list bool)
    (w w1 w2 : W) (chart : models.Chart) (sha : string) (tr2 : Trace) :
  handle _ (mongodb_Get name) w = (inr chart, w1) ->
  processChartFromSource' name args sched w1 = (inr sha, w2, tr2) ->
  models.Sha1 chart = sha ->
  let skip := logger_Log LDebug "Chart %s has no changes, skip updating." in
  let tr := (0%nat, ObsGet name (inr chart)) :: tr2 ++ [(0%nat, observe skip tt)] in
  let name' := if String.eqb name EmptyString then filepath_Base (fs.Path args) else name in
  UpdateChartTemplate' name args sched w = (None, (handle _ skip w2).2, tr) /\
  Forall (fun o => metadataWrite o.2 = false /\ variableRead o.2 = false) tr /\
  exists tree,
    (0%nat, ObsDownload args (inr tree)) ∈ tr2 /\
    (1%nat, ObsSaveAndUpload tree name' (LocalChartTemplatePath name')
              (ObjectStorageChartTemplatePath name') None) ∈ tr2.
Proof.
  intros Hget Hprocess Hsha. cbv zeta. split; [|
    apply processChartFromSource_runs in Hprocess
      as [(? & [=] & _) | (tree & w3 & c' & trfj & Hfj & -> & Hr)]; cbv zeta in *;
    destruct (err c') eqn:Herr; [done|]; split].
  - ingest_unfold. rewrite Hget. cbv beta iota zeta. rewrite Hprocess.
    cbv beta iota zeta. rewrite Hsha, String.eqb_refl.
    destruct (handle () _ w2) as [[] w3]. simpl. by rewrite ?app_nil_r.
  - pose proof (forkJoin_quiet _ _ _ _ _ _ _ _ _ Hfj) as Hq.
    rewrite Forall_forall in Hq.
    apply Forall_forall. intros [t o] Hin. set_unfold. naive_solver.
  - destruct (forkJoin_ok _ _ _ _ _ _ _ _ _ Hfj Herr) as (Hsave & _ & _).
    exists tree. split; [left | by right].
Qed.

(** C9, amended. In every run of update that returns [nil], the record
    was read and the hash goroutine was answered a hash; either that hash is
    the one of the record read and the run holds no write to the Metadata
    Store, or it differs and the last call of the run is the update of the
    store, answered [nil], with a record that carries the name, the descriptor
    passed in, the new hash, and the variables of the file just read merged
    with those of the record read; no other call of the run writes to the
    store. *)
Theorem UpdateChartTemplate_success
    (name : string) (args : fs.DownloadFromSourceArgs) (sched : list bool)
    (w w' : W) (tr : Trace) :
  UpdateChartTemplate' name args sched w = (None, w', tr) ->
  exists chart tmpDir fileName sha tr1,
    tr = (0%nat, ObsGet name (inr chart)) :: tr1 /\
    (2%nat, ObsSha1 tmpDir fileName (sha, None)) ∈ tr1 /\
    ((sha = models.Sha1 chart /\ Forall (fun o => metadataWrite o.2 = false) tr) \/
     (sha <> models.Sha1 chart /\
      exists tr0 file valueYamlContent,
        tr = tr0 ++ [(0%nat, ObsUpdate
                               (models.mkChart name (fs.Owner args) (fs.Repo args)
                                  (fs.Path args) (fs.Branch args) (fs.CodehostID args)
                                  sha
                                  (mergeVariables (variablesOfContent valueYamlContent)
                                     (models.GetVariableMap chart))) None)] /\
        (0%nat, ObsReadFile file (inr valueYamlContent)) ∈ tr0 /\
        Forall (fun o => metadataWrite o.2 = false) tr0)).
Proof.
  ingest_unfold. run_handle. destruct x as [e0|chart]; cbv beta iota zeta.
  { run_handle. intros [= ]. }
  run_process; [run_handle; intros [= ]|].
  pose proof (forkJoin_quiet _ _ _ _ _ _ _ _ _ Hprocess) as Hq.
  rewrite Forall_forall in Hq.
  destruct (err _) as [e0|] eqn:Herr; cbv beta iota zeta; [run_handle; intros [= ]|].
  destruct (forkJoin_ok _ _ _ _ _ _ _ _ _ Hprocess Herr) as (_ & [tmpDir Hsha] & _).
  destruct (String.eqb (models.Sha1 _) _) eqn:Heq; cbv beta iota zeta.
  - apply String.eqb_eq in Heq. run_handle. intros [= <- <-].
    match type of Hsha with
    | (_, ObsSha1 _ ?f (?s, _)) ∈ _ => exists chart, tmpDir, f, s
    end.
    eexists. split; [reflexivity|]. split.
    + clear -Hsha. set_unfold. tauto.
    + left. split; [done|]. apply Forall_forall. intros [t o] Hin.
      set_unfold. naive_solver.
  - apply String.eqb_neq in Heq.
    run_parse; cbv beta iota zeta; [intros [= ] | intros [= ] | intros [= ] |].
    run_handle. intros [= -> <- <-].
    match type of Hsha with
    | (_, ObsSha1 _ ?f (?s, _)) ∈ _ => exists chart, tmpDir, f, s
    end.
    eexists. split; [reflexivity|]. split.
    + clear -Hsha. set_unfold. tauto.
    + right. split; [done|].
      match goal with
      | |- exists tr0 file content,
             ?a :: ?b :: ?m ++ [?c; ?d; (?t, ObsReadFile ?f (inr ?y)); _] = _ /\ _ =>
          exists (a :: b :: m ++ [c; d; (t, ObsReadFile f (inr y))]), f, y
      end.
      split; [|split].
      * simpl. rewrite <- app_assoc. reflexivity.
      * set_unfold. tauto.
      * apply Forall_forall. intros [t o] Hin. clear -Hin Hq.
        set_unfold. naive_solver.
Qed.

(** ** The fork-join phase *)

(** C4, amended. In every run of the ingest in which the persist goroutine
    and the hash goroutine are both answered an error, the ingest fails with
    one of the two errors: the one assigned last to the shared variable. *)
Theorem processChartFromSource_both_fail
    (name : string) (args : fs.DownloadFromSourceArgs) (sched : list bool)
    (w w' : W) (r : error + string) (tr : Trace)
    (t1 t2 : nat) (o1 o2 : Obs) (e1 e2 : error) :
  processChartFromSource' name args sched w = (r, w', tr) ->
  (t1, o1) ∈ tr -> persistFailure o1 = Some e1 ->
  (t2, o2) ∈ tr -> hashFailure o2 = Some e2 ->
  (r = inl e1 \/ r = inl e2) /\
  forall e, r = inl e <-> lastAssignedErr tr = Some e.
Proof.
  intros Hrun Hin1 Hfail1 Hin2 Hfail2.
  apply processChartFromSource_runs in Hrun
    as [(e & -> & ->) | (tree & w1 & c' & trfj & Hfj & -> & ->)]; cbv zeta in *.
  { exfalso. set_unfold. naive_solver. }
  assert (Hin1' : (t1, o1) ∈ trfj).
  { apply elem_of_cons in Hin1 as [[= -> ->]|]; [discriminate | done]. }
  assert (Hin2' : (t2, o2) ∈ trfj).
  { apply elem_of_cons in Hin2 as [[= -> ->]|]; [discriminate | done]. }
  destruct (forkJoin_failed _ _ _ _ _ _ _ _ _ _ _ _ Hfj Hin1' (or_introl Hfail1))
    as [e Herr].
  destruct (forkJoin_err _ _ _ _ _ _ _ _ _ _ Hfj eq_refl Herr)
    as (t & o & Hin & Hfail).
  pose proof (forkJoin_runs _ _ _ _ _ _ _ _ _ Hfj) as (_ & _ & _ & Hc).
  unfold lastAssignedErr. simpl. unfold assign at 2. simpl. rewrite <- Hc, Herr.
  split; [|intros e'; split; congruence].
  destruct Hfail as [Hfail | Hfail].
  - left. f_equal. symmetry.
    eapply (forkJoin_failure_unique _ _ _ _ _ _ _ _ _ _ _ _ _ _ _ Hfj Hin1' Hin). eauto.
  - right. f_equal. symmetry.
    eapply (forkJoin_failure_unique _ _ _ _ _ _ _ _ _ _ _ _ _ _ _ Hfj Hin2' Hin). eauto.
Qed.


(** ** More on the ingest *)

Ltac split_hyps :=
  repeat match goal with
    | H : _ \/ _ |- _ => destruct H as [H | H]
    | H : _ /\ _ |- _ => destruct H
    | H : False |- _ => destruct H
    end.

(** X2. Every temp dir the hash goroutine is given is removed: the removal is the
    last thing that goroutine does, whatever the archive and the hash calls
    answer and however the two goroutines are scheduled; nothing else is ever
    removed. *)
Theorem processChartFromSource_removes_tempdir
    (name : string) (args : fs.DownloadFromSourceArgs) (sched : list bool)
    (w w' : W) (r : error + string) (tr : Trace) (t : nat) (tmpDir : string) :
  processChartFromSource' name args sched w = (r, w', tr) ->
  (t, ObsMkdirTemp (inr tmpDir)) ∈ tr ->
  (exists r', last (entriesOf 2 tr) = Some (ObsRemoveAll tmpDir r')) /\
  (forall t' d r', (t', ObsRemoveAll d r') ∈ tr -> t' = 2%nat /\ d = tmpDir).
Proof.
  intros Hrun Hin.
  apply processChartFromSource_runs in Hrun
    as [(e & -> & ->) | (tree & w1 & c' & trfj & Hfj & -> & ->)]; cbv zeta in *.
  { exfalso. set_unfold. naive_solver. }
  apply elem_of_cons in Hin as [[= ]|Hin].
  assert (Hsplit : forall t o, (t, o) ∈ (0%nat, ObsDownload args (inr tree)) :: trfj ->
                               o <> ObsDownload args (inr tree) -> (t, o) ∈ trfj).
  { intros t0 o0 H0 Hne. apply elem_of_cons in H0 as [[= -> ->]|]; done. }
  rewrite entriesOf_cons_ne by done.
  fork_join_cases Hfj; apply (elem_of_two _ _ _ Hall) in Hin;
    rewrite Hpersist, Hhash in Hin;
    (assert (Hdir : exists r', last (entriesOf 2 trfj) = Some (ObsRemoveAll tmpDir r'));
     [ rewrite Hhash; clear -Hin; set_unfold in Hin;
       split_hyps; try discriminate;
       match goal with H : ObsMkdirTemp _ = ObsMkdirTemp _ |- _ => injection H as -> end;
       eexists; reflexivity
     | split; [exact Hdir|];
       intros t' d r' Hin'; apply Hsplit in Hin'; [|done];
       apply (elem_of_two _ _ _ Hall) in Hin'; rewrite Hpersist, Hhash in Hin';
       clear -Hin Hin'; set_unfold; naive_solver ]).
Qed.


(** X1. Whenever the pull gives a tree, both goroutines run, whatever the other
    one meets: [fs.SaveAndUploadFiles] is called on that tree, under the name
    given or, when it is empty, under the base of the path; a temp dir is
    asked for. That call is the only write to a tier, and the ingest never
    calls the Metadata Store nor reads the variables file. *)
Theorem processChartFromSource_runs_both
    (name : string) (args : fs.DownloadFromSourceArgs) (sched : list bool)
    (w w' : W) (r : error + string) (tr : Trace) (tree : Tree) :
  processChartFromSource' name args sched w = (r, w', tr) ->
  (0%nat, ObsDownload args (inr tree)) ∈ tr ->
  let name' := if String.eqb name EmptyString then filepath_Base (fs.Path args) else name in
  let save := ObsSaveAndUpload tree name' (LocalChartTemplatePath name')
                (ObjectStorageChartTemplatePath name') in
  (exists r1, (1%nat, save r1) ∈ tr) /\
  (exists r2, (2%nat, ObsMkdirTemp r2) ∈ tr) /\
  (forall t o, (t, o) ∈ tr -> tierWrite o = true -> t = 1%nat /\ exists r1, o = save r1) /\
  Forall (fun o => metadataCall o.2 = false /\ variableRead o.2 = false) tr.
Proof.
  intros Hrun Hin.
  apply processChartFromSource_runs in Hrun
    as [(e & -> & ->) | (tree' & w1 & c' & trfj & Hfj & -> & ->)]; cbv zeta in *.
  { exfalso. set_unfold. naive_solver. }
  pose proof Hfj as Hq. apply forkJoin_quiet in Hq.
  rewrite Forall_forall in Hq.
  assert (tree' = tree) as ->.
  { apply elem_of_cons in Hin as [[= ->]|Hin]; [done|].
    destruct (Hq _ Hin) as [Hne _]. done. }
  assert (Hsplit : forall t o, (t, o) ∈ (0%nat, ObsDownload args (inr tree)) :: trfj ->
                               o <> ObsDownload args (inr tree) -> (t, o) ∈ trfj).
  { intros t0 o0 H0 Hne. apply elem_of_cons in H0 as [[= -> ->]|]; done. }
  split; [|split; [|split]].
  - fork_join_cases Hfj; eexists; right; apply elem_of_entriesOf;
      rewrite Hpersist; right; left.
  - fork_join_cases Hfj; eexists; right; apply elem_of_entriesOf;
      rewrite Hhash; right; left.
  - intros t o Hin' Htier. apply Hsplit in Hin'; [|by intros ->].
    fork_join_cases Hfj; apply (elem_of_two _ _ _ Hall) in Hin';
      rewrite Hpersist, Hhash in Hin'; clear -Hin' Htier; set_unfold;
      split_hyps; subst; try discriminate; eauto.
  - apply Forall_forall. intros [t o] Hin'.
    apply elem_of_cons in Hin' as [[= -> ->]|Hin']; [done|].
    fork_join_cases Hfj; apply (elem_of_two _ _ _ Hall) in Hin';
      rewrite Hpersist, Hhash in Hin'; clear -Hin'; set_unfold;
      split_hyps; subst; done.
Qed.

(** X3. When the ingest returns a hash, it is the hash [fsutil.Sha1] answered for
    the archive [fsutil.Tar] made, in a fresh temp dir, of the very tree that
    was pulled and written to the tiers; the hash goroutine did exactly these
    calls, in this order. *)
Theorem processChartFromSource_hash_of_pulled_tree
    (name : string) (args : fs.DownloadFromSourceArgs) (sched : list bool)
    (w w' : W) (s : string) (tr : Trace) :
  processChartFromSource' name args sched w = (inr s, w', tr) ->
  let name' := if String.eqb name EmptyString then filepath_Base (fs.Path args) else name in
  let fileName := filepath_Base (fs.Path args) +:+ ".tar.gz" in
  exists tree tmpDir r',
    head tr = Some (0%nat, ObsDownload args (inr tree)) /\
    (1%nat, ObsSaveAndUpload tree name' (LocalChartTemplatePath name')
              (ObjectStorageChartTemplatePath name') None) ∈ tr /\
    entriesOf 2 tr =
      [ObsLog LDebug "Start to calculate sha1 for chart";
       ObsMkdirTemp (inr tmpDir);
       ObsTar tree (filepath_Join [tmpDir; fileName]) None;
       ObsSha1 tmpDir fileName (s, None);
       ObsAssignSha1 s;
       ObsLog LDebug "Finish to calculate sha1 for chart";
       ObsRemoveAll tmpDir r'].
Proof.
  intros Hrun.
  apply processChartFromSource_runs in Hrun
    as [(e & [= ] & _) | (tree & w1 & c' & trfj & Hfj & -> & Hr)]; cbv zeta in *.
  destruct (err c') eqn:Herr; [done|]. injection Hr as ->.
  pose proof Hfj as Hok. eapply forkJoin_ok in Hok; [|exact Herr].
  destruct Hok as (Hsave & [tmpDir Hsha] & Hnone).
  rewrite entriesOf_cons_ne by done.
  fork_join_cases Hfj;
    try (exfalso;
         match goal with
         | Hs : entriesOf ?t trfj = ?l |- _ =>
             match l with
             | context [ObsAssignErr ?e] =>
                 assert (Hbad : (t, ObsAssignErr e) ∈ trfj)
                   by (apply elem_of_entriesOf; rewrite Hs; set_unfold; tauto);
                 rewrite Hcells in Herr;
                 apply assign_err_None in Herr as [_ Hno]; exact (Hno _ _ Hbad)
             end
         end).
  apply (elem_of_two _ _ _ Hall) in Hsha. rewrite Hpersist, Hhash in Hsha.
  match type of Hhash with
  | _ = [_; ObsMkdirTemp (inr ?d); _; ObsSha1 _ _ (?s', None); _; _; ObsRemoveAll _ ?r'] =>
      assert (sha1 c' = s' /\ tmpDir = d) as [-> ->]
        by (clear -Hsha; set_unfold; split_hyps; try discriminate;
            match goal with H : ObsSha1 _ _ _ = ObsSha1 _ _ _ |- _ => injection H as -> -> end;
            done);
      exists tree, d, r'
  end.
  split; [done|]. split; [by right | exact Hhash].
Qed.

(** X4. The error the ingest returns is always one a collaborator answered: the
    pull, the write to the tiers, or a call of the hash goroutine. *)
Theorem processChartFromSource_error_origin
    (name : string) (args : fs.DownloadFromSourceArgs) (sched : list bool)
    (w w' : W) (e : error) (tr : Trace) :
  processChartFromSource' name args sched w = (inl e, w', tr) ->
  (0%nat, ObsDownload args (inl e)) ∈ tr \/
  exists t o, (t, o) ∈ tr /\ (persistFailure o = Some e \/ hashFailure o = Some e).
Proof.
  intros Hrun.
  apply processChartFromSource_runs in Hrun
    as [(e' & [= ->] & ->) | (tree & w1 & c' & trfj & Hfj & -> & Hr)]; cbv zeta in *.
  { left. left. }
  right. destruct (err c') as [e'|] eqn:Herr; [|done]. injection Hr as ->.
  eapply forkJoin_err in Hfj; [|reflexivity|exact Herr].
  destruct Hfj as (t & o & Hin & Hfail).
  exists t, o. split; [by right | done].
Qed.


(** ** More on create and update *)

(** X5. A create that returns [nil] went through every step: the store said the
    name was free, the ingest returned a hash, [GetFileContent] found a record
    of the name and read the variables file under the base of the path of
    that record, and the last call created a record with the name, the
    descriptor passed in, the hash, and one variable with an empty value for
    each name found in the file. Nothing was written to the store before. *)
Theorem AddChartTemplate_success
    (name : string) (args : fs.DownloadFromSourceArgs) (sched : list bool)
    (w w' : W) (tr : Trace) :
  AddChartTemplate' name args sched w = (None, w', tr) ->
  exists tr0 chart valueYamlContent sha tmpDir fileName,
    head tr = Some (0%nat, ObsExist name false) /\
    tr = tr0 ++ [(0%nat, ObsCreate
                           (models.mkChart name (fs.Owner args) (fs.Repo args)
                              (fs.Path args) (fs.Branch args) (fs.CodehostID args) sha
                              ((fun k => commonmodels.mkVariable k EmptyString)
                                 <$> variablesOfContent valueYamlContent)) None)] /\
    (2%nat, ObsSha1 tmpDir fileName (sha, None)) ∈ tr0 /\
    (0%nat, ObsGet name (inr chart)) ∈ tr0 /\
    (0%nat, ObsReadFile
              (filepath_Join [LocalChartTemplatePath name;
                              filepath_Base (models.Path chart);
                              EmptyString; ValuesYaml])
              (inr valueYamlContent)) ∈ tr0 /\
    Forall (fun o => metadataWrite o.2 = false) tr0.
Proof.
  ingest_unfold. run_handle. destruct x; cbv beta iota zeta; [intros [= ]|].
  run_process; [run_handle; intros [= ]|].
  pose proof Hprocess as Hq. apply forkJoin_quiet in Hq. rewrite Forall_forall in Hq.
  destruct (err _) as [e0|] eqn:Herr; cbv beta iota zeta; [run_handle; intros [= ]|].
  pose proof Hprocess as Hok. eapply forkJoin_ok in Hok; [|exact Herr].
  destruct Hok as (_ & [tmpDir Hsha] & _).
  run_parse; cbv beta iota zeta; [intros [= ] | intros [= ] | intros [= ] |].
  run_handle. intros [= -> <- <-]. rewrite fold_left_snoc_map. simpl.
  match goal with
  | |- context [(?t0, ObsDownload ?a ?b) :: ?m ++
                  [(_, ObsGet _ (inr ?c)); ?p; (_, ObsReadFile ?f (inr ?y)); _]] =>
      exists ((0%nat, ObsExist name false) :: (t0, ObsDownload a b) :: m
                ++ [(0%nat, ObsGet name (inr c)); p; (0%nat, ObsReadFile f (inr y))]),
             c, y
  end.
  match type of Hsha with
  | (_, ObsSha1 _ ?f (?s, _)) ∈ _ => exists s, tmpDir, f
  end.
  split; [done|]. split; [simpl; by rewrite <- app_assoc|].
  split; [clear -Hsha; set_unfold; tauto|].
  split; [set_unfold; tauto|]. split; [set_unfold; tauto|].
  apply Forall_forall. intros [t o] Hin. clear -Hin Hq. set_unfold. naive_solver.
Qed.

(** X6. [AddChartTemplate] reads the variables file through [GetFileContent],
    which first fetches the record of the name. In every run of create in
    which that fetch answers an error, create fails with the error wrapped
    twice, after the tree was written to both tiers; nothing is written to
    the Metadata Store. *)
Theorem AddChartTemplate_record_not_found
    (name : string) (args : fs.DownloadFromSourceArgs) (sched : list bool)
    (w w' : W) (r : option error) (tr : Trace) (e : error) :
  AddChartTemplate' name args sched w = (r, w', tr) ->
  (0%nat, ObsGet name (inl e)) ∈ tr ->
  r = Some (withMessage (withMessage e "failed to read values.yaml")
              "faild to prase variables") /\
  (exists tree name', (1%nat, ObsSaveAndUpload tree name' (LocalChartTemplatePath name')
                                (ObjectStorageChartTemplatePath name') None) ∈ tr) /\
  Forall (fun o => metadataWrite o.2 = false) tr.
Proof.
  ingest_unfold. run_handle. destruct x; cbv beta iota zeta.
  { intros [= <- <- <-] Hin. exfalso. set_unfold. naive_solver. }
  run_process.
  { run_handle. intros [= <- <- <-] Hin. exfalso. set_unfold. naive_solver. }
  pose proof Hprocess as Hq. apply forkJoin_quiet in Hq. rewrite Forall_forall in Hq.
  destruct (err _) as [e0|] eqn:Herr; cbv beta iota zeta.
  { run_handle. intros [= <- <- <-] Hin. exfalso. set_unfold. naive_solver. }
  pose proof Hprocess as Hok. eapply forkJoin_ok in Hok; [|exact Herr].
  destruct Hok as (Hsave & _ & _).
  run_parse; cbv beta iota zeta; try run_handle; intros [= <- <- <-] Hin;
    try (exfalso; clear -Hin Hq; set_unfold; naive_solver).
  split; [|split].
  - f_equal. f_equal. f_equal. clear -Hin Hq. set_unfold. naive_solver.
  - eexists _, _. right. right. apply elem_of_app. left. exact Hsave.
  - apply Forall_forall. intros [t o] Hin'. clear -Hin' Hq. set_unfold. naive_solver.
Qed.

(** X7. In every run of create or update in which the preload or the read of the
    variables file answers an error, the operation fails with that error
    wrapped twice; the tree was already written to both tiers, and nothing is
    written to the Metadata Store: the tiers are left ahead of the record. *)
Theorem ingest_read_failure
    (op : Ingest) (name : string) (args : fs.DownloadFromSourceArgs)
    (sched : list bool) (w w' : W) (r : option error) (tr : Trace)
    (t : nat) (o : Obs) (e : error) :
  ingest' op name args sched w = (r, w', tr) ->
  (t, o) ∈ tr -> readFailure o = Some e ->
  r = Some (withMessage (withMessage e "failed to read values.yaml")
              "faild to prase variables") /\
  (exists tree name', (1%nat, ObsSaveAndUpload tree name' (LocalChartTemplatePath name')
                                (ObjectStorageChartTemplatePath name') None) ∈ tr) /\
  Forall (fun o => metadataWrite o.2 = false) tr.
Proof.
  assert (Hfj : forall tree n a c s w0 c' w1 trfj,
    fork_join handle (persistTask' tree n) (hashTask' tree a) c s w0 = (c', w1, trfj) ->
    forall t o, (t, o) ∈ trfj -> readFailure o = None).
  { intros tree n a c s w0 c' w1 trfj H t0 o0 Hin.
    apply forkJoin_quiet in H. rewrite Forall_forall in H.
    destruct (H _ Hin) as (_ & _ & Hread). simpl in Hread.
    destruct o0; try done. }
  destruct op; ingest_unfold.
  - run_handle. destruct x; cbv beta iota zeta.
    { intros [= <- <- <-] Hin Hfail. exfalso. set_unfold. naive_solver. }
    run_process.
    { run_handle. intros [= <- <- <-] Hin Hfail. exfalso. set_unfold. naive_solver. }
    pose proof (Hfj _ _ _ _ _ _ _ _ _ Hprocess) as Hq'.
    pose proof Hprocess as Hq. apply forkJoin_quiet in Hq. rewrite Forall_forall in Hq.
    destruct (err _) as [e0|] eqn:Herr; cbv beta iota zeta.
    { run_handle. intros [= <- <- <-] Hin Hfail. exfalso. set_unfold. naive_solver. }
    pose proof Hprocess as Hok. eapply forkJoin_ok in Hok; [|exact Herr].
    destruct Hok as (Hsave & _ & _).
    run_parse; cbv beta iota zeta; try run_handle; intros [= <- <- <-] Hin Hfail;
      try (exfalso; clear -Hin Hfail Hq'; set_unfold; naive_solver).
    all: split; [|split];
      [ f_equal; f_equal; f_equal; clear -Hin Hfail Hq'; set_unfold; naive_solver
      | eexists _, _; right; right; apply elem_of_app; left; exact Hsave
      | apply Forall_forall; intros [t' o'] Hin'; clear -Hin' Hq; set_unfold; naive_solver ].
  - run_handle. destruct x as [e0|chart]; cbv beta iota zeta.
    { run_handle. intros [= <- <- <-] Hin Hfail. exfalso. set_unfold. naive_solver. }
    run_process.
    { run_handle. intros [= <- <- <-] Hin Hfail. exfalso. set_unfold. naive_solver. }
    pose proof (Hfj _ _ _ _ _ _ _ _ _ Hprocess) as Hq'.
    pose proof Hprocess as Hq. apply forkJoin_quiet in Hq. rewrite Forall_forall in Hq.
    destruct (err _) as [e0|] eqn:Herr; cbv beta iota zeta.
    { run_handle. intros [= <- <- <-] Hin Hfail. exfalso. set_unfold. naive_solver. }
    pose proof Hprocess as Hok. eapply forkJoin_ok in Hok; [|exact Herr].
    destruct Hok as (Hsave & _ & _).
    destruct (String.eqb (models.Sha1 _) _); cbv beta iota zeta.
    { run_handle. intros [= <- <- <-] Hin Hfail. exfalso.
      clear -Hin Hfail Hq'. set_unfold. naive_solver. }
    run_parse; cbv beta iota zeta; try run_handle; intros [= <- <- <-] Hin Hfail;
      try (exfalso; clear -Hin Hfail Hq'; set_unfold; naive_solver).
    all: split; [|split];
      [ f_equal; f_equal; f_equal; clear -Hin Hfail Hq'; set_unfold; naive_solver
      | eexists _, _; right; right; apply elem_of_app; left; exact Hsave
      | apply Forall_forall; intros [t' o'] Hin'; clear -Hin' Hq; set_unfold; naive_solver ].
Qed.


(** X8. An update of a name the Metadata Store has no record of, be it of the
    source or of the variables, returns the error of the store after a single
    log: nothing is pulled and nothing is written. *)
Theorem update_record_not_found
    (name : string) (args : fs.DownloadFromSourceArgs) (vars : list Variable')
    (sched : list bool) (w w1 : W) (e : error) :
  handle _ (mongodb_Get name) w = (inl e, w1) ->
  let failed := logger_Log LError "Failed to get chart template %s, err: %s" in
  let tr := [(0%nat, ObsGet name (inl e)); (0%nat, observe failed tt)] in
  UpdateChartTemplate' name args sched w = (Some e, (handle _ failed w1).2, tr) /\
  UpdateChartTemplateVariables' name vars sched w = (Some e, (handle _ failed w1).2, tr).
Proof.
  intros Hget. cbv zeta. split; run_unfold; rewrite Hget; cbv beta iota zeta;
    destruct (handle () _ w1) as [[] w2]; reflexivity.
Qed.

(** X9. The names [parseTemplateVariables] returns are those of the file
    [values.yaml] under the base of the path of the record of the name, read
    after the preload went through; the record is fetched, the mirror
    preloaded and the file read, and nothing else is called. The names come in
    strictly increasing order. *)
Theorem parseTemplateVariables_success
    (name : string) (sched : list bool) (w w' : W) (names : list string) (tr : Trace) :
  parseTemplateVariables' name sched w = (inr names, w', tr) ->
  exists chart valueYamlContent,
    tr = [(0%nat, ObsGet name (inr chart));
          (0%nat, ObsPreload name (LocalChartTemplatePath name)
                    (ObjectStorageChartTemplatePath name) None);
          (0%nat, ObsReadFile
                    (filepath_Join [LocalChartTemplatePath name;
                                    filepath_Base (models.Path chart);
                                    EmptyString; ValuesYaml])
                    (inr valueYamlContent))] /\
    names = variablesOfContent valueYamlContent /\
    StronglySorted string_lt names.
Proof.
  intros Hrun. apply parseTemplateVariables_runs in Hrun
    as [(? & [= ] & _) | [(? & ? & [= ] & _) | [(? & ? & ? & [= ] & _) |
        (chart & content & [= ->] & ->)]]].
  exists chart, content. split; [done|]. split; [done|].
  destruct (variablesOfContent_tokens content) as (caps & Hcaps & Hsorted & _). done.
Qed.

End Properties.


(** ** The read operations *)

Section ReadProperties.

Context {W FileInfo : Type}.
Variable handle : forall X : Type, Ev X -> W -> X * W.
Variable LocalChartTemplatePath : string -> string.
Variable ObjectStorageChartTemplatePath : string -> string.
Variable filepath_Base : string -> string.
Variable filepath_Join : list string -> string.
Variable fs_GetFileInfos : string -> W -> (error + list FileInfo) * W.
Variable mongodb_List : W -> (error + list models.Chart) * W.
Variable GetSystemDefaultVariables : W -> list Variable' * W.

(** X15. The template [GetChartTemplate] returns is a view of the record the
    store answered: it carries the name asked for, the descriptor of the
    record and its variables, key for key and value for value in the same
    order, and the files [fs.GetFileInfos] listed under the local base joined
    with the base of the path of the record. The record was fetched and the
    mirror preloaded first, and nothing else was called: the store is not
    written. *)
Theorem GetChartTemplate_view
    (name : string) (sched : list bool) (w w' : W)
    (c : service.Chart FileInfo) (tr : Trace) :
  GetChartTemplate handle LocalChartTemplatePath ObjectStorageChartTemplatePath
    filepath_Base filepath_Join fs_GetFileInfos name sched w = (inr c, w', tr) ->
  exists chart w2,
    tr = [(0%nat, ObsGet name (inr chart));
          (0%nat, ObsPreload name (LocalChartTemplatePath name)
                    (ObjectStorageChartTemplatePath name) None)] /\
    fs_GetFileInfos
      (filepath_Join [LocalChartTemplatePath name; filepath_Base (models.Path chart)]) w2
    = (inr (service.Files c), w') /\
    service.Name c = name /\
    service.CodehostID c = models.CodeHostID chart /\
    service.Owner c = models.Owner chart /\
    service.Repo c = models.Repo chart /\
    service.Path c = models.Path chart /\
    service.Branch c = models.Branch chart /\
    service.Variables c
    = (fun v => mkVariable (commonmodels.Key v) (commonmodels.Value v))
        <$> models.Variables chart.
Proof.
  unfold GetChartTemplate, bind, ret, log, call, ask. simpl.
  destruct (handle _ (mongodb_Get name) w) as [[e|chart] w1]; cbv beta iota zeta.
  { destruct (handle _ _ w1) as [[] ?]. intros [= ]. }
  destruct (handle _ (fs_PreloadFiles _ _ _) w1) as [[e|] w2]; cbv beta iota zeta;
    [intros [= ]|].
  destruct (fs_GetFileInfos _ w2) as [[e|fis] w3] eqn:Hfis; cbv beta iota zeta.
  { destruct (handle _ _ w3) as [[] ?]. intros [= ]. }
  intros [= <- <- <-]. exists chart, w2. rewrite fold_left_snoc_map. simpl.
  repeat split; done.
Qed.

(** X16. A failed [GetChartTemplate] returns the error of the call that failed,
    and stops there: after an error of the store nothing is preloaded, and
    after an error of the preload no file is listed. The store is never
    written, and of the tiers only the local mirror may be, by the preload. *)
Theorem GetChartTemplate_failure
    (name : string) (sched : list bool) (w w' : W) (e : error) (tr : Trace) :
  GetChartTemplate handle LocalChartTemplatePath ObjectStorageChartTemplatePath
    filepath_Base filepath_Join fs_GetFileInfos name sched w = (inl e, w', tr) ->
  let preload := ObsPreload name (LocalChartTemplatePath name)
                   (ObjectStorageChartTemplatePath name) in
  tr = [(0%nat, ObsGet name (inl e));
        (0%nat, ObsLog LError "Failed to get chart template %s, err: %s")] \/
  (exists chart, tr = [(0%nat, ObsGet name (inr chart)); (0%nat, preload (Some e))]) \/
  (exists chart w2 w3,
     tr = [(0%nat, ObsGet name (inr chart)); (0%nat, preload None);
           (0%nat, ObsLog LError
                     "Failed to get local chart template %s from path %s, err: %s")] /\
     fs_GetFileInfos
       (filepath_Join [LocalChartTemplatePath name; filepath_Base (models.Path chart)]) w2
     = (inl e, w3)).
Proof.
  unfold GetChartTemplate, bind, ret, log, call, ask. simpl.
  destruct (handle _ (mongodb_Get name) w) as [[e0|chart] w1]; cbv beta iota zeta.
  { destruct (handle _ _ w1) as [[] ?]. intros [= <- <- <-]. by left. }
  destruct (handle _ (fs_PreloadFiles _ _ _) w1) as [[e0|] w2]; cbv beta iota zeta.
  { intros [= <- <- <-]. right. left. by exists chart. }
  destruct (fs_GetFileInfos _ w2) as [[e0|fis] w3] eqn:Hfis; cbv beta iota zeta.
  { destruct (handle _ _ w3) as [[] ?]. intros [= <- <- <-]. right. right.
    by exists chart, w2, w3. }
  intros [= ].
Qed.

(** X17. [ListChartTemplates] lists one template for each record the store
    answers, in the same order, with the name and the descriptor of the
    record and with no file and no variable; [GetSystemDefaultVariables] is
    asked after the list. An error of the store is returned after one log. *)
Theorem ListChartTemplates_outcome (sched : list bool) (w : W) :
  ListChartTemplates handle mongodb_List GetSystemDefaultVariables sched w
  = match mongodb_List w with
    | (inl err, w1) =>
        let failed := logger_Log LError "Failed to list chart templates, err: %s" in
        (inl err, (handle _ failed w1).2, [(0%nat, observe failed tt)])
    | (inr cs, w1) =>
        (inr (service.mkChartTemplateListResp (FileInfo := FileInfo)
                (GetSystemDefaultVariables w1).1
                ((fun c => service.mkChart (models.Name c) (models.CodeHostID c)
                             (models.Owner c) (models.Repo c) (models.Path c)
                             (models.Branch c) [] []) <$> cs)),
         (GetSystemDefaultVariables w1).2, [])
    end.
Proof.
  unfold ListChartTemplates, bind, ret, log, call, ask. simpl.
  destruct (mongodb_List w) as [[e|cs] w1]; cbv beta iota zeta.
  - by destruct (handle _ _ w1) as [[] ?].
  - destruct (GetSystemDefaultVariables w1) as [sv w2]. simpl.
    by rewrite fold_left_snoc_map.
Qed.

End ReadProperties.


(** ** The code host clients *)

(** X13. The codehub adapter lists what the tool client lists for the project,
    entry for entry and in the same order: a branch keeps its name and its two
    flags, a tag keeps its name and gets no message. An error of the tool
    client is returned as it is, with no entry. The tool client is called
    once, and [ListPrs] does not call it at all. *)
Theorem codehub_listing {W : Type}
    (BranchList : string -> W -> (error + list codehub.ToolBranch) * W)
    (TagList : string -> W -> (error + list codehub.ToolTag) * W)
    (opt : client.ListOpt) (w : W) :
  codehub.ListBranches BranchList opt w
  = (match (BranchList (client.ProjectName opt) w).1 with
     | inl err => inl err
     | inr bList =>
         inr ((fun o => client.mkBranch (codehub.Name o) (codehub.Protected o)
                          (codehub.Merged o)) <$> bList)
     end, (BranchList (client.ProjectName opt) w).2) /\
  codehub.ListTags TagList opt w
  = (match (TagList (client.ProjectName opt) w).1 with
     | inl err => inl err
     | inr tags => inr ((fun o => client.mkTag (codehub.TagName o) EmptyString) <$> tags)
     end, (TagList (client.ProjectName opt) w).2) /\
  codehub.ListPrs opt w = (inr [], w).
Proof.
  unfold codehub.ListBranches, codehub.ListTags. split; [|split; [|done]].
  - destruct (BranchList _ w) as [[e|l] w1]; [done|]. by rewrite fold_left_snoc_map.
  - destruct (TagList _ w) as [[e|l] w1]; [done|]. by rewrite fold_left_snoc_map.
Qed.

(** X14. The gerrit adapter lists one branch for each name the tool client
    answers, in the same order, and none of them is marked protected or
    merged; a tag is named after its ref and keeps its message. An error of
    the tool client is returned as it is, with no entry. *)
Theorem gerrit_listing {W : Type}
    (ToolListBranches : string -> W -> (error + list string) * W)
    (ToolListTags : string -> W -> (error + list gerrit.ToolTag) * W)
    (opt : client.ListOpt) (w : W) :
  (forall err w1, ToolListBranches (client.ProjectName opt) w = (inl err, w1) ->
     gerrit.ListBranches ToolListBranches opt w = (inl err, w1)) /\
  (forall bList w1, ToolListBranches (client.ProjectName opt) w = (inr bList, w1) ->
     exists res,
       gerrit.ListBranches ToolListBranches opt w = (inr res, w1) /\
       client.Name <$> res = bList /\
       Forall (fun b => client.Protected b = false /\ client.Merged b = false) res) /\
  (forall err w1, ToolListTags (client.ProjectName opt) w = (inl err, w1) ->
     gerrit.ListTags ToolListTags opt w = (inl err, w1)) /\
  (forall result w1, ToolListTags (client.ProjectName opt) w = (inr result, w1) ->
     exists res,
       gerrit.ListTags ToolListTags opt w = (inr res, w1) /\
       client.TagName <$> res = gerrit.Ref <$> result /\
       client.Message <$> res = gerrit.Message <$> result).
Proof.
  unfold gerrit.ListBranches, gerrit.ListTags.
  split; [|split; [|split]].
  - by intros err w1 ->.
  - intros bList w1 ->. eexists. split; [reflexivity|].
    rewrite fold_left_snoc_map. simpl. split.
    + rewrite <- list_fmap_compose. apply list_fmap_id.
    + apply Forall_fmap, Forall_true. done.
  - by intros err w1 ->.
  - intros result w1 ->. eexists. split; [reflexivity|].
    rewrite fold_left_snoc_map. simpl. by rewrite <- !list_fmap_compose.
Qed.


(** ** Instant messages *)

Section MessageProperties.

Import instantmessage.

Context {W SubTask Report Rest : Type}.
Variable handle : forall X : Type, Call SubTask Report Rest X -> W -> X * W.
Variable constants : env.Constants.
Variable converters : env.Converters SubTask Report.

Abbreviation IM' := (@IM W SubTask Report Rest).
Abbreviation getTplExec' := (getTplExec handle constants).
Abbreviation getHTMLTestReport' := (getHTMLTestReport handle constants converters).
Abbreviation createNotifyBody' := (createNotifyBody handle constants converters).
Abbreviation reportLoop' := (reportLoop handle converters).
Abbreviation stageSections' := (stageSections handle constants converters).
Abbreviation createNotifyBodyOfWorkflowIM' :=
  (createNotifyBodyOfWorkflowIM handle constants converters).
Abbreviation createNotifyBodyOfTestIM' :=
  (createNotifyBodyOfTestIM handle constants converters).
Abbreviation send' := (send handle constants).
Abbreviation notification' := (notification handle).
Abbreviation SendInstantMessage' := (SendInstantMessage handle constants converters).

(** *** Runs of the monad *)

Lemma bind_run {A B : Type} (m : IM' A) (f : A -> IM' B) w r w' tr :
  bind m f w = (r, w', tr) ->
  (m w = (Panicked, w', tr) /\ r = Panicked) \/
  exists a w1 tr1 tr2,
    m w = (Returned a, w1, tr1) /\ f a w1 = (r, w', tr2) /\ tr = tr1 ++ tr2.
Proof.
  unfold bind. destruct (m w) as [[[a|] w1] tr1].
  - destruct (f a w1) as [[b w2] tr2] eqn:Hf. intros [= <- <- <-].
    right. by exists a, w1, tr1, tr2.
  - intros [= <- <- <-]. by left.
Qed.

Lemma call_run {X : Type} (c : Call SubTask Report Rest X) w r w' tr :
  call handle c w = (r, w', tr) ->
  exists x, handle X c w = (x, w') /\ r = Returned x /\ tr = [observe c x].
Proof.
  unfold call. destruct (handle X c w) as [x w1]. intros [= <- <- <-]. by exists x.
Qed.

Lemma ret_run {A : Type} (a : A) (w : W) r w' (tr : list (Obs SubTask Report Rest)) :
  @ret W SubTask Report Rest A a w = (r, w', tr) -> r = Returned a /\ w' = w /\ tr = [].
Proof. by intros [= <- <- <-]. Qed.

(** *** [getTplExec] *)

Lemma getTplExec_run tplcontent n w r w' tr :
  getTplExec' tplcontent n w = (r, w', tr) ->
  (r = Panicked /\ tr = [ObsTemplate tplcontent n None]) \/
  (exists err,
     r = Returned (EmptyString,
                   Some (errorString ("getTplExec Execute err:" +:+ Error err))) /\
     tr = [ObsTemplate tplcontent n (Some (inl err));
           ObsErrorf "getTplExec Execute err:%s"]) \/
  (exists buffer,
     r = Returned (buffer, None) /\ tr = [ObsTemplate tplcontent n (Some (inr buffer))]).
Proof.
  unfold getTplExec. intros Hrun.
  apply bind_run in Hrun as [[Hc ->] | (x & w1 & tr1 & tr2 & Hc & Hrest & ->)];
    apply call_run in Hc as (x' & Hh & Hx & ->); [done|]. injection Hx as <-.
  destruct x as [[err|buffer]|].
  - apply bind_run in Hrest as [[Hc ->] | (u & w2 & tr3 & tr4 & Hc & Hrest & ->)];
      apply call_run in Hc as (u' & _ & Hx & ->); [done|].
    apply ret_run in Hrest as (-> & _ & ->). right. left. by exists err.
  - apply ret_run in Hrest as (-> & _ & ->). right. right. by exists buffer.
  - injection Hrest as <- <- <-. by left.
Qed.


Ltac run_inv :=
  repeat match goal with
    | H : bind _ _ _ = _ |- _ =>
        apply bind_run in H as [[H ?] | (? & ? & ? & ? & H & ? & ?)]
    | H : call _ _ _ = _ |- _ => apply call_run in H as (? & ? & ? & ?)
    | H : ret _ _ = _ |- _ => apply ret_run in H as (? & ? & ?)
    | H : panic _ = _ |- _ => injection H as ? ? ?
    end; simplify_eq.

Abbreviation pureValue' := (@pureValue W SubTask Report Rest).

Lemma pureValue_ret {A : Type} (a : A) : pureValue' (ret a) a.
Proof. intros w r w' tr Hrun. run_inv. by split. Qed.

Lemma pureValue_log {A : Type} (format : string) (a : A) :
  pureValue' (bind (call handle (log_Errorf format)) (fun _ => ret a)) a.
Proof. intros w r w' tr Hrun. run_inv. split; [done|]. by repeat constructor. Qed.

Lemma pureValue_bind {A B : Type} (m : IM' A) (f : A -> IM' B) a b :
  pureValue m a -> pureValue (f a) b -> pureValue (bind m f) b.
Proof.
  intros Hm Hf w r w' tr Hrun. run_inv.
  - apply Hm in Hrun as [[= ] _].
  - apply Hm in Hrun as [[= ->] Htr1]. apply Hf in H as [-> Htr2].
    split; [done | by apply Forall_app].
Qed.

(** Two loops whose bodies return the same value return the same value. *)
Lemma forEach_agree {A S : Type} (body1 body2 : A -> S -> IM' S) (l : list A) :
  (forall a s, a ∈ l -> exists v, pureValue (body1 a s) v /\ pureValue (body2 a s) v) ->
  forall s, exists v, pureValue (forEach l body1 s) v /\ pureValue (forEach l body2 s) v.
Proof.
  induction l as [|a l IH]; intros Hbody s; simpl.
  { exists s. split; apply pureValue_ret. }
  destruct (Hbody a s) as (s1 & H1 & H2); [left|].
  destruct (IH (fun a' s' Hin => Hbody a' s' (list_elem_of_further _ _ _ Hin)) s1)
    as (v & Hv1 & Hv2).
  exists v. split; eapply pureValue_bind; eauto.
Qed.

Lemma forEachE_agree {A S : Type} (body1 body2 : A -> S -> IM' (error + S))
    (l : list A) :
  (forall a s, a ∈ l -> exists v, pureValue (body1 a s) v /\ pureValue (body2 a s) v) ->
  forall s, exists v, pureValue (forEachE l body1 s) v /\ pureValue (forEachE l body2 s) v.
Proof.
  induction l as [|a l IH]; intros Hbody s; simpl.
  { exists (inr s). split; apply pureValue_ret. }
  destruct (Hbody a s) as ([err|s1] & H1 & H2); [left| |].
  - exists (inl err). split; (eapply pureValue_bind; [eauto|apply pureValue_ret]).
  - destruct (IH (fun a' s' Hin => Hbody a' s' (list_elem_of_further _ _ _ Hin)) s1)
      as (v & Hv1 & Hv2).
    exists v. split; eapply pureValue_bind; eauto.
Qed.

(** An error a loop returns is one its body returned. *)
Lemma forEachE_error {A S : Type} (body : A -> S -> IM' (error + S)) (l : list A) err :
  forall s w w' tr,
    forEachE l body s w = (Returned (inl err), w', tr) ->
    exists a s1 w1 w2 tr1, a ∈ l /\ body a s1 w1 = (Returned (inl err), w2, tr1).
Proof.
  induction l as [|a l IH]; intros s w w' tr Hrun; simpl in Hrun; [run_inv|].
  apply bind_run in Hrun as [[_ [= ]] | ([err'|s1] & w1 & tr1 & tr2 & Hb & Hrest & ->)].
  - run_inv. do 5 eexists. split; [left | eassumption].
  - apply IH in Hrest as (a' & s' & w2 & w3 & tr3 & Hin & Hrun).
    exists a', s', w2, w3, tr3. split; [by right | done].
Qed.

Lemma forEach_pure {A S : Type} (body : A -> S -> IM' S) (l : list A) :
  (forall a s, a ∈ l -> exists v, pureValue (body a s) v) ->
  forall s, exists v, pureValue (forEach l body s) v.
Proof.
  intros Hbody s. destruct (forEach_agree body body l) with (s := s) as (v & Hv & _).
  - intros a s' Hin. destruct (Hbody a s' Hin) as [v Hv]. by exists v.
  - by exists v.
Qed.

Lemma forEachE_pure {A S : Type} (body : A -> S -> IM' (error + S)) (l : list A) :
  (forall a s, a ∈ l -> exists v, pureValue (body a s) v) ->
  forall s, exists v, pureValue (forEachE l body s) v.
Proof.
  intros Hbody s. destruct (forEachE_agree body body l) with (s := s) as (v & Hv & _).
  - intros a s' Hin. destruct (Hbody a s' Hin) as [v Hv]. by exists v.
  - by exists v.
Qed.

(** A loop whose body computes [step] computes the fold of [step]. *)
Lemma pureValue_forEach {A S : Type} (body : A -> S -> IM' S) (step : A -> S -> S)
    (l : list A) :
  (forall a s, a ∈ l -> pureValue (body a s) (step a s)) ->
  forall s, pureValue (forEach l body s) (fold_left (fun s a => step a s) l s).
Proof.
  induction l as [|a l IH]; intros Hbody s; simpl; [apply pureValue_ret|].
  eapply pureValue_bind; [apply Hbody; left|]. apply IH.
  intros a' s' Hin. apply Hbody. by right.
Qed.


Lemma forEach_const {A S : Type} (body : A -> S -> IM' S) (l : list A) (s : S) :
  (forall a, a ∈ l -> pureValue (body a s) s) -> pureValue (forEach l body s) s.
Proof.
  induction l as [|a l IH]; intros Hbody; simpl; [apply pureValue_ret|].
  eapply pureValue_bind; [apply Hbody; left|]. apply IH.
  intros a' Hin. apply Hbody. by right.
Qed.

(** *** The loop over the test reports *)

(** The loop never finds a test suite in the report it has handed over by
    value: it leaves the text as it is and the flag down. *)
Lemma reportLoop_pure TestReports TestName counts text :
  pureValue (reportLoop' TestReports TestName counts text) (false, text).
Proof.
  unfold reportLoop. apply forEach_const. intros [testname report] _.
  destruct (negb _); [apply pureValue_ret|].
  destruct (env.task_IToi _ _ _); [apply pureValue_log | apply pureValue_ret].
Qed.

(** *** The stages of a workflow *)

Ltac pure_step :=
  first
    [ apply pureValue_ret
    | apply pureValue_log
    | eapply pureValue_bind; [apply reportLoop_pure | cbv beta iota zeta; simpl] ].

Lemma stageSections_agree n reports subStage s :
  exists v,
    pureValue (stageSections' n subStage s) v /\
    pureValue (stageSections' (withTestReports n reports) subStage s) v.
Proof.
  unfold stageSections.
  repeat (destruct (String.eqb (task.TaskType subStage) _); simpl;
          [first [ by eexists; split; apply pureValue_ret | idtac ] | ]);
    try (by eexists; split; apply pureValue_ret).
  - unfold buildStage. apply forEachE_agree. intros [name sb] s' _. simpl.
    destruct (env.base_ToBuildTask _ _); [by eexists; split; apply pureValue_ret|].
    destruct (fold_left _ _ _).2 as [[[branch commitID] commitMsg] gitCommitURL].
    eexists; split; apply pureValue_ret.
  - unfold deployStage. apply forEachE_agree. intros [name sb] s' _. simpl.
    destruct (env.base_ToDeployTask _ _); eexists; split; apply pureValue_ret.
  - unfold testStage. apply forEachE_agree. intros [name sb] s' _. simpl.
    destruct (env.base_ToTestingTask _ _); [by eexists; split; apply pureValue_ret|].
    destruct (task.TestReports (Task n)), reports; eexists; split; repeat pure_step.
  - unfold distributeStage. apply forEachE_agree. intros [name sb] s' _. simpl.
    destruct (env.base_ToDistributeToS3Task _ _); eexists; split; apply pureValue_ret.
  - unfold distributeStage. apply forEachE_agree. intros [name sb] s' _. simpl.
    destruct (env.base_ToDistributeToS3Task _ _); eexists; split; apply pureValue_ret.
Qed.


(** *** The making of a body *)

Abbreviation made n :=
  (fun o : Obs SubTask Report Rest =>
     rendering o = true /\
     forall tplcontent data ans, o = ObsTemplate tplcontent data ans -> data = n).

Lemma errorLog_rendering n (tr : list (Obs SubTask Report Rest)) :
  Forall (fun o => errorLog o = true) tr ->
  Forall (made n) tr /\ omap rendered tr = [].
Proof.
  induction 1 as [|o tr Ho _ [IH1 IH2]]; [by split|].
  destruct o; try done. split; [by constructor | done].
Qed.

Lemma rendering_quiet n (tr : list (Obs SubTask Report Rest)) :
  Forall (made n) tr ->
  omap sent tr = [] /\
  Forall (fun o => subscription o = None /\ findError o = None) tr.
Proof.
  induction 1 as [|o tr [Ho _] _ [IH1 IH2]]; [by split|].
  destruct o; try done; split; try done; by constructor.
Qed.

Lemma bodyRun_pure {A : Type} n (m : IM' A) (v : A) w r w' tr :
  pureValue m v -> m w = (r, w', tr) -> bodyRun n r tr.
Proof.
  intros Hm Hrun. apply Hm in Hrun as [-> Hlogs]. split; [|split].
  - by apply errorLog_rendering.
  - done.
  - intros src Hin. rewrite Forall_forall in Hlogs. by apply Hlogs in Hin.
Qed.

Lemma bodyRun_bind {A B : Type} n (m : IM' A) (f : A -> IM' B) w r w' tr :
  (forall r w' tr, m w = (r, w', tr) -> bodyRun n r tr) ->
  (forall a w r w' tr, f a w = (r, w', tr) -> bodyRun n r tr) ->
  bind m f w = (r, w', tr) -> bodyRun n r tr.
Proof.
  intros Hm Hf Hrun.
  apply bind_run in Hrun as [[Hp ->] | (a & w1 & tr1 & tr2 & Ha & Hb & ->)].
  { apply Hm in Hp as (H1 & H2 & _). split; [done | split; [intros _; by apply H2 | done]]. }
  apply Hm in Ha as (Ha1 & _ & Ha3). apply Hf in Hb as (Hb1 & Hb2 & Hb3).
  split; [by apply Forall_app | split].
  - intros Hr. destruct (Hb2 Hr) as (src & Hlast). exists src.
    destruct tr2 as [|o tr2]; [done|]. by rewrite last_app_cons.
  - intros src [Hin|Hin]%elem_of_app; [|eauto]. by apply Ha3 in Hin.
Qed.

Ltac made_entry :=
  first [ by intros ? ? ? [= _ -> _] | by intros ? ? ? [= ] | done ].

Lemma getTplExec_spec tplcontent n w r w' tr :
  getTplExec' tplcontent n w = (r, w', tr) ->
  bodyRun n r tr /\
  exists ans,
    omap rendered tr = [(tplcontent, ans)] /\
    forall p, r = Returned p -> exists a, ans = Some a /\ p = (text a, execError a).
Proof.
  intros Hrun. apply getTplExec_run in Hrun
    as [[-> ->] | [(err & -> & ->) | (buffer & -> & ->)]].
  - split; [split; [repeat constructor; made_entry | split]|].
    + intros _. by exists tplcontent.
    + done.
    + exists None. split; [done|]. intros p [= ].
  - split; [split; [repeat constructor; made_entry | split]|].
    + done.
    + intros src Hin. set_unfold in Hin. naive_solver.
    + exists (Some (inl err)). split; [done|]. intros p [= <-]. by eexists.
  - split; [split; [repeat constructor; made_entry | split]|].
    + done.
    + intros src Hin. set_unfold in Hin. naive_solver.
    + exists (Some (inr buffer)). split; [done|]. intros p [= <-]. by eexists.
Qed.


(** *** [getHTMLTestReport] and [createNotifyBody] *)

Lemma getHTMLTestReport_pure task :
  exists testNames,
    pureValue (getHTMLTestReport' task) testNames /\
    (String.eqb (task.Type' task) (env.WorkflowType constants) = false -> testNames = []).
Proof.
  unfold getHTMLTestReport.
  destruct (String.eqb _ _); simpl.
  - match goal with
    | |- context [forEach ?l ?body ?s0] =>
        destruct (forEach_pure body l) with (s := s0) as [v Hv]; [|by exists v]
    end.
    intros stage s _. destruct (negb _); [by eexists; apply pureValue_ret|].
    apply forEach_pure. intros [testName subTask] s' _.
    destruct (env.base_ToTestingTask _ _); [by eexists; apply pureValue_log|].
    destruct (_ && _); eexists; apply pureValue_ret.
  - exists []. split; [apply pureValue_ret | done].
Qed.

Lemma createNotifyBody_spec n w r w' tr :
  createNotifyBody' n w = (r, w', tr) ->
  bodyRun n r tr /\
  exists tplcontent ans,
    omap rendered tr = [(tplcontent, ans)] /\
    forall p, r = Returned p -> exists a, ans = Some a /\ p = (text a, execError a).
Proof.
  unfold createNotifyBody. intros Hrun.
  destruct (getHTMLTestReport_pure (Task n)) as (testNames & Hnames & _).
  split.
  - eapply bodyRun_bind; [| |exact Hrun].
    + intros r0 w0 tr0 H0. by eapply bodyRun_pure.
    + intros names w0 r0 w0' tr0 H0. by apply getTplExec_spec in H0 as [? _].
  - apply bind_run in Hrun as [[Hp ->] | (names & w1 & tr1 & tr2 & Ha & Hb & ->)].
    { by destruct (Hnames _ _ _ _ Hp) as [[= ] _]. }
    destruct (Hnames _ _ _ _ Ha) as [_ Hlogs]. apply (errorLog_rendering n) in Hlogs as [_ Hlogs].
    apply getTplExec_spec in Hb as [_ (ans & Hans & Hret)].
    eexists _, ans. by rewrite omap_app, Hlogs, Hans.
Qed.


(** *** [createNotifyBodyOfWorkflowIM] *)

Lemma stageSections_pure n subStage s : exists v, pureValue (stageSections' n subStage s) v.
Proof. destruct (stageSections_agree n None subStage s) as (v & Hv & _). by exists v. Qed.

Lemma stageSections_error n subStage s w err w' tr :
  stageSections' n subStage s w = (Returned (inl err), w', tr) ->
  exists name sb,
    (name, sb) ∈ task.SubTasks subStage /\
    conversionError constants converters subStage sb = Some err.
Proof.
  unfold stageSections, conversionError.
  repeat (destruct (String.eqb (task.TaskType subStage) _); simpl;
          [first [ by intros Hrun; run_inv | idtac ] | ]);
    try (by intros Hrun; run_inv).
  - unfold buildStage. intros Hrun.
    apply forEachE_error in Hrun as ([name sb] & s1 & w1 & w2 & tr1 & Hin & Hrun).
    exists name, sb. split; [done|]. simpl in Hrun.
    destruct (env.base_ToBuildTask _ _); [by run_inv|].
    destruct (fold_left _ _ _).2 as [[[? ?] ?] ?]. run_inv.
  - unfold deployStage. intros Hrun.
    apply forEachE_error in Hrun as ([name sb] & s1 & w1 & w2 & tr1 & Hin & Hrun).
    exists name, sb. split; [done|]. simpl in Hrun.
    destruct (env.base_ToDeployTask _ _); by run_inv.
  - unfold testStage. intros Hrun.
    apply forEachE_error in Hrun as ([name sb] & s1 & w1 & w2 & tr1 & Hin & Hrun).
    exists name, sb. split; [done|]. simpl in Hrun.
    destruct (env.base_ToTestingTask _ _); [by run_inv|].
    destruct (task.TestReports _); [|by run_inv].
    apply bind_run in Hrun as [[_ [= ]] | (p & w3 & tr3 & tr4 & Ha & Hb & ->)].
    destruct p as [suffixEndline test]. run_inv.
  - unfold distributeStage. intros Hrun.
    apply forEachE_error in Hrun as ([name sb] & s1 & w1 & w2 & tr1 & Hin & Hrun).
    exists name, sb. split; [done|]. simpl in Hrun.
    destruct (env.base_ToDistributeToS3Task _ _); by run_inv.
  - unfold distributeStage. intros Hrun.
    apply forEachE_error in Hrun as ([name sb] & s1 & w1 & w2 & tr1 & Hin & Hrun).
    exists name, sb. split; [done|]. simpl in Hrun.
    destruct (env.base_ToDistributeToS3Task _ _); by run_inv.
Qed.

(** One template execution of a run that returns. *)
Ltac tpl_step :=
  match goal with
  | H : bind (getTplExec _ _ _ _) _ _ = (Returned _, _, _) |- _ =>
      let a := fresh "a" in
      let Hans := fresh "Hans" in
      let Hret := fresh "Hret" in
      let Hrest := fresh "Hrest" in
      apply bind_run in H as [[_ [= ]] | (? & ? & ? & ? & H & Hrest & ->)];
      apply getTplExec_spec in H as [_ (? & Hans & Hret)];
      destruct (Hret _ eq_refl) as (a & -> & ->); clear Hret
  end.

Ltac tpl_rewrite :=
  rewrite ?omap_app;
  repeat match goal with
    | H : omap rendered _ = _ |- _ => rewrite H; clear H
    end.

Lemma createNotifyBodyOfWorkflowIM_spec n w r w' tr :
  createNotifyBodyOfWorkflowIM' n w = (r, w', tr) ->
  bodyRun n r tr /\
  forall b, r = Returned b ->
    (exists err subStage name sb,
       b = (EmptyString, EmptyString, EmptyString, EmptyString, Some err) /\
       omap rendered tr = [] /\
       subStage ∈ task.Stages (Task n) /\
       (name, sb) ∈ task.SubTasks subStage /\
       conversionError constants converters subStage sb = Some err) \/
    (exists content title buttonContent buttonURL a1 a2 a3 a4,
       omap rendered tr = [(content, Some a1); (title, Some a2);
                           (buttonContent, Some a3); (buttonURL, Some a4)] /\
       b = (text a2, text a1, text a3, text a4, None)).
Proof.
  unfold createNotifyBodyOfWorkflowIM. intros Hrun.
  match type of Hrun with
  | context [forEachE ?l ?body ?s0] =>
      destruct (forEachE_pure body l) with (s := s0) as [v Hv];
      [intros; apply stageSections_pure|]
  end.
  split.
  - eapply bodyRun_bind; [| |exact Hrun].
    { intros r0 w0 tr0 H0. by eapply bodyRun_pure. }
    intros [err|s] w0 r0 w0' tr0 H0.
    { eapply bodyRun_pure; [apply pureValue_ret | exact H0]. }
    repeat (eapply bodyRun_bind; [| |exact H0];
            [intros; match goal with
                     | H : getTplExec _ _ _ _ _ = _ |- _ =>
                         by apply getTplExec_spec in H as [? _]
                     end|];
            clear H0; intros ? ? ? ? ? H0).
    eapply bodyRun_pure; [apply pureValue_ret | exact H0].
  - intros b ->.
    apply bind_run in Hrun as [[_ [= ]] | (v' & w1 & tr1 & tr2 & Ha & Hb & ->)].
    destruct (Hv _ _ _ _ Ha) as [[= ->] Hlogs].
    apply (errorLog_rendering n) in Hlogs as [_ Hlogs].
    destruct v as [err|s].
    + left. run_inv. rewrite app_nil_r.
      apply forEachE_error in Ha as (subStage & s1 & w2 & w3 & tr3 & Hin & Hrun).
      apply stageSections_error in Hrun as (name & sb & Hsb & Herr).
      by exists err, subStage, name, sb.
    + right. do 4 tpl_step. run_inv. tpl_rewrite. simpl.
      by eexists _, _, _, _, _, _, _, _.
Qed.


(** *** [createNotifyBodyOfTestIM] *)

Abbreviation testResults' := (testResults handle constants converters).

Lemma testResults_agree n reports tplcontent :
  exists v,
    pureValue (testResults' n tplcontent) v /\
    pureValue (testResults' (withTestReports n reports) tplcontent) v.
Proof.
  unfold testResults. apply forEach_agree. intros stage s _. simpl.
  destruct (negb _); [by eexists; split; apply pureValue_ret|].
  apply forEach_agree. intros [testName subTask] s' _.
  destruct (env.base_ToTestingTask _ _);
    [by eexists; split; apply pureValue_log|].
  destruct (_ && _); [|by eexists; split; apply pureValue_ret].
  destruct (task.TestReports (Task n)), reports; eexists; split; repeat pure_step.
Qed.

Lemma createNotifyBodyOfTestIM_spec desc n w r w' tr :
  createNotifyBodyOfTestIM' desc n w = (r, w', tr) ->
  bodyRun n r tr /\
  forall b, r = Returned b ->
    exists title content buttonURL,
      String.prefix "#### {{if ne .WebHookType " title = true /\
      if String.eqb (WebHookType n) (env.feiShuType constants) then
        exists a1 a2 a3,
          omap rendered tr = [(title, Some a1); (buttonURL, Some a2); (content, Some a3)] /\
          b = (text a1, text a3, "点击查看更多信息", text a2, None)
      else
        exists a,
          omap rendered tr = [(title +:+ content, Some a)] /\
          b = (title, text a, "点击查看更多信息", buttonURL, None).
Proof.
  unfold createNotifyBodyOfTestIM. intros Hrun.
  match type of Hrun with
  | context [testResults _ _ _ ?n ?s0] =>
      destruct (testResults_agree n None s0) as (v & Hv & _)
  end.
  split.
  - eapply bodyRun_bind; [| |exact Hrun].
    { intros r0 w0 tr0 H0. by eapply bodyRun_pure. }
    intros s w0 r0 w0' tr0 H0. destruct (negb _).
    all: repeat (eapply bodyRun_bind; [| |exact H0];
            [intros; match goal with
                     | H : getTplExec _ _ _ _ _ = _ |- _ =>
                         by apply getTplExec_spec in H as [? _]
                     end|];
            clear H0; intros ? ? ? ? ? H0).
    all: eapply bodyRun_pure; [apply pureValue_ret | exact H0].
  - intros b ->.
    apply bind_run in Hrun as [[_ [= ]] | (v' & w1 & tr1 & tr2 & Ha & Hb & ->)].
    destruct (Hv _ _ _ _ Ha) as [[= ->] Hlogs].
    apply (errorLog_rendering n) in Hlogs as [_ Hlogs].
    destruct (String.eqb (WebHookType n) _); simpl in Hb.
    + do 3 tpl_step. run_inv. tpl_rewrite. simpl.
      eexists _, _, _. split; [|by eexists _, _, _]. done.
    + tpl_step. run_inv. tpl_rewrite. simpl.
      eexists _, _, _. split; [|by eexists]. done.
Qed.


(** *** [SendInstantMessage] *)

Lemma notification_run task IsSingle webHookType atMobiles isAtAll w r w' tr :
  notification' task IsSingle webHookType atMobiles isAtAll w = (r, w', tr) ->
  exists BaseURI now,
    r = Returned (mkNotification task BaseURI IsSingle webHookType
                    (int64 (now - task.StartTime task)) atMobiles isAtAll) /\
    tr = [ObsSystemAddress BaseURI; ObsNow now].
Proof. unfold notification. intros Hrun. run_inv. by eexists _, _. Qed.

(** The last stage: nothing is sent without an address and a content; else
    one message is handed to the hook of the type, and an error it answers
    is logged and returned. *)
Lemma send_run task m w r w' tr :
  send' task m w = (r, w', tr) ->
  (tr = [] /\ r = Returned None /\
   (uri m = EmptyString \/ content m = EmptyString)) \/
  exists o ans,
    uri m <> EmptyString /\ content m <> EmptyString /\
    r = Returned ans /\
    (tr = [o] /\ ans = None \/ exists format, tr = [o; ObsErrorf format] /\ ans <> None) /\
    let single := String.eqb (task.Type' task) (env.SingleType constants) in
    let dingDing := String.eqb (webHookType m) (env.dingDingType constants) in
    let feiShu := String.eqb (webHookType m) (env.feiShuType constants) in
    (dingDing = true /\
     o = ObsDingDing (uri m) (if single then "工作流状态" else title m) (content m)
           (atMobiles m) ans) \/
    (dingDing = false /\ feiShu = true /\ single = true /\
     o = ObsFeishuSingle "工作流状态" (uri m) (content m) ans) \/
    (dingDing = false /\ feiShu = true /\ single = false /\
     o = ObsFeishu (uri m)
           [SetConfig true;
            SetHeader (env.getColorTemplateWithStatus constants (task.Status task))
              (title m) (env.feiShuTagText constants);
            AddI18NElementsZhcnFeild (content m);
            AddI18NElementsZhcnAction (buttonContent m) (buttonURL m)] ans) \/
    (dingDing = false /\ feiShu = false /\
     o = ObsWeChatWork
           (if single then env.weChatTextTypeText constants
            else env.weChatTextTypeMarkdown constants)
           (uri m) (title m +:+ content m) ans).
Proof.
  unfold send. intros Hrun.
  destruct (String.eqb (uri m) EmptyString) eqn:Huri; simpl in Hrun.
  { run_inv. left. apply String.eqb_eq in Huri. auto. }
  destruct (String.eqb (content m) EmptyString) eqn:Hcontent; simpl in Hrun.
  { run_inv. left. apply String.eqb_eq in Hcontent. auto. }
  apply String.eqb_neq in Huri, Hcontent. right. cbv zeta.
  destruct (String.eqb (webHookType m) (env.dingDingType constants));
    [|destruct (String.eqb (webHookType m) (env.feiShuType constants));
      [destruct (String.eqb (task.Type' task) (env.SingleType constants)) eqn:Hsingle|]].
  all: apply bind_run in Hrun as [[Hc [= ]] | (ans & w1 & tr1 & tr2 & Hc & Hrest & ->)];
    [by apply call_run in Hc as (? & _ & [= ] & _)|];
    apply call_run in Hc as (? & _ & [= <-] & ->);
    destruct ans as [err|]; run_inv; eexists _, _;
    (split; [done|]); (split; [done|]); (split; [done|]);
    (split; [first [ by left | right; by eexists ]|]).
  all: first [ by left | by right; left | by right; right; left | by right; right; right ].
Qed.


Abbreviation makeBody' := (makeBody handle constants converters).
Abbreviation hookOf' := (hookOf constants).
Abbreviation subscribed' := (subscribed constants).
Abbreviation lookedUp' := (lookedUp constants).

(** The stages of a run. *)
Lemma SendInstantMessage_run task testTaskStatusChanged w r w' tr :
  SendInstantMessage' task testTaskStatusChanged w = (r, w', tr) ->
  (tr = [] /\ r = Returned None) \/
  exists o0 tr',
    tr = o0 :: tr' /\ lookedUp' task o0 /\
    ((exists err format,
        findError o0 = Some err /\ tr' = [ObsErrorf format] /\ r = Returned (Some err)) \/
     (exists format,
        findError o0 = None /\ subscription o0 = None /\
        tr' = [ObsInfof format] /\ r = Returned None) \/
     (exists NotifyCtl,
        subscription o0 = Some NotifyCtl /\
        subscribed' o0 NotifyCtl task testTaskStatusChanged = false /\
        tr' = [] /\ r = Returned None) \/
     (exists NotifyCtl webHookType uri atMobiles isAtAll BaseURI now rb w1 w2 trB trS,
        subscription o0 = Some NotifyCtl /\
        subscribed' o0 NotifyCtl task testTaskStatusChanged = true /\
        hookOf' NotifyCtl = (webHookType, uri, atMobiles, isAtAll) /\
        tr' = ObsSystemAddress BaseURI :: ObsNow now :: trB ++ trS /\
        makeBody' o0
          (mkNotification task BaseURI
             (match o0 with ObsPipelineFind _ _ => true | _ => false end)
             webHookType (int64 (now - task.StartTime task)) atMobiles isAtAll)
          w1 = (rb, w2, trB) /\
        match rb with
        | Panicked => r = Panicked /\ trS = []
        | Returned (title, content, buttonContent, buttonURL, Some err) =>
            r = Returned (Some err) /\ exists format, trS = [ObsErrorf format]
        | Returned (title, content, buttonContent, buttonURL, None) =>
            send' task
              (mkMessage uri content webHookType atMobiles isAtAll title buttonContent
                 buttonURL) w2 = (r, w', trS)
        end)).
Proof.
  unfold SendInstantMessage.
  destruct (String.eqb (task.Type' task) (env.SingleType constants)) eqn:Hsingle;
    [|destruct (String.eqb (task.Type' task) (env.WorkflowType constants)) eqn:Hworkflow;
      [|destruct (String.eqb (task.Type' task) (env.TestType constants)) eqn:Htest]].
  4: { intros Hrun. apply send_run in Hrun as [(-> & -> & _) | (o & ans & Huri & _)];
         [by left | done]. }
  all: intros Hrun;
    apply bind_run in Hrun as [[Hc _] | (resp & w0 & tr0 & tr1 & Hc & Hrun & ->)];
    [by apply call_run in Hc as (? & _ & [= ] & _)|];
    apply call_run in Hc as (? & _ & [= <-] & ->);
    right; eexists _, _; (split; [reflexivity|]); (split; [by simpl|]);
    destruct resp as [err|resp];
    [run_inv; left; by eexists _, _|].
  1: destruct resp as [[NotifyCtl|]].
  3: destruct resp as [[NotifyCtl|]].
  5: destruct resp as [Desc [NotifyCtl|]].
  all: simpl in Hrun.
  2, 4, 6: run_inv; right; left; by eexists.
  all: right; right;
    match type of Hrun with
    | (if ?c then _ else _) _ = _ =>
        match goal with
        | |- context [subscription ?o] =>
            assert (Hsub : subscribed' o NotifyCtl task testTaskStatusChanged = c)
              by (unfold subscribed; simpl; try rewrite orb_false_r; reflexivity)
        end;
        destruct c
    end;
    [|apply send_run in Hrun as [(-> & -> & _) | (o & ans & Huri & _)];
      [left; by eexists | done]];
    right; destruct (hookOf _ NotifyCtl) as [[[webHookType uri] atMobiles] isAtAll] eqn:Hhook;
    apply bind_run in Hrun as [[Hn _] | (n & w1 & tr2 & tr3 & Hn & Hrun & ->)];
    [by apply notification_run in Hn as (? & ? & [= ] & _)|];
    apply notification_run in Hn as (BaseURI & now & [= ->] & ->);
    exists NotifyCtl, webHookType, uri, atMobiles, isAtAll, BaseURI, now; simpl observe.
  - apply bind_run in Hrun as [[Hb ->] | (p & w2 & trB & trS & Hb & Hrun & ->)].
    + exists Panicked, w1, w', tr3, []. rewrite app_nil_r.
      repeat (split; [done|]). split; [|done].
      simpl. unfold bind. by rewrite Hb.
    + exists (Returned (EmptyString, p.1, EmptyString, EmptyString, p.2)), w1, w2, trB, trS.
      repeat (split; [done|]). split.
      { simpl. unfold bind. rewrite Hb. simpl. by rewrite app_nil_r. }
      destruct p as [content [err|]]; simpl in *; [|done].
      run_inv. split; [done | by eexists].
  - apply bind_run in Hrun as [[Hb ->] | (b & w2 & trB & trS & Hb & Hrun & ->)].
    + exists Panicked, w1, w', tr3, []. rewrite app_nil_r. by repeat (split; [done|]).
    + exists (Returned b), w1, w2, trB, trS. repeat (split; [done|]).
      destruct b as [[[[title content] buttonContent] buttonURL] [err|]]; [|done].
      run_inv. split; [done | by eexists].
  - apply bind_run in Hrun as [[Hb ->] | (b & w2 & trB & trS & Hb & Hrun & ->)].
    + exists Panicked, w1, w', tr3, []. rewrite app_nil_r. by repeat (split; [done|]).
    + exists (Returned b), w1, w2, trB, trS. repeat (split; [done|]).
      destruct b as [[[[title content] buttonContent] buttonURL] [err|]]; [|done].
      run_inv. split; [done | by eexists].
Qed.


Lemma has_elem_of (NotifyTypes : list string) (status : string) :
  has NotifyTypes status = true <-> status ∈ NotifyTypes.
Proof.
  unfold has. rewrite bool_decide_eq_true. apply elem_of_list_to_set.
Qed.

Lemma makeBody_run o0 n w r w' tr :
  makeBody' o0 n w = (r, w', tr) -> bodyRun n r tr.
Proof.
  destruct o0 as [| | ? ? [?|resp] | | | | | | | | |]; simpl; intros Hrun;
    try (eapply bodyRun_pure; [apply pureValue_ret | exact Hrun]).
  - eapply bodyRun_bind; [| |exact Hrun].
    + intros ? ? ? H0. by apply createNotifyBody_spec in H0 as [? _].
    + intros ? ? ? ? ? H0. eapply bodyRun_pure; [apply pureValue_ret | exact H0].
  - by apply createNotifyBodyOfWorkflowIM_spec in Hrun as [? _].
  - by apply createNotifyBodyOfTestIM_spec in Hrun as [? _].
Qed.

(** The messages of a run: none before the last stage. *)
Lemma SendInstantMessage_sent task testTaskStatusChanged w r w' tr :
  SendInstantMessage' task testTaskStatusChanged w = (r, w', tr) ->
  omap sent tr = [] \/
  exists o0 NotifyCtl webHookType uri atMobiles isAtAll m w1 trB trS,
    tr = o0 :: trB ++ trS /\
    lookedUp' task o0 /\
    subscription o0 = Some NotifyCtl /\
    subscribed' o0 NotifyCtl task testTaskStatusChanged = true /\
    hookOf' NotifyCtl = (webHookType, uri, atMobiles, isAtAll) /\
    instantmessage.uri m = uri /\ instantmessage.webHookType m = webHookType /\
    instantmessage.atMobiles m = atMobiles /\
    omap sent trB = [] /\
    send' task m w1 = (r, w', trS).
Proof.
  intros Hrun. apply SendInstantMessage_run in Hrun
    as [[-> _] | (o0 & tr' & -> & Hlook & Hcases)]; [by left|].
  destruct Hcases as
    [(err & format & Herr & -> & _) |
     [(format & Herr & Hsub & -> & _) |
      [(NotifyCtl & Hsub & Hnot & -> & _) |
       (NotifyCtl & webHookType & uri & atMobiles & isAtAll & BaseURI & now & rb & w1
        & w2 & trB & trS & Hsub & Hyes & Hhook & -> & Hbody & Hrest)]]].
  1-3: left; destruct o0; try done; simpl in *; by simplify_eq.
  apply makeBody_run in Hbody as (Hquiet & _ & _).
  apply rendering_quiet in Hquiet as [Hquiet _].
  assert (Hhead : omap sent (o0 :: ObsSystemAddress BaseURI :: ObsNow now :: trB) = []).
  { destruct o0; try done; simpl in *. }
  destruct rb as [[[[[title content] buttonContent] buttonURL] [err|]]|].
  - destruct Hrest as [-> [format ->]]. left.
    change (omap sent ((o0 :: ObsSystemAddress BaseURI :: ObsNow now :: trB)
                         ++ [ObsErrorf format]) = []).
    by rewrite omap_app, Hhead.
  - right.
    exists o0, NotifyCtl, webHookType, uri, atMobiles, isAtAll,
      (mkMessage uri content webHookType atMobiles isAtAll title buttonContent buttonURL),
      w2, (ObsSystemAddress BaseURI :: ObsNow now :: trB), trS.
    repeat (split; [done|]). exact Hrest.
  - destruct Hrest as [-> ->]. left. by rewrite app_nil_r.
Qed.


Lemma hookOf_cases NotifyCtl webHookType uri atMobiles isAtAll :
  hookOf' NotifyCtl = (webHookType, uri, atMobiles, isAtAll) ->
  webHookType = models.WebHookType NotifyCtl /\
  ((String.eqb webHookType (env.dingDingType constants) = true /\
    uri = models.DingDingWebHook NotifyCtl /\ atMobiles = models.AtMobiles NotifyCtl) \/
   (String.eqb webHookType (env.dingDingType constants) = false /\
    String.eqb webHookType (env.feiShuType constants) = true /\
    uri = models.FeiShuWebHook NotifyCtl /\ atMobiles = []) \/
   (String.eqb webHookType (env.dingDingType constants) = false /\
    String.eqb webHookType (env.feiShuType constants) = false /\
    uri = models.WeChatWebHook NotifyCtl /\ atMobiles = [])).
Proof.
  unfold hookOf.
  destruct (String.eqb (models.WebHookType NotifyCtl) (env.dingDingType constants)) eqn:Hd;
    [|destruct (String.eqb (models.WebHookType NotifyCtl) (env.feiShuType constants))
        eqn:Hf];
    intros [= <- <- <- <-]; (split; [done|]); rewrite ?Hd, ?Hf; tauto.
Qed.

(** X18. A message is sent only for a subscription that is enabled and names the
    status of the task (a test is also notified of a changed status when its
    subscription names it), and to the hook of the type of the subscription:
    a DingDing hook gets the mobiles of the subscription, a FeiShu hook is
    chosen when the type is not DingDing's, the WeChat Work hook in every
    other case. The address is never empty. *)
Theorem SendInstantMessage_subscribed
    (task : task.Task SubTask Report Rest) (testTaskStatusChanged : bool) (w w' : W)
    (r : Outcome (option error)) (tr : list (Obs SubTask Report Rest))
    (o : Obs SubTask Report Rest) (uri : string) (ans : option error) :
  SendInstantMessage' task testTaskStatusChanged w = (r, w', tr) ->
  o ∈ tr -> sent o = Some (uri, ans) ->
  exists o0 NotifyCtl,
    head tr = Some o0 /\ lookedUp' task o0 /\ subscription o0 = Some NotifyCtl /\
    models.Enabled NotifyCtl = true /\
    (task.Status task ∈ models.NotifyTypes NotifyCtl \/
     testTaskStatusChanged = true /\
     env.StatusChanged constants ∈ models.NotifyTypes NotifyCtl /\
     exists name productName resp, o0 = ObsTestingFind name productName resp) /\
    uri <> EmptyString /\
    let dingDing :=
      String.eqb (models.WebHookType NotifyCtl) (env.dingDingType constants) in
    let feiShu :=
      String.eqb (models.WebHookType NotifyCtl) (env.feiShuType constants) in
    match o with
    | ObsDingDing _ _ _ atMobiles _ =>
        dingDing = true /\ uri = models.DingDingWebHook NotifyCtl /\
        atMobiles = models.AtMobiles NotifyCtl
    | ObsFeishuSingle _ _ _ _ | ObsFeishu _ _ _ =>
        dingDing = false /\ feiShu = true /\ uri = models.FeiShuWebHook NotifyCtl
    | ObsWeChatWork _ _ _ _ =>
        dingDing = false /\ feiShu = false /\ uri = models.WeChatWebHook NotifyCtl
    | _ => False
    end.
Proof.
  intros Hrun Hin Hsent. apply SendInstantMessage_sent in Hrun
    as [Hnone | (o0 & NotifyCtl & webHookType & uri' & atMobiles & isAtAll & m & w1
                 & trB & trS & -> & Hlook & Hsub & Hyes & Hhook & Hu & Hh & Hm
                 & HB & Hsend)].
  { exfalso. assert (Hbad : (uri, ans) ∈ omap sent tr)
      by (apply list_elem_of_omap; eauto).
    rewrite Hnone in Hbad. by apply elem_of_nil in Hbad. }
  assert (Ho : o ∈ trS).
  { apply elem_of_cons in Hin as [->|Hin].
    { destruct o0; try done; simpl in *; by simplify_eq. }
    apply elem_of_app in Hin as [Hin|Hin]; [|done]. exfalso.
    assert (Hbad : (uri, ans) ∈ omap sent trB) by (apply list_elem_of_omap; eauto).
    rewrite HB in Hbad. by apply elem_of_nil in Hbad. }
  apply hookOf_cases in Hhook as [-> Hhook].
  exists o0, NotifyCtl. split; [done|]. split; [done|]. split; [done|].
  unfold subscribed in Hyes. apply andb_true_iff in Hyes as [Hen Hyes].
  split; [done|]. split.
  { apply orb_true_iff in Hyes as [Hyes|Hyes]; [left; by apply has_elem_of|].
    right. destruct o0; try done.
    apply andb_true_iff in Hyes as [-> Hyes].
    split; [done|]. split; [by apply has_elem_of | by eexists _, _, _]. }
  apply send_run in Hsend as [(-> & _) | (o' & ans' & Huri & _ & _ & Htr & Hkind)].
  { by apply elem_of_nil in Ho. }
  assert (o = o') as <-.
  { destruct Htr as [[-> _] | (format & -> & _)]; set_unfold in Ho;
      destruct Ho as [->| [->|[]]] || destruct Ho as [->|[]]; done. }
  cbv zeta in *. rewrite Hu, Hh, Hm in *.
  destruct Hkind as [(Hd & ->) | [(Hd & Hf & _ & ->) | [(Hd & Hf & _ & ->)
                                                        | (Hd & Hf & ->)]]];
    simpl in Hsent; injection Hsent as <- <-; (split; [done|]);
    rewrite Hd, ?Hf in *;
    destruct Hhook as [(? & ? & ?) | [(? & ? & ? & ?) | (? & ? & ? & ?)]];
    simplify_eq; done.
Qed.

(** X19. A run sends at most one message, and its result is then what the hook
    answered: [nil], or the error of the hook. *)
Theorem SendInstantMessage_one_message
    (task : task.Task SubTask Report Rest) (testTaskStatusChanged : bool) (w w' : W)
    (r : Outcome (option error)) (tr : list (Obs SubTask Report Rest)) :
  SendInstantMessage' task testTaskStatusChanged w = (r, w', tr) ->
  omap sent tr = [] \/
  exists uri ans, omap sent tr = [(uri, ans)] /\ r = Returned ans.
Proof.
  intros Hrun. apply SendInstantMessage_sent in Hrun
    as [Hnone | (o0 & NotifyCtl & webHookType & uri' & atMobiles & isAtAll & m & w1
                 & trB & trS & -> & Hlook & Hsub & Hyes & Hhook & Hu & Hh & Hm
                 & HB & Hsend)]; [by left|].
  assert (Hhead : omap sent (o0 :: trB) = []).
  { destruct o0; try done; simpl in *; by simplify_eq. }
  change (o0 :: trB ++ trS) with ((o0 :: trB) ++ trS). rewrite omap_app, Hhead. simpl.
  apply send_run in Hsend as [(-> & _) | (o' & ans' & Huri & _ & -> & Htr & Hkind)];
    [by left|].
  right. exists (uri m), ans'. split; [|done]. cbv zeta in Hkind.
  destruct Hkind as [(Hd & ->) | [(Hd & Hf & _ & ->) | [(Hd & Hf & _ & ->)
                                                        | (Hd & Hf & ->)]]];
    destruct Htr as [[-> _] | (format & -> & _)]; done.
Qed.


(** X20. An error [SendInstantMessage] returns is the one the collection
    answered, the one the hook answered, for a pipeline the one the
    execution of the template made, or for a workflow the one a conversion of
    a sub task answered. For a workflow and for a test, an error of the
    execution of a template is never returned. *)
Theorem SendInstantMessage_error_origin
    (task : task.Task SubTask Report Rest) (testTaskStatusChanged : bool) (w w' : W)
    (err : error) (tr : list (Obs SubTask Report Rest)) :
  SendInstantMessage' task testTaskStatusChanged w = (Returned (Some err), w', tr) ->
  (exists o0, head tr = Some o0 /\ findError o0 = Some err) \/
  (exists o uri, o ∈ tr /\ sent o = Some (uri, Some err)) \/
  (String.eqb (task.Type' task) (env.SingleType constants) = true /\
   exists tplcontent n cause,
     ObsTemplate tplcontent n (Some (inl cause)) ∈ tr /\
     err = errorString ("getTplExec Execute err:" +:+ Error cause)) \/
  (String.eqb (task.Type' task) (env.SingleType constants) = false /\
   String.eqb (task.Type' task) (env.WorkflowType constants) = true /\
   exists subStage name sb,
     subStage ∈ task.Stages task /\ (name, sb) ∈ task.SubTasks subStage /\
     conversionError constants converters subStage sb = Some err).
Proof.
  intros Hrun. apply SendInstantMessage_run in Hrun
    as [[_ [= ]] | (o0 & tr' & -> & Hlook & Hcases)].
  destruct Hcases as
    [(err' & format & Herr & -> & [= ->]) |
     [(format & _ & _ & _ & [= ]) |
      [(NotifyCtl & _ & _ & _ & [= ]) |
       (NotifyCtl & webHookType & uri & atMobiles & isAtAll & BaseURI & now & rb & w1
        & w2 & trB & trS & Hsub & Hyes & Hhook & -> & Hbody & Hrest)]]].
  { left. by exists o0. }
  right.
  destruct rb as [[[[[title content] buttonContent] buttonURL] [err'|]]|];
    [| |by destruct Hrest as [[= ] _]].
  - destruct Hrest as [[= ->] _]. right.
    destruct o0 as [name resp|name resp|name productName [?|resp]| | | | | | | | |];
      try done; simpl in Hlook, Hbody.
    + left. destruct Hlook as [Hsingle _]. split; [done|].
      apply bind_run in Hbody as [[_ [= ]] | (p & w3 & tr1 & tr2 & Hb & Hret & ->)].
      apply ret_run in Hret as (Heq & _ & ->). injection Heq as _ _ _ _ Herr.
      apply createNotifyBody_spec in Hb as [_ (tplcontent & ans & Hans & Hret)].
      destruct (Hret _ eq_refl) as (a & -> & ->). destruct a as [cause|buffer]; [|done].
      simpl in Herr. injection Herr as ->. exists tplcontent.
      assert (Hin : (tplcontent, Some (inl cause)) ∈ omap rendered tr1)
        by (rewrite Hans; left).
      apply list_elem_of_omap in Hin as (o & Hin & Ho).
      destruct o; try done. simpl in Ho. simplify_eq.
      eexists _, cause. split; [|done]. right. right. right.
      rewrite app_nil_r. apply elem_of_app. by left.
    + right. destruct Hlook as (Hsingle & Hworkflow & _). split; [done|]. split; [done|].
      apply createNotifyBodyOfWorkflowIM_spec in Hbody as [_ Hb].
      destruct (Hb _ eq_refl)
        as [(err'' & subStage & name' & sb & Heq & _ & Hstage & Hsb & Hconv) |
            (? & ? & ? & ? & ? & ? & ? & ? & _ & [= ])].
      simpl in Hstage. simplify_eq. by exists subStage, name', sb.
    + apply createNotifyBodyOfTestIM_spec in Hbody as [_ Hb].
      destruct (Hb _ eq_refl) as (? & ? & ? & _ & Hcase).
      simpl in Hcase. destruct (String.eqb webHookType _);
        [destruct Hcase as (? & ? & ? & _ & [= ]) | destruct Hcase as (? & _ & [= ])].
  - left. apply send_run in Hrest as [(_ & [= ] & _) | (o & ans & _ & _ & [= <-] & Htr & Hkind)].
    exists o, (instantmessage.uri
                 (mkMessage uri content webHookType atMobiles isAtAll title buttonContent
                    buttonURL)).
    split.
    + right. right. right. apply elem_of_app. right.
      destruct Htr as [[-> _] | (format & -> & _)]; left.
    + cbv zeta in Hkind.
      destruct Hkind as [(_ & ->) | [(_ & _ & _ & ->) | [(_ & _ & _ & ->) | (_ & _ & ->)]]];
        done.
Qed.

(** X21. [SendInstantMessage] panics exactly when the template engine cannot
    parse a source it is handed; that call is then the last one, and nothing
    was sent. *)
Theorem SendInstantMessage_panic
    (task : task.Task SubTask Report Rest) (testTaskStatusChanged : bool) (w w' : W)
    (r : Outcome (option error)) (tr : list (Obs SubTask Report Rest)) :
  SendInstantMessage' task testTaskStatusChanged w = (r, w', tr) ->
  (r = Panicked <-> exists tplcontent n, ObsTemplate tplcontent n None ∈ tr) /\
  (r = Panicked ->
   omap sent tr = [] /\ exists tplcontent n, last tr = Some (ObsTemplate tplcontent n None)).
Proof.
  intros Hrun. apply SendInstantMessage_run in Hrun
    as [[-> ->] | (o0 & tr' & -> & Hlook & Hcases)].
  { split; [split; [done|]|done]. intros (? & ? & Hin). by apply elem_of_nil in Hin. }
  assert (Hnot : forall tplcontent n, o0 <> ObsTemplate tplcontent n None).
  { intros ? ? ->. done. }
  destruct Hcases as
    [(err' & format & Herr & -> & ->) |
     [(format & _ & _ & -> & ->) |
      [(NotifyCtl & _ & _ & -> & ->) |
       (NotifyCtl & webHookType & uri & atMobiles & isAtAll & BaseURI & now & rb & w1
        & w2 & trB & trS & Hsub & Hyes & Hhook & -> & Hbody & Hrest)]]].
  1-3: split; [split; [done|]|done]; intros (? & ? & Hin); set_unfold in Hin; naive_solver.
  apply makeBody_run in Hbody as (Hquiet & Hlast & Hpanic).
  assert (HB : forall src n, ObsTemplate src n None ∈ trB -> rb = Panicked).
  { intros src n Hin. rewrite Forall_forall in Hquiet.
    destruct (Hquiet _ Hin) as [_ Hdata]. rewrite (Hdata _ _ _ eq_refl) in Hin.
    by apply Hpanic in Hin. }
  destruct rb as [[[[[title content] buttonContent] buttonURL] [err'|]]|].
  - destruct Hrest as [-> [format ->]]. split; [split; [done|]|done].
    intros (src & n & Hin).
    apply elem_of_cons in Hin as [Hin|Hin]; [symmetry in Hin; by apply Hnot in Hin|].
    do 2 (apply elem_of_cons in Hin as [Hin|Hin]; [done|]).
    apply elem_of_app in Hin as [Hin|Hin]; [by apply HB in Hin|].
    by apply list_elem_of_singleton in Hin.
  - assert (r <> Panicked /\ forall src n, ObsTemplate src n None ∉ trS) as [Hr HS].
    { apply send_run in Hrest as [(-> & -> & _) | (o & ans & _ & _ & -> & Htr & Hkind)].
      { split; [done|]. intros ? ? Hin. by apply elem_of_nil in Hin. }
      split; [done|]. intros src n Hin. cbv zeta in Hkind.
      destruct Hkind as [(_ & ->) | [(_ & _ & _ & ->) | [(_ & _ & _ & ->) | (_ & _ & ->)]]];
        destruct Htr as [[-> _] | (format & -> & _)]; set_unfold in Hin; naive_solver. }
    split; [split; [done|]|done].
    intros (src & n & Hin).
    apply elem_of_cons in Hin as [Hin|Hin]; [symmetry in Hin; by apply Hnot in Hin|].
    do 2 (apply elem_of_cons in Hin as [Hin|Hin]; [done|]).
    apply elem_of_app in Hin as [Hin|Hin]; [by apply HB in Hin | by apply HS in Hin].
  - destruct Hrest as [-> ->]. destruct (Hlast eq_refl) as (src & Hl).
    assert (Hin : ObsTemplate src
                    (mkNotification task BaseURI
                       (match o0 with ObsPipelineFind _ _ => true | _ => false end)
                       webHookType (int64 (now - task.StartTime task)) atMobiles
                       isAtAll) None ∈ trB).
    { destruct trB as [|o trB _] using rev_ind; [done|].
      rewrite last_snoc in Hl. injection Hl as ->. apply elem_of_app. right. left. }
    split; [split; [intros _|done]|intros _].
    + eexists src, _. rewrite app_nil_r. do 3 right. exact Hin.
    + split.
      * apply rendering_quiet in Hquiet as [Hquiet _]. rewrite app_nil_r.
        destruct o0; try done; simpl in *.
      * eexists src, _. rewrite app_nil_r.
        destruct trB as [|o trB]; [done|]. exact Hl.
Qed.


Lemma send_rendered task m w r w' tr :
  send' task m w = (r, w', tr) -> omap rendered tr = [].
Proof.
  intros Hrun. apply send_run in Hrun as [(-> & _) | (o & ans & _ & _ & _ & Htr & Hkind)];
    [done|]. cbv zeta in Hkind.
  destruct Hkind as [(_ & ->) | [(_ & _ & _ & ->) | [(_ & _ & _ & ->) | (_ & _ & ->)]]];
    destruct Htr as [[-> _] | (format & -> & _)]; done.
Qed.

Lemma send_nothing task m w r w' tr :
  send' task m w = (r, w', tr) -> content m = EmptyString ->
  tr = [] /\ r = Returned None.
Proof.
  intros Hrun Hcontent.
  apply send_run in Hrun as [(-> & -> & _) | (o & ans & _ & Hne & _)]; done.
Qed.

(** X22. For a workflow and for a test, a failure of the template engine on the
    content is not an error of [SendInstantMessage]: when the execution of the
    content template (the first one a workflow hands to the engine, the last
    one a test does) answers an error, nothing is sent, and the run returns
    [nil] unless a later source does not parse. *)
Theorem SendInstantMessage_render_failure
    (task : task.Task SubTask Report Rest) (testTaskStatusChanged : bool) (w w' : W)
    (r : Outcome (option error)) (tr : list (Obs SubTask Report Rest))
    (tplcontent : string) (cause : error) :
  SendInstantMessage' task testTaskStatusChanged w = (r, w', tr) ->
  String.eqb (task.Type' task) (env.SingleType constants) = false ->
  (if String.eqb (task.Type' task) (env.WorkflowType constants)
   then head (omap rendered tr) else last (omap rendered tr))
  = Some (tplcontent, Some (inl cause)) ->
  omap sent tr = [] /\ (r = Returned None \/ r = Panicked).
Proof.
  intros Hrun Hsingle Hcontent. apply SendInstantMessage_run in Hrun
    as [[-> ->] | (o0 & tr' & -> & Hlook & Hcases)]; [by destruct (String.eqb _ (env.WorkflowType constants))|].
  assert (Ho0 : rendered o0 = None /\ sent o0 = None) by (by destruct o0).
  destruct Ho0 as [Ho0 Hs0].
  destruct Hcases as
    [(err' & format & Herr & -> & ->) |
     [(format & _ & _ & -> & ->) |
      [(NotifyCtl & _ & _ & -> & ->) |
       (NotifyCtl & webHookType & uri & atMobiles & isAtAll & BaseURI & now & rb & w1
        & w2 & trB & trS & Hsub & Hyes & Hhook & -> & Hbody & Hrest)]]].
  1-3: simpl in Hcontent; rewrite Ho0 in Hcontent;
    by destruct (String.eqb _ (env.WorkflowType constants)).
  assert (HS : omap rendered trS = [] /\
               (trS = [] -> omap sent (o0 :: ObsSystemAddress BaseURI :: ObsNow now
                                         :: trB ++ trS) = [])).
  { split.
    - destruct rb as [[[[[title content] buttonContent] buttonURL] [err'|]]|].
      + by destruct Hrest as [_ [format ->]].
      + by apply send_rendered in Hrest.
      + by destruct Hrest as [_ ->].
    - intros ->. rewrite app_nil_r. simpl. rewrite Hs0. simpl.
      apply makeBody_run in Hbody as (Hquiet & _).
      by apply rendering_quiet in Hquiet as [? _]. }
  destruct HS as [HS Hquiet].
  assert (Hr : omap rendered (o0 :: ObsSystemAddress BaseURI :: ObsNow now :: trB ++ trS)
               = omap rendered trB).
  { simpl. rewrite Ho0. simpl. by rewrite omap_app, HS, app_nil_r. }
  rewrite Hr in Hcontent. clear Hr.
  destruct rb as [b|]; [|destruct Hrest as [-> ->]; split; [by apply Hquiet | by right]].
  assert (Hempty : b.1.1.1.2 = EmptyString /\ b.2 = None).
  { destruct o0 as [name resp|name resp|name productName [?|resp]| | | | | | | | |];
      try done; simpl in Hlook, Hbody.
    - destruct Hlook as [Hs _]. by rewrite Hs in Hsingle.
    - destruct Hlook as (_ & Hw & _). rewrite Hw in Hcontent.
      apply createNotifyBodyOfWorkflowIM_spec in Hbody as [_ Hb].
      destruct (Hb _ eq_refl)
        as [(? & ? & ? & ? & _ & Hnone & _) |
            (? & ? & ? & ? & a1 & ? & ? & ? & Hans & ->)].
      + by rewrite Hnone in Hcontent.
      + rewrite Hans in Hcontent. by simplify_eq/=.
    - destruct Hlook as (_ & Hw & _). rewrite Hw in Hcontent.
      apply createNotifyBodyOfTestIM_spec in Hbody as [_ Hb].
      destruct (Hb _ eq_refl) as (? & ? & ? & _ & Hcase). simpl in Hcase.
      destruct (String.eqb webHookType _).
      + destruct Hcase as (? & ? & a3 & Hans & ->). rewrite Hans in Hcontent.
        by simplify_eq/=.
      + destruct Hcase as (a & Hans & ->). rewrite Hans in Hcontent. by simplify_eq/=. }
  destruct b as [[[[title content] buttonContent] buttonURL] err'].
  simpl in Hempty. destruct Hempty as [-> ->].
  apply send_nothing in Hrest as [-> ->]; [|done].
  split; [by apply Hquiet | by left].
Qed.

(** X23. The sources a workflow hands to the template engine do not depend on
    the test reports of the task, nor does the error returned: the counts of
    a report are never added to the line of its test. *)
Theorem createNotifyBodyOfWorkflowIM_ignores_reports
    (n : wechatNotification SubTask Report Rest)
    (TestReports : option (list (string * Report))) (w1 w1' w2 w2' : W)
    (b1 b2 : Body) (tr1 tr2 : list (Obs SubTask Report Rest)) :
  createNotifyBodyOfWorkflowIM' n w1 = (Returned b1, w1', tr1) ->
  createNotifyBodyOfWorkflowIM' (withTestReports n TestReports) w2
  = (Returned b2, w2', tr2) ->
  sources tr1 = sources tr2 /\ b1.2 = b2.2.
Proof.
  unfold createNotifyBodyOfWorkflowIM, sources. intros Hrun1 Hrun2.
  apply bind_run in Hrun1 as [[_ [= ]] | (v1 & w3 & tr3 & tr4 & Ha1 & Hb1 & ->)].
  apply bind_run in Hrun2 as [[_ [= ]] | (v2 & w4 & tr5 & tr6 & Ha2 & Hb2 & ->)].
  simpl in Ha2.
  match type of Ha1 with
  | forEachE ?l _ ?s0 _ = _ =>
      destruct (forEachE_agree (stageSections' n)
                  (stageSections' (withTestReports n TestReports)) l) with (s := s0)
        as (v & Hv1 & Hv2); [intros; apply stageSections_agree|]
  end.
  destruct (Hv1 _ _ _ _ Ha1) as [[= ->] Hlogs1].
  destruct (Hv2 _ _ _ _ Ha2) as [[= ->] Hlogs2].
  apply (errorLog_rendering n) in Hlogs1 as [_ Hlogs1].
  apply (errorLog_rendering n) in Hlogs2 as [_ Hlogs2].
  destruct v as [err|s]; simpl in Hb1, Hb2.
  - run_inv. by rewrite !app_nil_r, Hlogs1, Hlogs2.
  - do 8 tpl_step. run_inv. tpl_rewrite. done.
Qed.

(** X24. The sources a test hands to the template engine do not depend on the
    test reports of the task either: the loop over the reports adds nothing
    to the message. *)
Theorem createNotifyBodyOfTestIM_ignores_reports
    (desc : string) (n : wechatNotification SubTask Report Rest)
    (TestReports : option (list (string * Report))) (w1 w1' w2 w2' : W)
    (b1 b2 : Body) (tr1 tr2 : list (Obs SubTask Report Rest)) :
  createNotifyBodyOfTestIM' desc n w1 = (Returned b1, w1', tr1) ->
  createNotifyBodyOfTestIM' desc (withTestReports n TestReports) w2
  = (Returned b2, w2', tr2) ->
  sources tr1 = sources tr2.
Proof.
  unfold createNotifyBodyOfTestIM, sources. intros Hrun1 Hrun2.
  apply bind_run in Hrun1 as [[_ [= ]] | (v1 & w3 & tr3 & tr4 & Ha1 & Hb1 & ->)].
  apply bind_run in Hrun2 as [[_ [= ]] | (v2 & w4 & tr5 & tr6 & Ha2 & Hb2 & ->)].
  match type of Ha1 with
  | testResults _ _ _ _ ?s0 _ = _ =>
      destruct (testResults_agree n TestReports s0) as (v & Hv1 & Hv2)
  end.
  destruct (Hv1 _ _ _ _ Ha1) as [[= ->] Hlogs1].
  destruct (Hv2 _ _ _ _ Ha2) as [[= ->] Hlogs2].
  apply (errorLog_rendering n) in Hlogs1 as [_ Hlogs1].
  apply (errorLog_rendering n) in Hlogs2 as [_ Hlogs2].
  simpl in Hb1, Hb2. destruct (String.eqb (WebHookType n) _); simpl in Hb1, Hb2.
  - do 6 tpl_step. run_inv. tpl_rewrite. done.
  - do 2 tpl_step. run_inv. tpl_rewrite. done.
Qed.


Lemma prefix_app (p a b : string) :
  String.prefix p a = true -> String.prefix p (a +:+ b) = true.
Proof.
  revert a. induction p as [|c p IH]; intros a; [by destruct (a +:+ b)|].
  destruct a as [|c' a]; [done|].
  change (String c' a +:+ b) with (String c' (a +:+ b)). simpl.
  destruct (Ascii.ascii_dec c c'); [apply IH | done].
Qed.

(** X25. For a test, the title handed to a DingDing hook, and the beginning of the
    message handed to a WeChat Work hook, is the source of the title
    template, not the text the engine makes of it: the title is executed for
    a FeiShu hook only. *)
Theorem SendInstantMessage_test_title
    (task : task.Task SubTask Report Rest) (testTaskStatusChanged : bool) (w w' : W)
    (r : Outcome (option error)) (tr : list (Obs SubTask Report Rest))
    (name productName : string) (resp : error + models.Testing.t)
    (o : Obs SubTask Report Rest) :
  SendInstantMessage' task testTaskStatusChanged w = (r, w', tr) ->
  head tr = Some (ObsTestingFind name productName resp) ->
  String.eqb (env.dingDingType constants) (env.feiShuType constants) = false ->
  o ∈ tr ->
  match o with
  | ObsDingDing _ title _ _ _ => String.prefix "#### {{if ne .WebHookType " title = true
  | ObsWeChatWork _ _ content _ =>
      String.prefix "#### {{if ne .WebHookType " content = true
  | _ => True
  end.
Proof.
  intros Hrun Hhead Hne Hin. apply SendInstantMessage_run in Hrun
    as [[-> _] | (o0 & tr' & -> & Hlook & Hcases)]; [done|].
  injection Hhead as ->.
  destruct Hcases as
    [(err' & format & Herr & -> & ->) |
     [(format & _ & _ & -> & ->) |
      [(NotifyCtl & _ & _ & -> & ->) |
       (NotifyCtl & webHookType & uri & atMobiles & isAtAll & BaseURI & now & rb & w1
        & w2 & trB & trS & Hsub & Hyes & Hhook & -> & Hbody & Hrest)]]].
  1-3: set_unfold in Hin; destruct Hin as [->|Hin]; [done|]; try destruct Hin as [->|[]];
    try destruct Hin; done.
  destruct resp as [?|resp]; [done|]. simpl in Hbody, Hlook.
  destruct Hlook as (Hsingle & _).
  apply elem_of_cons in Hin as [->|Hin]; [done|].
  do 2 (apply elem_of_cons in Hin as [->|Hin]; [done|]).
  apply elem_of_app in Hin as [Hin|Hin].
  { apply createNotifyBodyOfTestIM_spec in Hbody as [(Hquiet & _) _].
    rewrite Forall_forall in Hquiet. apply Hquiet in Hin as [Hin _]. by destruct o. }
  destruct rb as [[[[[title content] buttonContent] buttonURL] [err'|]]|].
  - destruct Hrest as [_ [format ->]]. by apply list_elem_of_singleton in Hin as ->.
  - apply createNotifyBodyOfTestIM_spec in Hbody as [_ Hb].
    destruct (Hb _ eq_refl) as (title' & content' & buttonURL' & Hprefix & Hcase).
    simpl in Hcase.
    apply hookOf_cases in Hhook as [-> Hhook].
    apply send_run in Hrest as [(-> & _) | (o' & ans & _ & _ & _ & Htr & Hkind)];
      [by apply elem_of_nil in Hin|].
    cbv zeta in Hkind. simpl in Hkind. rewrite Hsingle in Hkind.
    destruct Hkind as [(Hd & ->) | [(Hd & Hf & [= ] & _) | [(Hd & Hf & _ & ->)
                                                           | (Hd & Hf & ->)]]].
    + apply String.eqb_eq in Hd. rewrite Hd, Hne in Hcase.
      destruct Hcase as (a & _ & [= -> _ _ _]).
      destruct Htr as [[-> _] | (format & -> & _)]; set_unfold in Hin;
        destruct Hin as [->|Hin]; try done; by destruct Hin as [->|[]].
    + destruct Htr as [[-> _] | (format & -> & _)]; set_unfold in Hin;
        destruct Hin as [->|Hin]; try done; by destruct Hin as [->|[]].
    + rewrite Hf in Hcase. destruct Hcase as (a & _ & [= -> -> _ _]).
      destruct Htr as [[-> _] | (format & -> & _)]; set_unfold in Hin;
        (destruct Hin as [->|Hin]; [by apply prefix_app|]); try done;
        by destruct Hin as [->|[]].
  - destruct Hrest as [_ ->]. by apply elem_of_nil in Hin.
Qed.


(** X26. The notification a template is executed on is the task itself, the
    system address and the time elapsed since the start of the task as the
    clock tells it, and of the subscription found its hook type and, for a
    DingDing hook only, its mobiles and its flag. *)
Theorem SendInstantMessage_template_data
    (task : task.Task SubTask Report Rest) (testTaskStatusChanged : bool) (w w' : W)
    (r : Outcome (option error)) (tr : list (Obs SubTask Report Rest))
    (tplcontent : string) (data : wechatNotification SubTask Report Rest)
    (ans : option (error + string)) :
  SendInstantMessage' task testTaskStatusChanged w = (r, w', tr) ->
  ObsTemplate tplcontent data ans ∈ tr ->
  exists o0 NotifyCtl BaseURI now,
    head tr = Some o0 /\ subscription o0 = Some NotifyCtl /\
    ObsSystemAddress BaseURI ∈ tr /\ ObsNow now ∈ tr /\
    let dingDing :=
      String.eqb (models.WebHookType NotifyCtl) (env.dingDingType constants) in
    data = mkNotification task BaseURI
             (String.eqb (task.Type' task) (env.SingleType constants))
             (models.WebHookType NotifyCtl)
             (int64 (now - task.StartTime task))
             (if dingDing then models.AtMobiles NotifyCtl else [])
             (if dingDing then models.IsAtAll NotifyCtl else false).
Proof.
  intros Hrun Hin. apply SendInstantMessage_run in Hrun
    as [[-> _] | (o0 & tr' & -> & Hlook & Hcases)]; [by apply elem_of_nil in Hin|].
  apply elem_of_cons in Hin as [<-|Hin]; [done|].
  destruct Hcases as
    [(err' & format & Herr & -> & ->) |
     [(format & _ & _ & -> & ->) |
      [(NotifyCtl & _ & _ & -> & ->) |
       (NotifyCtl & webHookType & uri & atMobiles & isAtAll & BaseURI & now & rb & w1
        & w2 & trB & trS & Hsub & Hyes & Hhook & -> & Hbody & Hrest)]]].
  1-3: set_unfold in Hin; naive_solver.
  do 2 (apply elem_of_cons in Hin as [Hin|Hin]; [done|]).
  exists o0, NotifyCtl, BaseURI, now. split; [done|]. split; [done|].
  split; [right; left|]. split; [right; right; left|].
  apply elem_of_app in Hin as [Hin|Hin].
  - apply makeBody_run in Hbody as (Hquiet & _).
    rewrite Forall_forall in Hquiet. destruct (Hquiet _ Hin) as [_ Hdata].
    rewrite (Hdata _ _ _ eq_refl). cbv zeta. unfold hookOf in Hhook.
    assert (Hs : match o0 with ObsPipelineFind _ _ => true | _ => false end
                 = String.eqb (task.Type' task) (env.SingleType constants)).
    { destruct o0; try done; simpl in Hlook; by destruct Hlook as [-> _]. }
    rewrite Hs.
    destruct (String.eqb (models.WebHookType NotifyCtl) (env.dingDingType constants));
      [|destruct (String.eqb (models.WebHookType NotifyCtl) (env.feiShuType constants))];
      by injection Hhook as <- <- <- <-.
  - exfalso.
    assert (Hnone : omap rendered trS = []).
    { destruct rb as [[[[[title content] buttonContent] buttonURL] [err'|]]|].
      - by destruct Hrest as [_ [format ->]].
      - by apply send_rendered in Hrest.
      - by destruct Hrest as [_ ->]. }
    assert (Hbad : (tplcontent, ans) ∈ omap rendered trS)
      by (apply list_elem_of_omap; eauto).
    rewrite Hnone in Hbad. by apply elem_of_nil in Hbad.
Qed.

(** *** The names of [getHTMLTestReport] *)

(** X27. [getHTMLTestReport] makes no call but error logs and returns in every
    world the same names: for a task of the workflow type, the keys of the
    sub tasks of its testing stages that convert to a function test with a
    report path; for any other task, none. *)
Theorem getHTMLTestReport_names
    (task : task.Task SubTask Report Rest) (w w' : W)
    (r : Outcome (list string)) (tr : list (Obs SubTask Report Rest)) :
  getHTMLTestReport' task w = (r, w', tr) ->
  exists testNames,
    r = Returned testNames /\ Forall (fun o => errorLog o = true) tr /\
    forall testName,
      testName ∈ testNames <->
      String.eqb (task.Type' task) (env.WorkflowType constants) = true /\
      exists stage subTask testInfo,
        stage ∈ task.Stages task /\
        String.eqb (task.TaskType stage) (env.TaskTestingV2 constants) = true /\
        (testName, subTask) ∈ task.SubTasks stage /\
        env.base_ToTestingTask converters subTask = inr testInfo /\
        String.eqb (task.Testing.JobCtx_TestType testInfo) (env.FunctionTest constants)
        = true /\
        task.Testing.JobCtx_TestReportPath testInfo <> EmptyString.
Proof.
  set (named := fun p : string * SubTask =>
         match env.base_ToTestingTask converters p.2 with
         | inl _ => []
         | inr testInfo =>
             if String.eqb (task.Testing.JobCtx_TestType testInfo)
                  (env.FunctionTest constants)
                && negb (String.eqb (task.Testing.JobCtx_TestReportPath testInfo)
                           EmptyString)
             then [p.1] else []
         end).
  set (staged := fun stage : task.Stage SubTask =>
         if negb (String.eqb (task.TaskType stage) (env.TaskTestingV2 constants))
         then [] else flat_map named (task.SubTasks stage)).
  assert (Hfold : forall {A} (f : A -> list string) l s,
             fold_left (fun s a => s ++ f a) l s = s ++ flat_map f l).
  { intros A f l. induction l as [|a l IH]; intros s; simpl; [by rewrite app_nil_r|].
    by rewrite IH, app_assoc. }
  assert (Hpure : pureValue (getHTMLTestReport' task)
                    (if String.eqb (task.Type' task) (env.WorkflowType constants)
                     then flat_map staged (task.Stages task) else [])).
  { unfold getHTMLTestReport. destruct (String.eqb _ _); simpl; [|apply pureValue_ret].
    rewrite <- (app_nil_l (flat_map _ _)), <- Hfold.
    apply (pureValue_forEach _ (fun stage s => s ++ staged stage)).
    intros stage s _. unfold staged. destruct (negb _).
    { rewrite app_nil_r. apply pureValue_ret. }
    rewrite <- Hfold.
    apply (pureValue_forEach _ (fun p s => s ++ named p)).
    intros [testName subTask] s' _. unfold named. simpl.
    destruct (env.base_ToTestingTask _ _).
    { rewrite app_nil_r. apply pureValue_log. }
    destruct (_ && _); [|rewrite app_nil_r]; apply pureValue_ret. }
  intros Hrun. apply Hpure in Hrun as [-> Hlogs]. eexists. split; [done|].
  split; [done|]. intros testName.
  destruct (String.eqb (task.Type' task) _).
  2: { split; [by intros ?%elem_of_nil | by intros [[= ] _]]. }
  rewrite list_elem_of_In, in_flat_map. setoid_rewrite <- list_elem_of_In. split.
  - intros (stage & Hstage & Hin). unfold staged in Hin.
    destruct (String.eqb (task.TaskType stage) _) eqn:Htype; simpl in Hin;
      [|by apply elem_of_nil in Hin].
    rewrite list_elem_of_In, in_flat_map in Hin. setoid_rewrite <- list_elem_of_In in Hin.
    destruct Hin as ([name subTask] & Hsub & Hin). unfold named in Hin. simpl in Hin.
    destruct (env.base_ToTestingTask _ _) as [?|testInfo] eqn:Hconv;
      [by apply elem_of_nil in Hin|].
    destruct (String.eqb (task.Testing.JobCtx_TestType testInfo) _) eqn:Hft;
      [|by apply elem_of_nil in Hin].
    destruct (String.eqb (task.Testing.JobCtx_TestReportPath testInfo) _) eqn:Hpath;
      [by apply elem_of_nil in Hin|].
    apply list_elem_of_singleton in Hin as ->. split; [done|].
    exists stage, subTask, testInfo. repeat (split; [done|]). by apply String.eqb_neq.
  - intros (_ & stage & subTask & testInfo & Hstage & Htype & Hsub & Hconv & Hft & Hpath).
    exists stage. split; [done|]. unfold staged. rewrite Htype. simpl.
    rewrite list_elem_of_In, in_flat_map. setoid_rewrite <- list_elem_of_In.
    exists (testName, subTask). split; [done|]. unfold named. simpl.
    rewrite Hconv, Hft. apply String.eqb_neq in Hpath. rewrite Hpath. left.
Qed.

(** *** The stage of a distribution *)

Lemma string_app_empty (a : string) : a +:+ EmptyString = a.
Proof. induction a as [|x a IH]; [done|]. rewrite string_app_cons. by f_equal. Qed.

(** A property of the state that every round keeps is kept by the loop, and
    a loop whose rounds make no call makes none. *)
Lemma forEachE_invariant {A S : Type} (P : S -> Prop)
    (body : A -> S -> IM' (error + S)) (l : list A) :
  (forall a s w s1 w1 tr1,
     P s -> body a s w = (Returned (inr s1), w1, tr1) -> P s1 /\ tr1 = []) ->
  forall s w s' w' tr,
    P s -> forEachE l body s w = (Returned (inr s'), w', tr) -> P s' /\ tr = [].
Proof.
  intros Hbody. induction l as [|a l IH]; intros s w s' w' tr Hs Hrun; simpl in Hrun.
  { run_inv. by split. }
  apply bind_run in Hrun as [[_ [= ]] | ([err|s1] & w1 & tr1 & tr2 & Hb & Hrest & ->)].
  { run_inv. }
  destruct (Hbody _ _ _ _ _ _ Hs Hb) as [Hs1 ->].
  by apply IH in Hrest.
Qed.

(** X28. In the loop over the stages of a workflow, a distribution stage assigns
    its heading to the text of the builds, not to its own: what the build
    stages before it have written is lost, and the lines of the distribution
    are added to a text that gets no heading. The texts of the deployments
    and of the tests are kept, and no call is made. *)
Theorem stageSections_distribute_overwrites_build
    (n : wechatNotification SubTask Report Rest) (subStage : task.Stage SubTask)
    (s s' : Sections) (w w' : W) (tr : list (Obs SubTask Report Rest)) :
  String.eqb (task.TaskType subStage) (env.TaskBuild constants) = false ->
  String.eqb (task.TaskType subStage) (env.TaskArtifact constants) = false ->
  String.eqb (task.TaskType subStage) (env.TaskDeploy constants) = false ->
  String.eqb (task.TaskType subStage) (env.TaskTestingV2 constants) = false ->
  String.eqb (task.TaskType subStage) (env.TaskDistribute constants)
  || String.eqb (task.TaskType subStage) (env.TaskDistributeToS3 constants) = true ->
  stageSections' n subStage s w = (Returned (inr s'), w', tr) ->
  build s' = "**分发** " +:+ nl /\
  deploy s' = deploy s /\ test s' = test s /\
  (exists lines, distribute s' = distribute s +:+ lines) /\
  tr = [].
Proof.
  intros Hb Ha Hd Ht Hdist. unfold stageSections. rewrite Hb, Ha, Hd, Ht, Hdist.
  unfold distributeStage. intros Hrun.
  match type of Hrun with
  | forEachE _ ?body ?s0 _ = _ =>
      apply (forEachE_invariant
               (fun s1 => build s1 = "**分发** " +:+ nl /\
                          deploy s1 = deploy s /\ test s1 = test s /\
                          exists lines, distribute s1 = distribute s +:+ lines)
               body) with (s := s0) in Hrun as [(H1 & H2 & H3 & H4) ->]
  end.
  - done.
  - intros [name sb] s0 w0 s1 w1 tr1 (H1 & H2 & H3 & lines & H4) Hround.
    simpl in Hround. destruct (env.base_ToDistributeToS3Task _ _) as [err|d]; [run_inv|].
    apply ret_run in Hround as ([= ->] & _ & ->). simpl. split; [|done]. repeat (split; [done|]). rewrite H4.
    destruct (String.eqb (WebHookType n) _); eexists; by rewrite string_app_assoc.
  - simpl. repeat (split; [done|]). exists EmptyString. by rewrite string_app_empty.
Qed.

End MessageProperties.

(** * Examples in the world held in memory *)

Lemma run_eta {A B C : Type} (p : A * B * C) : p = (p.1.1, p.1.2, p.2).
Proof. by destruct p as [[? ?] ?]. Qed.

(** The merge of the third scenario: [$image$] removed, [$tag$] added,
    [replicaCount] kept with its value. *)
Example UpdateChartTemplate_edited :
  (Mem.UpdateChartTemplate "nginx-chart" Mem.nginxArgs [] Mem.edited).1.1 = None /\
  models.Variables <$>
    (Mem.charts (Mem.UpdateChartTemplate "nginx-chart" Mem.nginxArgs [] Mem.edited).1.2
       !! "nginx-chart")
  = Some [commonmodels.mkVariable "replicaCount" "3"; commonmodels.mkVariable "tag" ""].
Proof. split; vm_compute; reflexivity. Qed.

(** C10 at an input: a value for [replicaCount] is passed in; the record
    written has no variable at all. *)
Lemma UpdateChartTemplateVariables_drops_args_witness :
  (Mem.UpdateChartTemplateVariables "nginx-chart"
     [mkVariable "replicaCount" "5"] [] Mem.stocked).2
  = [(0%nat, ObsGet "nginx-chart" (inr Mem.nginxChart));
     (0%nat, ObsUpdate
               (models.mkChart "nginx-chart" "koderover" "charts" "charts/nginx" "main" 1
                  (Mem.digest Mem.nginxTree) []) None)].
Proof.
  unfold Mem.UpdateChartTemplateVariables.
  rewrite (UpdateChartTemplateVariables_drops_args Mem.handle "nginx-chart"
             [mkVariable "replicaCount" "5"] [] Mem.stocked Mem.stocked Mem.nginxChart
             eq_refl).
  reflexivity.
Defined.

(** C7 at an input: a second create of the same name. *)
Lemma AddChartTemplate_duplicate_witness :
  Mem.AddChartTemplate "nginx-chart" Mem.devArgs [] Mem.stocked
  = (Some (errorString "a chart template with name nginx-chart is already existing"),
     Mem.stocked, [(0%nat, ObsExist "nginx-chart" true)]).
Proof.
  exact (AddChartTemplate_duplicate Mem.handle Mem.LocalChartTemplatePath
           Mem.ObjectStorageChartTemplatePath Mem.filepath_Base Mem.filepath_Join
           Mem.ValuesYaml "nginx-chart" Mem.devArgs [] Mem.stocked Mem.stocked eq_refl).
Defined.

(** C5 at an input: an update while the source is out of reach. *)
Lemma ingest_pull_failure_witness :
  (Mem.ingest Update "nginx-chart" Mem.nginxArgs [] Mem.sourceDown).1.1
  = Some Mem.SourceFetchError /\
  Forall (fun o => metadataWrite o.2 = false /\ tierWrite o.2 = false)
    (Mem.ingest Update "nginx-chart" Mem.nginxArgs [] Mem.sourceDown).2.
Proof.
  apply (ingest_pull_failure Mem.handle Mem.LocalChartTemplatePath
           Mem.ObjectStorageChartTemplatePath Mem.filepath_Base Mem.filepath_Join
           Mem.ValuesYaml Update "nginx-chart" Mem.nginxArgs [] Mem.sourceDown
           (Mem.ingest Update "nginx-chart" Mem.nginxArgs [] Mem.sourceDown).1.2).
  - apply run_eta.
  - vm_compute. repeat constructor.
Defined.

(** C6 at an input: an update while the Durable Store is out of reach. *)
Lemma ingest_task_failure_witness :
  (exists e' t' o',
     (Mem.ingest Update "nginx-chart" Mem.nginxArgs [true; false] Mem.durableOut).1.1
     = Some e' /\
     (t', o') ∈ (Mem.ingest Update "nginx-chart" Mem.nginxArgs [true; false]
                   Mem.durableOut).2 /\
     (persistFailure o' = Some e' \/ hashFailure o' = Some e')) /\
  Forall (fun o => metadataWrite o.2 = false)
    (Mem.ingest Update "nginx-chart" Mem.nginxArgs [true; false] Mem.durableOut).2.
Proof.
  apply (ingest_task_failure Mem.handle Mem.LocalChartTemplatePath
           Mem.ObjectStorageChartTemplatePath Mem.filepath_Base Mem.filepath_Join
           Mem.ValuesYaml Update "nginx-chart" Mem.nginxArgs [true; false] Mem.durableOut
           (Mem.ingest Update "nginx-chart" Mem.nginxArgs [true; false] Mem.durableOut).1.2
           _ _ 1%nat
           (ObsSaveAndUpload Mem.nginxTree "nginx-chart" "/local/nginx-chart"
              "/s3/nginx-chart" (Some Mem.PersistError))
           Mem.PersistError).
  - apply run_eta.
  - vm_compute. repeat constructor.
  - left. reflexivity.
Defined.

(** C2 at an input: an update when the source has not changed. *)
Lemma UpdateChartTemplate_same_fingerprint_witness :
  (Mem.UpdateChartTemplate "nginx-chart" Mem.nginxArgs [true; false] Mem.stocked).1.1 = None /\
  Forall (fun o => metadataWrite o.2 = false /\ variableRead o.2 = false)
    (Mem.UpdateChartTemplate "nginx-chart" Mem.nginxArgs [true; false] Mem.stocked).2 /\
  (1%nat, ObsSaveAndUpload Mem.nginxTree "nginx-chart" "/local/nginx-chart"
            "/s3/nginx-chart" None)
    ∈ (Mem.UpdateChartTemplate "nginx-chart" Mem.nginxArgs [true; false] Mem.stocked).2.
Proof.
  pose proof (UpdateChartTemplate_same_fingerprint Mem.handle Mem.LocalChartTemplatePath
                Mem.ObjectStorageChartTemplatePath Mem.filepath_Base Mem.filepath_Join
                Mem.ValuesYaml "nginx-chart" Mem.nginxArgs [true; false]
                Mem.stocked Mem.stocked _ Mem.nginxChart _ _
                eq_refl
                (run_eta (Mem.processChartFromSource "nginx-chart" Mem.nginxArgs
                            [true; false] Mem.stocked))
                eq_refl) as (Hrun & Hall & _).
  unfold Mem.UpdateChartTemplate, Mem.ingest, ingest. rewrite Hrun.
  split; [reflexivity|]. split; [exact Hall|].
  vm_compute. repeat constructor.
Defined.

(** C9 as stated fails: an update to another branch of a source whose
    content is the same returns [nil], and the record stored keeps the branch
    it had. *)
Lemma UpdateChartTemplate_keeps_descriptor :
  (Mem.UpdateChartTemplate "nginx-chart" Mem.devArgs [] Mem.stocked).1.1 = None /\
  fs.Branch Mem.devArgs = "dev" /\
  models.Branch <$>
    (Mem.charts (Mem.UpdateChartTemplate "nginx-chart" Mem.devArgs [] Mem.stocked).1.2
       !! "nginx-chart")
  = Some "main".
Proof. repeat split; vm_compute; reflexivity. Qed.

(** C9, amended, at an input: an update to another branch of a source
    whose content has changed. *)
Lemma UpdateChartTemplate_success_witness :
  exists chart tmpDir fileName sha tr1,
    (Mem.UpdateChartTemplate "nginx-chart" Mem.devArgs [] Mem.edited).2
    = (0%nat, ObsGet "nginx-chart" (inr chart)) :: tr1 /\
    (2%nat, ObsSha1 tmpDir fileName (sha, None)) ∈ tr1 /\
    ((sha = models.Sha1 chart /\
      Forall (fun o => metadataWrite o.2 = false)
        (Mem.UpdateChartTemplate "nginx-chart" Mem.devArgs [] Mem.edited).2) \/
     (sha <> models.Sha1 chart /\
      exists tr0 file valueYamlContent,
        (Mem.UpdateChartTemplate "nginx-chart" Mem.devArgs [] Mem.edited).2
        = tr0 ++ [(0%nat, ObsUpdate
                            (models.mkChart "nginx-chart" "koderover" "charts"
                               "charts/nginx" "dev" 1 sha
                               (mergeVariables (variablesOfContent valueYamlContent)
                                  (models.GetVariableMap chart))) None)] /\
        (0%nat, ObsReadFile file (inr valueYamlContent)) ∈ tr0 /\
        Forall (fun o => metadataWrite o.2 = false) tr0)).
Proof.
  apply (UpdateChartTemplate_success Mem.handle Mem.LocalChartTemplatePath
           Mem.ObjectStorageChartTemplatePath Mem.filepath_Base Mem.filepath_Join
           Mem.ValuesYaml "nginx-chart" Mem.devArgs [] Mem.edited
           (Mem.UpdateChartTemplate "nginx-chart" Mem.devArgs [] Mem.edited).1.2).
  vm_compute. reflexivity.
Defined.

(** C4 as stated fails: with the same answers to the two goroutines, the
    error the ingest returns is the one of the goroutine that finished last. *)
Lemma processChartFromSource_depends_on_schedule :
  let persistFirst := Mem.processChartFromSource "nginx-chart" Mem.nginxArgs [] Mem.bothOut in
  let hashFirst :=
    Mem.processChartFromSource "nginx-chart" Mem.nginxArgs
      [false; false; false; false] Mem.bothOut in
  entriesOf 1 persistFirst.2 = entriesOf 1 hashFirst.2 /\
  entriesOf 2 persistFirst.2 = entriesOf 2 hashFirst.2 /\
  persistFirst.1.1 = inl Mem.HashError /\
  hashFirst.1.1 = inl Mem.PersistError /\
  Mem.HashError <> Mem.PersistError.
Proof. cbv zeta. repeat split; try (vm_compute; reflexivity). discriminate. Qed.

(** C4, amended, at an input: both goroutines fail. *)
Lemma processChartFromSource_both_fail_witness :
  ((Mem.processChartFromSource "nginx-chart" Mem.nginxArgs [false; true] Mem.bothOut).1.1
   = inl Mem.PersistError \/
   (Mem.processChartFromSource "nginx-chart" Mem.nginxArgs [false; true] Mem.bothOut).1.1
   = inl Mem.HashError) /\
  forall e,
    (Mem.processChartFromSource "nginx-chart" Mem.nginxArgs [false; true] Mem.bothOut).1.1
    = inl e <->
    lastAssignedErr
      (Mem.processChartFromSource "nginx-chart" Mem.nginxArgs [false; true] Mem.bothOut).2
    = Some e.
Proof.
  apply (processChartFromSource_both_fail Mem.handle Mem.LocalChartTemplatePath
           Mem.ObjectStorageChartTemplatePath Mem.filepath_Base Mem.filepath_Join
           "nginx-chart" Mem.nginxArgs [false; true] Mem.bothOut
           (Mem.processChartFromSource "nginx-chart" Mem.nginxArgs [false; true]
              Mem.bothOut).1.2
           _ _ 1%nat 2%nat
           (ObsSaveAndUpload Mem.nginxTree "nginx-chart" "/local/nginx-chart"
              "/s3/nginx-chart" (Some Mem.PersistError))
           (ObsMkdirTemp (inl Mem.HashError))).
  - apply run_eta.
  - vm_compute. repeat constructor.
  - reflexivity.
  - vm_compute. repeat constructor.
  - reflexivity.
Defined.

(** ** The added properties at inputs *)

(** The temp dir is removed while the Durable Store is out of reach. *)
Lemma processChartFromSource_removes_tempdir_witness :
  (exists r',
     last (entriesOf 2 (Mem.processChartFromSource "nginx-chart" Mem.nginxArgs
                          [true; false] Mem.durableOut).2)
     = Some (ObsRemoveAll "/tmp/0" r')) /\
  (forall t' d r',
     (t', ObsRemoveAll d r')
       ∈ (Mem.processChartFromSource "nginx-chart" Mem.nginxArgs
            [true; false] Mem.durableOut).2 ->
     t' = 2%nat /\ d = "/tmp/0").
Proof.
  apply (processChartFromSource_removes_tempdir Mem.handle Mem.LocalChartTemplatePath
           Mem.ObjectStorageChartTemplatePath Mem.filepath_Base Mem.filepath_Join
           "nginx-chart" Mem.nginxArgs [true; false] Mem.durableOut
           (Mem.processChartFromSource "nginx-chart" Mem.nginxArgs [true; false]
              Mem.durableOut).1.2
           (Mem.processChartFromSource "nginx-chart" Mem.nginxArgs [true; false]
              Mem.durableOut).1.1
           _ 2%nat).
  - apply run_eta.
  - vm_compute. repeat constructor.
Defined.

(** Both goroutines run when no temp dir can be made and the Durable Store is
    out of reach; the template is named after the base of the path. *)
Lemma processChartFromSource_runs_both_witness :
  (exists r1,
     (1%nat, ObsSaveAndUpload Mem.nginxTree "nginx" "/local/nginx" "/s3/nginx" r1)
       ∈ (Mem.processChartFromSource "" Mem.nginxArgs [] Mem.bothOut).2) /\
  (exists r2,
     (2%nat, ObsMkdirTemp r2)
       ∈ (Mem.processChartFromSource "" Mem.nginxArgs [] Mem.bothOut).2) /\
  (forall t o,
     (t, o) ∈ (Mem.processChartFromSource "" Mem.nginxArgs [] Mem.bothOut).2 ->
     tierWrite o = true ->
     t = 1%nat /\
     exists r1,
       o = ObsSaveAndUpload Mem.nginxTree "nginx" "/local/nginx" "/s3/nginx" r1) /\
  Forall (fun o => metadataCall o.2 = false /\ variableRead o.2 = false)
    (Mem.processChartFromSource "" Mem.nginxArgs [] Mem.bothOut).2.
Proof.
  apply (processChartFromSource_runs_both Mem.handle Mem.LocalChartTemplatePath
           Mem.ObjectStorageChartTemplatePath Mem.filepath_Base Mem.filepath_Join
           "" Mem.nginxArgs [] Mem.bothOut
           (Mem.processChartFromSource "" Mem.nginxArgs [] Mem.bothOut).1.2
           (Mem.processChartFromSource "" Mem.nginxArgs [] Mem.bothOut).1.1
           _ Mem.nginxTree).
  - apply run_eta.
  - vm_compute. repeat constructor.
Defined.

(** The hash returned for the chart of [Mem.stocked]. *)
Lemma processChartFromSource_hash_of_pulled_tree_witness :
  exists tree tmpDir r',
    head (Mem.processChartFromSource "nginx-chart" Mem.nginxArgs [false] Mem.stocked).2
    = Some (0%nat, ObsDownload Mem.nginxArgs (inr tree)) /\
    (1%nat, ObsSaveAndUpload tree "nginx-chart" "/local/nginx-chart" "/s3/nginx-chart" None)
      ∈ (Mem.processChartFromSource "nginx-chart" Mem.nginxArgs [false] Mem.stocked).2 /\
    entriesOf 2 (Mem.processChartFromSource "nginx-chart" Mem.nginxArgs [false]
                   Mem.stocked).2
    = [ObsLog LDebug "Start to calculate sha1 for chart";
       ObsMkdirTemp (inr tmpDir);
       ObsTar tree (Mem.filepath_Join [tmpDir; "nginx.tar.gz"]) None;
       ObsSha1 tmpDir "nginx.tar.gz" (Mem.digest Mem.nginxTree, None);
       ObsAssignSha1 (Mem.digest Mem.nginxTree);
       ObsLog LDebug "Finish to calculate sha1 for chart";
       ObsRemoveAll tmpDir r'].
Proof.
  apply (processChartFromSource_hash_of_pulled_tree Mem.handle Mem.LocalChartTemplatePath
           Mem.ObjectStorageChartTemplatePath Mem.filepath_Base Mem.filepath_Join
           "nginx-chart" Mem.nginxArgs [false] Mem.stocked
           (Mem.processChartFromSource "nginx-chart" Mem.nginxArgs [false]
              Mem.stocked).1.2).
  vm_compute. reflexivity.
Defined.

(** The error returned when both collaborators are out is one of theirs. *)
Lemma processChartFromSource_error_origin_witness :
  (0%nat, ObsDownload Mem.nginxArgs (inl Mem.HashError))
    ∈ (Mem.processChartFromSource "nginx-chart" Mem.nginxArgs [] Mem.bothOut).2 \/
  exists t o,
    (t, o) ∈ (Mem.processChartFromSource "nginx-chart" Mem.nginxArgs [] Mem.bothOut).2 /\
    (persistFailure o = Some Mem.HashError \/ hashFailure o = Some Mem.HashError).
Proof.
  apply (processChartFromSource_error_origin Mem.handle Mem.LocalChartTemplatePath
           Mem.ObjectStorageChartTemplatePath Mem.filepath_Base Mem.filepath_Join
           "nginx-chart" Mem.nginxArgs [] Mem.bothOut
           (Mem.processChartFromSource "nginx-chart" Mem.nginxArgs [] Mem.bothOut).1.2).
  vm_compute. reflexivity.
Defined.

(** A create that goes through, with a store whose existence check lags. *)
Lemma AddChartTemplate_success_witness :
  exists tr0 chart valueYamlContent sha tmpDir fileName,
    head (AddChartTemplate Worlds.lagging Mem.LocalChartTemplatePath
            Mem.ObjectStorageChartTemplatePath Mem.filepath_Base Mem.filepath_Join
            Mem.ValuesYaml "nginx-chart" Mem.devArgs [] Mem.stocked).2
    = Some (0%nat, ObsExist "nginx-chart" false) /\
    (AddChartTemplate Worlds.lagging Mem.LocalChartTemplatePath
       Mem.ObjectStorageChartTemplatePath Mem.filepath_Base Mem.filepath_Join
       Mem.ValuesYaml "nginx-chart" Mem.devArgs [] Mem.stocked).2
    = tr0 ++ [(0%nat, ObsCreate
                        (models.mkChart "nginx-chart" "koderover" "charts" "charts/nginx"
                           "dev" 1 sha
                           ((fun k => commonmodels.mkVariable k EmptyString)
                              <$> variablesOfContent valueYamlContent)) None)] /\
    (2%nat, ObsSha1 tmpDir fileName (sha, None)) ∈ tr0 /\
    (0%nat, ObsGet "nginx-chart" (inr chart)) ∈ tr0 /\
    (0%nat, ObsReadFile
              (Mem.filepath_Join [Mem.LocalChartTemplatePath "nginx-chart";
                                  Mem.filepath_Base (models.Path chart);
                                  EmptyString; Mem.ValuesYaml])
              (inr valueYamlContent)) ∈ tr0 /\
    Forall (fun o => metadataWrite o.2 = false) tr0.
Proof.
  apply (AddChartTemplate_success Worlds.lagging Mem.LocalChartTemplatePath
           Mem.ObjectStorageChartTemplatePath Mem.filepath_Base Mem.filepath_Join
           Mem.ValuesYaml "nginx-chart" Mem.devArgs [] Mem.stocked
           (AddChartTemplate Worlds.lagging Mem.LocalChartTemplatePath
              Mem.ObjectStorageChartTemplatePath Mem.filepath_Base Mem.filepath_Join
              Mem.ValuesYaml "nginx-chart" Mem.devArgs [] Mem.stocked).1.2).
  vm_compute. reflexivity.
Defined.

(** The create of a first template, in a world that has none. *)
Lemma AddChartTemplate_record_not_found_witness :
  (Mem.AddChartTemplate "nginx-chart" Mem.nginxArgs [] Worlds.fresh).1.1
  = Some (withMessage (withMessage Mem.NotFoundError "failed to read values.yaml")
            "faild to prase variables") /\
  (exists tree name',
     (1%nat, ObsSaveAndUpload tree name' (Mem.LocalChartTemplatePath name')
               (Mem.ObjectStorageChartTemplatePath name') None)
       ∈ (Mem.AddChartTemplate "nginx-chart" Mem.nginxArgs [] Worlds.fresh).2) /\
  Forall (fun o => metadataWrite o.2 = false)
    (Mem.AddChartTemplate "nginx-chart" Mem.nginxArgs [] Worlds.fresh).2.
Proof.
  apply (AddChartTemplate_record_not_found Mem.handle Mem.LocalChartTemplatePath
           Mem.ObjectStorageChartTemplatePath Mem.filepath_Base Mem.filepath_Join
           Mem.ValuesYaml "nginx-chart" Mem.nginxArgs [] Worlds.fresh
           (Mem.AddChartTemplate "nginx-chart" Mem.nginxArgs [] Worlds.fresh).1.2).
  - apply run_eta.
  - vm_compute. repeat constructor.
Defined.

(** An update after the chart moved to another directory of its repository:
    the file is looked for under the base of the path of the record. *)
Lemma ingest_read_failure_witness :
  (Mem.ingest Update "nginx-chart" Mem.nginxArgs [] Worlds.moved).1.1
  = Some (withMessage (withMessage Mem.NotFoundError "failed to read values.yaml")
            "faild to prase variables") /\
  (exists tree name',
     (1%nat, ObsSaveAndUpload tree name' (Mem.LocalChartTemplatePath name')
               (Mem.ObjectStorageChartTemplatePath name') None)
       ∈ (Mem.ingest Update "nginx-chart" Mem.nginxArgs [] Worlds.moved).2) /\
  Forall (fun o => metadataWrite o.2 = false)
    (Mem.ingest Update "nginx-chart" Mem.nginxArgs [] Worlds.moved).2.
Proof.
  apply (ingest_read_failure Mem.handle Mem.LocalChartTemplatePath
           Mem.ObjectStorageChartTemplatePath Mem.filepath_Base Mem.filepath_Join
           Mem.ValuesYaml Update "nginx-chart" Mem.nginxArgs [] Worlds.moved
           (Mem.ingest Update "nginx-chart" Mem.nginxArgs [] Worlds.moved).1.2
           _ _ 0%nat
           (ObsReadFile "/local/nginx-chart/web/values.yaml" (inl Mem.NotFoundError))).
  - apply run_eta.
  - vm_compute. repeat constructor.
  - reflexivity.
Defined.

(** The two updates in a world that has no template. *)
Lemma update_record_not_found_witness :
  Mem.UpdateChartTemplate "nginx-chart" Mem.nginxArgs [] Worlds.fresh
  = (Some Mem.NotFoundError, Worlds.fresh,
     [(0%nat, ObsGet "nginx-chart" (inl Mem.NotFoundError));
      (0%nat, ObsLog LError "Failed to get chart template %s, err: %s")]) /\
  Mem.UpdateChartTemplateVariables "nginx-chart" [mkVariable "image" "nginx"] []
    Worlds.fresh
  = (Some Mem.NotFoundError, Worlds.fresh,
     [(0%nat, ObsGet "nginx-chart" (inl Mem.NotFoundError));
      (0%nat, ObsLog LError "Failed to get chart template %s, err: %s")]).
Proof.
  exact (update_record_not_found Mem.handle Mem.LocalChartTemplatePath
           Mem.ObjectStorageChartTemplatePath Mem.filepath_Base Mem.filepath_Join
           Mem.ValuesYaml "nginx-chart" Mem.nginxArgs [mkVariable "image" "nginx"] []
           Worlds.fresh Worlds.fresh Mem.NotFoundError eq_refl).
Defined.

(** The names of the chart of [Mem.stocked]. *)
Lemma parseTemplateVariables_success_witness :
  exists chart valueYamlContent,
    (parseTemplateVariables Mem.handle Mem.LocalChartTemplatePath
       Mem.ObjectStorageChartTemplatePath Mem.filepath_Base Mem.filepath_Join
       Mem.ValuesYaml "nginx-chart" [] Mem.stocked).2
    = [(0%nat, ObsGet "nginx-chart" (inr chart));
       (0%nat, ObsPreload "nginx-chart" (Mem.LocalChartTemplatePath "nginx-chart")
                 (Mem.ObjectStorageChartTemplatePath "nginx-chart") None);
       (0%nat, ObsReadFile
                 (Mem.filepath_Join [Mem.LocalChartTemplatePath "nginx-chart";
                                     Mem.filepath_Base (models.Path chart);
                                     EmptyString; Mem.ValuesYaml])
                 (inr valueYamlContent))] /\
    ["image"; "replicaCount"] = variablesOfContent valueYamlContent /\
    StronglySorted string_lt ["image"; "replicaCount"].
Proof.
  apply (parseTemplateVariables_success Mem.handle Mem.LocalChartTemplatePath
           Mem.ObjectStorageChartTemplatePath Mem.filepath_Base Mem.filepath_Join
           Mem.ValuesYaml "nginx-chart" [] Mem.stocked
           (parseTemplateVariables Mem.handle Mem.LocalChartTemplatePath
              Mem.ObjectStorageChartTemplatePath Mem.filepath_Base Mem.filepath_Join
              Mem.ValuesYaml "nginx-chart" [] Mem.stocked).1.2).
  vm_compute. reflexivity.
Defined.

(** A name found stands between two dollar signs. *)
Lemma variablesOfContent_sound_witness :
  clean false "image" = true /\
  exists pre post,
    "image: $image$" = pre +:+ String dollar ("image" +:+ String dollar post).
Proof.
  apply (variablesOfContent_sound "image: $image$" "image").
  vm_compute. repeat constructor.
Defined.

(** The merge of the keys of the record of [Mem.stocked] into themselves. *)
Lemma mergeVariables_same_keys_witness :
  mergeVariables (commonmodels.Key <$> models.Variables Mem.nginxChart)
    (models.GetVariableMap Mem.nginxChart)
  = models.Variables Mem.nginxChart.
Proof.
  apply (mergeVariables_same_keys Mem.nginxChart).
  apply (bool_decide_unpack _). vm_compute. reflexivity.
Defined.

(** The view of the template of [Mem.stocked]. *)
Lemma GetChartTemplate_view_witness :
  exists chart w2,
    (GetChartTemplate Mem.handle Mem.LocalChartTemplatePath
       Mem.ObjectStorageChartTemplatePath Mem.filepath_Base Mem.filepath_Join
       Worlds.GetFileInfos "nginx-chart" [] Mem.stocked).2
    = [(0%nat, ObsGet "nginx-chart" (inr chart));
       (0%nat, ObsPreload "nginx-chart" (Mem.LocalChartTemplatePath "nginx-chart")
                 (Mem.ObjectStorageChartTemplatePath "nginx-chart") None)] /\
    Worlds.GetFileInfos
      (Mem.filepath_Join [Mem.LocalChartTemplatePath "nginx-chart";
                          Mem.filepath_Base (models.Path chart)]) w2
    = (inr ["/local/nginx-chart/nginx/values.yaml"], Mem.stocked) /\
    "nginx-chart" = "nginx-chart" /\
    1 = models.CodeHostID chart /\
    "koderover" = models.Owner chart /\
    "charts" = models.Repo chart /\
    "charts/nginx" = models.Path chart /\
    "main" = models.Branch chart /\
    [mkVariable "image" ""; mkVariable "replicaCount" "3"]
    = (fun v => mkVariable (commonmodels.Key v) (commonmodels.Value v))
        <$> models.Variables chart.
Proof.
  apply (GetChartTemplate_view Mem.handle Mem.LocalChartTemplatePath
           Mem.ObjectStorageChartTemplatePath Mem.filepath_Base Mem.filepath_Join
           Worlds.GetFileInfos "nginx-chart" [] Mem.stocked Mem.stocked
           (service.mkChart "nginx-chart" 1 "koderover" "charts" "charts/nginx" "main"
              ["/local/nginx-chart/nginx/values.yaml"]
              [mkVariable "image" ""; mkVariable "replicaCount" "3"])).
  vm_compute. reflexivity.
Defined.

(** The view of a template whose chart has moved: no file is found under the
    path of the record. *)
Lemma GetChartTemplate_failure_witness :
  (GetChartTemplate Mem.handle Mem.LocalChartTemplatePath
     Mem.ObjectStorageChartTemplatePath Mem.filepath_Base Mem.filepath_Join
     Worlds.GetFileInfos "nginx-chart" [] Worlds.moved).2
  = [(0%nat, ObsGet "nginx-chart" (inl Mem.NotFoundError));
     (0%nat, ObsLog LError "Failed to get chart template %s, err: %s")] \/
  (exists chart,
     (GetChartTemplate Mem.handle Mem.LocalChartTemplatePath
        Mem.ObjectStorageChartTemplatePath Mem.filepath_Base Mem.filepath_Join
        Worlds.GetFileInfos "nginx-chart" [] Worlds.moved).2
     = [(0%nat, ObsGet "nginx-chart" (inr chart));
        (0%nat, ObsPreload "nginx-chart" (Mem.LocalChartTemplatePath "nginx-chart")
                  (Mem.ObjectStorageChartTemplatePath "nginx-chart")
                  (Some Mem.NotFoundError))]) \/
  (exists chart w2 w3,
     (GetChartTemplate Mem.handle Mem.LocalChartTemplatePath
        Mem.ObjectStorageChartTemplatePath Mem.filepath_Base Mem.filepath_Join
        Worlds.GetFileInfos "nginx-chart" [] Worlds.moved).2
     = [(0%nat, ObsGet "nginx-chart" (inr chart));
        (0%nat, ObsPreload "nginx-chart" (Mem.LocalChartTemplatePath "nginx-chart")
                  (Mem.ObjectStorageChartTemplatePath "nginx-chart") None);
        (0%nat, ObsLog LError
                  "Failed to get local chart template %s from path %s, err: %s")] /\
     Worlds.GetFileInfos
       (Mem.filepath_Join [Mem.LocalChartTemplatePath "nginx-chart";
                           Mem.filepath_Base (models.Path chart)]) w2
     = (inl Mem.NotFoundError, w3)).
Proof.
  apply (GetChartTemplate_failure Mem.handle Mem.LocalChartTemplatePath
           Mem.ObjectStorageChartTemplatePath Mem.filepath_Base Mem.filepath_Join
           Worlds.GetFileInfos "nginx-chart" [] Worlds.moved Worlds.moved).
  vm_compute. reflexivity.
Defined.


(** ** The instant messages at inputs *)

Section MessageExamples.

Import instantmessage.

Abbreviation run task testTaskStatusChanged world :=
  (Hooks.SendInstantMessage task testTaskStatusChanged world).

Abbreviation lastOf tr := (default (ObsInfof EmptyString) (last tr)).

(** The workflow that passed is announced on its DingDing hook. *)
Lemma SendInstantMessage_subscribed_witness :
  exists o0 NotifyCtl,
    head (run Hooks.release false (Hooks.office Hooks.plain false)).2 = Some o0 /\
    lookedUp Hooks.constants Hooks.release o0 /\
    subscription o0 = Some NotifyCtl /\
    models.Enabled NotifyCtl = true /\
    (task.Status Hooks.release ∈ models.NotifyTypes NotifyCtl \/
     false = true /\
     env.StatusChanged Hooks.constants ∈ models.NotifyTypes NotifyCtl /\
     exists name productName resp, o0 = ObsTestingFind name productName resp) /\
    "https://oapi.dingtalk.example/robot" <> EmptyString /\
    let dingDing :=
      String.eqb (models.WebHookType NotifyCtl) (env.dingDingType Hooks.constants) in
    let feiShu :=
      String.eqb (models.WebHookType NotifyCtl) (env.feiShuType Hooks.constants) in
    match lastOf (run Hooks.release false (Hooks.office Hooks.plain false)).2 with
    | ObsDingDing _ _ _ atMobiles _ =>
        dingDing = true /\
        "https://oapi.dingtalk.example/robot" = models.DingDingWebHook NotifyCtl /\
        atMobiles = models.AtMobiles NotifyCtl
    | ObsFeishuSingle _ _ _ _ | ObsFeishu _ _ _ =>
        dingDing = false /\ feiShu = true /\
        "https://oapi.dingtalk.example/robot" = models.FeiShuWebHook NotifyCtl
    | ObsWeChatWork _ _ _ _ =>
        dingDing = false /\ feiShu = false /\
        "https://oapi.dingtalk.example/robot" = models.WeChatWebHook NotifyCtl
    | _ => False
    end.
Proof.
  apply (SendInstantMessage_subscribed Hooks.handle Hooks.constants Hooks.converters
           Hooks.release false (Hooks.office Hooks.plain false)
           (run Hooks.release false (Hooks.office Hooks.plain false)).1.2
           (run Hooks.release false (Hooks.office Hooks.plain false)).1.1
           (run Hooks.release false (Hooks.office Hooks.plain false)).2
           (lastOf (run Hooks.release false (Hooks.office Hooks.plain false)).2)
           "https://oapi.dingtalk.example/robot" None).
  - apply run_eta.
  - vm_compute. repeat constructor.
  - vm_compute. reflexivity.
Defined.

(** One message for the workflow that passed. *)
Lemma SendInstantMessage_one_message_witness :
  omap sent (run Hooks.release false (Hooks.office Hooks.plain false)).2 = [] \/
  exists uri ans,
    omap sent (run Hooks.release false (Hooks.office Hooks.plain false)).2 = [(uri, ans)] /\
    (run Hooks.release false (Hooks.office Hooks.plain false)).1.1 = Returned ans.
Proof.
  apply (SendInstantMessage_one_message Hooks.handle Hooks.constants Hooks.converters
           Hooks.release false (Hooks.office Hooks.plain false)
           (run Hooks.release false (Hooks.office Hooks.plain false)).1.2).
  apply run_eta.
Defined.

(** The error of a hook that is out of reach, for a pipeline. *)
Lemma SendInstantMessage_error_origin_witness :
  (exists o0,
     head (run Hooks.nightly false (Hooks.office Hooks.plain true)).2 = Some o0 /\
     findError o0 = Some Hooks.HookError) \/
  (exists o uri,
     o ∈ (run Hooks.nightly false (Hooks.office Hooks.plain true)).2 /\
     sent o = Some (uri, Some Hooks.HookError)) \/
  (String.eqb (task.Type' Hooks.nightly) "single" = true /\
   exists tplcontent n cause,
     ObsTemplate tplcontent n (Some (inl cause))
       ∈ (run Hooks.nightly false (Hooks.office Hooks.plain true)).2 /\
     Hooks.HookError = errorString ("getTplExec Execute err:" +:+ Error cause)) \/
  (String.eqb (task.Type' Hooks.nightly) "single" = false /\
   String.eqb (task.Type' Hooks.nightly) "workflow" = true /\
   exists subStage name sb,
     subStage ∈ task.Stages Hooks.nightly /\ (name, sb) ∈ task.SubTasks subStage /\
     conversionError Hooks.constants Hooks.converters subStage sb = Some Hooks.HookError).
Proof.
  apply (SendInstantMessage_error_origin Hooks.handle Hooks.constants Hooks.converters
           Hooks.nightly false (Hooks.office Hooks.plain true)
           (run Hooks.nightly false (Hooks.office Hooks.plain true)).1.2).
  vm_compute. reflexivity.
Defined.

(** A workflow whose templates do not parse. *)
Lemma SendInstantMessage_panic_witness :
  ((run Hooks.release false (Hooks.office Hooks.strict false)).1.1 = Panicked <->
   exists tplcontent n,
     ObsTemplate tplcontent n None
       ∈ (run Hooks.release false (Hooks.office Hooks.strict false)).2) /\
  ((run Hooks.release false (Hooks.office Hooks.strict false)).1.1 = Panicked ->
   omap sent (run Hooks.release false (Hooks.office Hooks.strict false)).2 = [] /\
   exists tplcontent n,
     last (run Hooks.release false (Hooks.office Hooks.strict false)).2
     = Some (ObsTemplate tplcontent n None)).
Proof.
  apply (SendInstantMessage_panic Hooks.handle Hooks.constants Hooks.converters
           Hooks.release false (Hooks.office Hooks.strict false)
           (run Hooks.release false (Hooks.office Hooks.strict false)).1.2).
  apply run_eta.
Defined.

(** A workflow whose templates fail to execute: nothing reaches the hook. *)
Lemma SendInstantMessage_render_failure_witness :
  omap sent (run Hooks.release false (Hooks.office Hooks.failing false)).2 = [] /\
  ((run Hooks.release false (Hooks.office Hooks.failing false)).1.1 = Returned None \/
   (run Hooks.release false (Hooks.office Hooks.failing false)).1.1 = Panicked).
Proof.
  eapply (SendInstantMessage_render_failure Hooks.handle Hooks.constants Hooks.converters
            Hooks.release false (Hooks.office Hooks.failing false)).
  - apply run_eta.
  - reflexivity.
  - vm_compute. reflexivity.
Defined.

(** The body of the workflow, with its test reports and without. *)
Lemma createNotifyBodyOfWorkflowIM_ignores_reports_witness :
  sources
    (createNotifyBodyOfWorkflowIM Hooks.handle Hooks.constants Hooks.converters
       (mkNotification Hooks.release "https://zadig.example" false "wechat" 600 [] false)
       (Hooks.office Hooks.plain false)).2
  = sources
      (createNotifyBodyOfWorkflowIM Hooks.handle Hooks.constants Hooks.converters
         (withTestReports
            (mkNotification Hooks.release "https://zadig.example" false "wechat" 600 []
               false) None)
         (Hooks.office Hooks.plain false)).2.
Proof.
  eapply proj1,
    (createNotifyBodyOfWorkflowIM_ignores_reports Hooks.handle Hooks.constants
       Hooks.converters
       (mkNotification Hooks.release "https://zadig.example" false "wechat" 600 [] false)
       None (Hooks.office Hooks.plain false) _ (Hooks.office Hooks.plain false)).
  - vm_compute. reflexivity.
  - vm_compute. reflexivity.
Defined.

Lemma createNotifyBodyOfTestIM_ignores_reports_witness :
  sources
    (createNotifyBodyOfTestIM Hooks.handle Hooks.constants Hooks.converters "smoke tests"
       (mkNotification Hooks.smokeJob "https://zadig.example" false "feishu" 600 [] false)
       (Hooks.office Hooks.plain false)).2
  = sources
      (createNotifyBodyOfTestIM Hooks.handle Hooks.constants Hooks.converters "smoke tests"
         (withTestReports
            (mkNotification Hooks.smokeJob "https://zadig.example" false "feishu" 600 []
               false) None)
         (Hooks.office Hooks.plain false)).2.
Proof.
  eapply
    (createNotifyBodyOfTestIM_ignores_reports Hooks.handle Hooks.constants
       Hooks.converters "smoke tests"
       (mkNotification Hooks.smokeJob "https://zadig.example" false "feishu" 600 [] false)
       None (Hooks.office Hooks.plain false) _ (Hooks.office Hooks.plain false)).
  - vm_compute. reflexivity.
  - vm_compute. reflexivity.
Defined.

(** The message of the test that passed, on its WeChat Work hook. *)
Lemma SendInstantMessage_test_title_witness :
  exists textType uri content ans,
    last (run Hooks.smokeJob false (Hooks.office Hooks.plain false)).2
    = Some (ObsWeChatWork textType uri content ans) /\
    String.prefix "#### {{if ne .WebHookType " content = true.
Proof.
  eexists _, _, _, _. split; [vm_compute; reflexivity|].
  eapply (SendInstantMessage_test_title Hooks.handle Hooks.constants Hooks.converters
            Hooks.smokeJob false (Hooks.office Hooks.plain false) _ _ _ _ _ _
            (ObsWeChatWork _ _ _ _)).
  - apply run_eta.
  - vm_compute. reflexivity.
  - reflexivity.
  - vm_compute. repeat constructor.
Defined.

(** The notification the templates of the workflow are executed on. *)
Lemma SendInstantMessage_template_data_witness :
  exists tplcontent data ans,
    (run Hooks.release false (Hooks.office Hooks.plain false)).2 !! 3%nat
    = Some (ObsTemplate tplcontent data ans) /\
    exists o0 NotifyCtl BaseURI now,
      head (run Hooks.release false (Hooks.office Hooks.plain false)).2 = Some o0 /\
      subscription o0 = Some NotifyCtl /\
      ObsSystemAddress BaseURI ∈ (run Hooks.release false (Hooks.office Hooks.plain false)).2 /\
      ObsNow now ∈ (run Hooks.release false (Hooks.office Hooks.plain false)).2 /\
      data = mkNotification Hooks.release BaseURI
               (String.eqb (task.Type' Hooks.release) "single")
               (models.WebHookType NotifyCtl)
               (int64 (now - task.StartTime Hooks.release))
               (if String.eqb (models.WebHookType NotifyCtl) "dingding"
                then models.AtMobiles NotifyCtl else [])
               (if String.eqb (models.WebHookType NotifyCtl) "dingding"
                then models.IsAtAll NotifyCtl else false).
Proof.
  eexists _, _, _. split; [vm_compute; reflexivity|].
  eapply (SendInstantMessage_template_data Hooks.handle Hooks.constants Hooks.converters
            Hooks.release false (Hooks.office Hooks.plain false)).
  - apply run_eta.
  - vm_compute. repeat constructor.
Defined.

(** The names of the workflow: its one function test. *)
Lemma getHTMLTestReport_names_witness :
  exists testNames,
    (getHTMLTestReport Hooks.handle Hooks.constants Hooks.converters Hooks.release
       (Hooks.office Hooks.plain false)).1.1 = Returned testNames /\
    Forall (fun o => errorLog o = true)
      (getHTMLTestReport Hooks.handle Hooks.constants Hooks.converters Hooks.release
         (Hooks.office Hooks.plain false)).2 /\
    forall testName,
      testName ∈ testNames <->
      String.eqb (task.Type' Hooks.release) "workflow" = true /\
      exists stage subTask testInfo,
        stage ∈ task.Stages Hooks.release /\
        String.eqb (task.TaskType stage) "testingv2" = true /\
        (testName, subTask) ∈ task.SubTasks stage /\
        env.base_ToTestingTask Hooks.converters subTask = inr testInfo /\
        String.eqb (task.Testing.JobCtx_TestType testInfo) "function" = true /\
        task.Testing.JobCtx_TestReportPath testInfo <> EmptyString.
Proof.
  apply (getHTMLTestReport_names Hooks.handle Hooks.constants Hooks.converters
           Hooks.release (Hooks.office Hooks.plain false)
           (getHTMLTestReport Hooks.handle Hooks.constants Hooks.converters Hooks.release
              (Hooks.office Hooks.plain false)).1.2).
  apply run_eta.
Defined.

(** A distribution stage after the build of [app]: the line of the build is
    gone. *)
Lemma stageSections_distribute_overwrites_build_witness :
  let s :=
    mkSections "- app/app  status:passed" EmptyString EmptyString EmptyString in
  let s' :=
    mkSections ("**分发** " +:+ nl) EmptyString EmptyString
      ("- app  status:passed " +:+ nl) in
  build s' = "**分发** " +:+ nl /\
  deploy s' = deploy s /\ test s' = test s /\
  (exists lines, distribute s' = distribute s +:+ lines) /\
  ([] : list (Obs Hooks.SubTask unit unit)) = [].
Proof.
  apply (stageSections_distribute_overwrites_build Hooks.handle Hooks.constants
           Hooks.converters
           (mkNotification Hooks.release "https://zadig.example" false "dingding" 600
              ["13800000000"] false)
           (task.mkStage "distribute"
              [("app", Hooks.ofDistribute (task.DistributeToS3.mk "passed" "app"))])
           (mkSections "- app/app  status:passed" EmptyString EmptyString EmptyString)
           (mkSections ("**分发** " +:+ nl) EmptyString EmptyString
              ("- app  status:passed " +:+ nl))
           (Hooks.office Hooks.plain false) (Hooks.office Hooks.plain false) []);
    vm_compute; reflexivity.
Defined.

End MessageExamples.
